(** * cron-server.py: the schedule interpreter and the crontab editor

    A shallow embedding of [CronPreview] (parse_cron, get_common_patterns,
    explain_field, calculate_next_runs), of the three crontab operations
    of [CronMonitorServer] (get_cron_jobs, add_cron_job, delete_cron_job),
    of its log reader (get_cron_activity) and of the routes of do_GET.

    Conventions.
    - A Python [str] is a [string]; a character is a code point below 256
      (Latin-1).  The character classes below ([isspace], [isdigit_char],
      lower and upper case) are Python's on that range.
    - A Python [int] is a [Z].
    - The interpreter is CPython 3.11 on Linux: [int] refuses a literal
      of more than 4300 digits and [strftime] prints the year without
      padding.
    - [datetime.now()] is an argument [now] of the functions that read the
      clock.
    - The crontab tool and the temporary directory form an explicit
      [world]; operations on it are written in a state monad.
    - The log commands of get_cron_activity are an argument [run] that
      gives the outcome of each command.

    The model comes first, then the vocabulary of the statements, then the
    lemmas and the theorems, one group per property (C1 to C10, then X1
    to X22). *)

From Stdlib Require Import ZArith List Bool Ascii String Sorted Lia.
Import ListNotations.
Local Open Scope string_scope.
Local Open Scope Z_scope.

(* ================================================================== *)
(** * Python string operations *)

Module PyStr.

Definition code (c : ascii) : N := N_of_ascii c.

(** [str.isspace] on one character: U+0009..U+000D, U+001C..U+0020,
    U+0085 and U+00A0. *)
Definition isspace (c : ascii) : bool :=
  let n := code c in
  (((9 <=? n) && (n <=? 13)) || ((28 <=? n) && (n <=? 32))
   || (n =? 133) || (n =? 160))%N.

(** ASCII decimal digit. *)
Definition is_ascii_digit (c : ascii) : bool :=
  let n := code c in ((48 <=? n) && (n <=? 57))%N.

(** One character of [str.isdigit]: the ASCII digits and the superscripts
    U+00B2, U+00B3 and U+00B9. *)
Definition isdigit_char (c : ascii) : bool :=
  let n := code c in
  (is_ascii_digit c || (n =? 178) || (n =? 179) || (n =? 185))%N.

(** [s.isdigit()]: every character is a digit and there is at least one. *)
Fixpoint all_chars (p : ascii -> bool) (s : string) : bool :=
  match s with
  | EmptyString => true
  | String c r => p c && all_chars p r
  end.

Definition isdigit (s : string) : bool :=
  match s with
  | EmptyString => false
  | _ => all_chars isdigit_char s
  end.

(** [c in s] for a one-character [c]. *)
Fixpoint contains (c : ascii) (s : string) : bool :=
  match s with
  | EmptyString => false
  | String d r => Ascii.eqb d c || contains c r
  end.

(** [s.startswith(p)]. *)
Definition startswith (p s : string) : bool := String.prefix p s.

(** [s[n:]] for [n >= 0]. *)
Fixpoint drop (n : nat) (s : string) : string :=
  match n, s with
  | O, _ => s
  | S _, EmptyString => EmptyString
  | S n', String _ r => drop n' r
  end.

(** [s.lstrip()], [s.rstrip()] and [s.strip()]. *)
Fixpoint lstrip (s : string) : string :=
  match s with
  | EmptyString => EmptyString
  | String c r => if isspace c then lstrip r else s
  end.

Fixpoint rstrip (s : string) : string :=
  match s with
  | EmptyString => EmptyString
  | String c r =>
      match rstrip r with
      | EmptyString => if isspace c then EmptyString else String c EmptyString
      | r' => String c r'
      end
  end.

Definition strip (s : string) : string := rstrip (lstrip s).

(** [s.split(sep)] for a one-character separator: empty pieces are kept
    and the empty string gives one empty piece. *)
Fixpoint split (sep : ascii) (s : string) : list string :=
  match s with
  | EmptyString => [EmptyString]
  | String c r =>
      if Ascii.eqb c sep then EmptyString :: split sep r
      else match split sep r with
           | h :: t => String c h :: t
           | [] => [String c EmptyString]
           end
  end.

(** [s.split()]: maximal runs of characters that are not white space. *)
Fixpoint split_ws (s : string) : list string :=
  match s with
  | EmptyString => []
  | String c r =>
      if isspace c then split_ws r
      else match r with
           | EmptyString => [String c EmptyString]
           | String d _ =>
               if isspace d then String c EmptyString :: split_ws r
               else match split_ws r with
                    | t :: ts => String c t :: ts
                    | [] => [String c EmptyString]
                    end
           end
  end.

(** [sep.join(l)]. *)
Fixpoint join (sep : string) (l : list string) : string :=
  match l with
  | [] => EmptyString
  | [x] => x
  | x :: r => x ++ sep ++ join sep r
  end.

(** [str.lower] and the upper case of one character.  The three Latin-1
    characters whose upper case leaves the range (U+00B5, U+00DF, U+00FF)
    are left as they are; no caller below puts one first. *)
Definition lower_char (c : ascii) : ascii :=
  let n := code c in
  if (((65 <=? n) && (n <=? 90))
      || ((192 <=? n) && (n <=? 222) && negb (n =? 215)))%N
  then ascii_of_N (n + 32) else c.

Definition upper_char (c : ascii) : ascii :=
  let n := code c in
  if (((97 <=? n) && (n <=? 122))
      || ((224 <=? n) && (n <=? 254) && negb (n =? 247)))%N
  then ascii_of_N (n - 32) else c.

Fixpoint lower (s : string) : string :=
  match s with
  | EmptyString => EmptyString
  | String c r => String (lower_char c) (lower r)
  end.

(** [s.capitalize()]. *)
Definition capitalize (s : string) : string :=
  match s with
  | EmptyString => EmptyString
  | String c r => String (upper_char c) (lower r)
  end.

(** [int(s)] in base 10: white space around, an optional sign, then digits
    in groups separated by single underscores.  [None] is ValueError, which
    the interpreter also raises for a literal of more than 4300 digits, its
    default limit; the sign, the underscores and the white space do not
    count. *)
Definition digit_val (c : ascii) : Z := Z.of_N (code c) - 48.

Fixpoint int_digits (acc : Z) (after_digit : bool) (s : string) : option Z :=
  match s with
  | EmptyString => if after_digit then Some acc else None
  | String c r =>
      if is_ascii_digit c then int_digits (10 * acc + digit_val c) true r
      else if (Ascii.eqb c "_" && after_digit)%bool then
             match r with
             | EmptyString => None
             | String d _ =>
                 if is_ascii_digit d then int_digits acc false r else None
             end
           else None
  end.

Definition MAX_STR_DIGITS : Z := 4300.

Fixpoint count_digits (s : string) : Z :=
  match s with
  | EmptyString => 0
  | String c r => (if is_ascii_digit c then 1 else 0) + count_digits r
  end.

Definition int (s : string) : option Z :=
  if MAX_STR_DIGITS <? count_digits s then None
  else
    match strip s with
    | String "+" r => int_digits 0 false r
    | String "-" r => option_map Z.opp (int_digits 0 false r)
    | r => int_digits 0 false r
    end.

End PyStr.

(* ================================================================== *)
(** * Naive datetimes *)

Module DateTime.

(** A naive [datetime]: the minutes elapsed since 0001-01-01 00:00 and the
    microseconds elapsed within that minute.  [datetime.min] is minute 0
    and [datetime.max] lies in the last minute of 9999-12-31. *)
Record datetime : Set := mk { minute_index : Z; sub_minute : Z }.

Definition MAX_ORDINAL : Z := 3652059.
Definition MINUTES : Z := MAX_ORDINAL * 1440.

Definition representable (m : Z) : bool := (0 <=? m) && (m <? MINUTES).

(** [dt + timedelta(minutes=k)]; [None] is OverflowError (the timedelta or
    the sum is out of range). *)
Definition add_minutes (dt : datetime) (k : Z) : option datetime :=
  let m := minute_index dt + k in
  if representable m then Some (mk m (sub_minute dt)) else None.

(** [dt.replace(hour=h, minute=m, second=0, microsecond=0)]; [None] is
    ValueError (hour or minute out of range). *)
Definition replace_hour_minute (dt : datetime) (h m : Z) : option datetime :=
  if (0 <=? h) && (h <=? 23) && (0 <=? m) && (m <=? 59)
  then Some (mk (minute_index dt / 1440 * 1440 + h * 60 + m) 0)
  else None.

(** [dt.replace(minute=0, second=0, microsecond=0)]. *)
Definition replace_minute_zero (dt : datetime) : datetime :=
  mk (minute_index dt / 60 * 60) 0.

(** [a <= b]. *)
Definition le (a b : datetime) : bool :=
  (minute_index a <? minute_index b)
  || ((minute_index a =? minute_index b) && (sub_minute a <=? sub_minute b)).

(** The proleptic Gregorian calendar of the datetime module: ordinal 1 is
    0001-01-01. *)
Definition DAYS_IN_MONTH : list Z :=
  [-1; 31; 28; 31; 30; 31; 30; 31; 31; 30; 31; 30; 31].
Definition DAYS_BEFORE_MONTH : list Z :=
  [-1; 0; 31; 59; 90; 120; 151; 181; 212; 243; 273; 304; 334].

Definition b2z (b : bool) : Z := if b then 1 else 0.

(** The month and the day of the [n]-th day (from 0) of a year. *)
Definition month_day (n : Z) (leapyear : bool) : Z * Z :=
  let month := Z.shiftr (n + 50) 5 in
  let preceding :=
    nth (Z.to_nat month) DAYS_BEFORE_MONTH 0
    + b2z ((2 <? month) && leapyear) in
  if n <? preceding then
    let month := month - 1 in
    let preceding :=
      preceding
      - (nth (Z.to_nat month) DAYS_IN_MONTH 0
         + b2z ((month =? 2) && leapyear)) in
    (month, n - preceding + 1)
  else (month, n - preceding + 1).

Definition ord2ymd (ordinal : Z) : Z * Z * Z :=
  let n := ordinal - 1 in
  let n400 := n / 146097 in
  let n := n mod 146097 in
  let year := n400 * 400 + 1 in
  let n100 := n / 36524 in
  let n := n mod 36524 in
  let n4 := n / 1461 in
  let n := n mod 1461 in
  let n1 := n / 365 in
  let n := n mod 365 in
  let year := year + n100 * 100 + n4 * 4 + n1 in
  if (n1 =? 4) || (n100 =? 4) then (year - 1, 12, 31)
  else
    let leapyear := (n1 =? 3) && (negb (n4 =? 24) || (n100 =? 3)) in
    let '(month, day) := month_day n leapyear in
    (year, month, day).

(** Decimal fields.  The month, the day, the hour and the minute take two
    digits.  The year is printed as the C library of Linux prints [%Y],
    without padding: year 886 is [886]. *)
Definition digit (d : Z) : ascii := ascii_of_N (48 + Z.to_N (d mod 10)).

Definition pad2 (n : Z) : string :=
  String (digit (n / 10)) (String (digit n) EmptyString).

Definition pad4 (n : Z) : string :=
  String (digit (n / 1000)) (String (digit (n / 100)) (pad2 n)).

Definition year_text (y : Z) : string :=
  if y <? 10 then String (digit y) EmptyString
  else if y <? 100 then pad2 y
  else if y <? 1000 then String (digit (y / 100)) (pad2 y)
  else pad4 y.

(** [dt.strftime("%Y-%m-%d %H:%M")]. *)
Definition strftime (dt : datetime) : string :=
  let m := minute_index dt in
  let '(y, mo, d) := ord2ymd (m / 1440 + 1) in
  let t := m mod 1440 in
  year_text y ++ "-" ++ pad2 mo ++ "-" ++ pad2 d ++ " "
    ++ pad2 (t / 60) ++ ":" ++ pad2 (t mod 60).

(** The datetime of a calendar date and a time of day, for examples. *)
Definition is_leap (y : Z) : bool :=
  (y mod 4 =? 0) && (negb (y mod 100 =? 0) || (y mod 400 =? 0)).

Definition ymd2ord (y mo d : Z) : Z :=
  let y1 := y - 1 in
  y1 * 365 + y1 / 4 - y1 / 100 + y1 / 400
  + nth (Z.to_nat mo) DAYS_BEFORE_MONTH 0
  + b2z ((2 <? mo) && is_leap y) + d.

Definition at_ (y mo d h mi s : Z) : datetime :=
  mk ((ymd2ord y mo d - 1) * 1440 + h * 60 + mi) (s * 1000000).

End DateTime.

(* ================================================================== *)
(** * Exceptions *)

Inductive exn : Set :=
| UnpackError (expected got : nat) (* ValueError of a tuple assignment *)
| InvalidLiteral (s : string)      (* ValueError of [int(s)] *)
| CalledProcessError.              (* a command run with check=True failed *)

Inductive result (A : Type) : Type :=
| Ok (a : A)
| Raise (e : exn).
Arguments Ok {A} a.
Arguments Raise {A} e.

Definition bind {A B : Type} (m : result A) (k : A -> result B) : result B :=
  match m with
  | Ok a => k a
  | Raise e => Raise e
  end.

Declare Scope result_scope.
Delimit Scope result_scope with result.
Notation "x <- m ;; k" := (bind m (fun x => k))
  (at level 61, m at next level, right associativity) : result_scope.
Notation "' p <- m ;; k" := (bind m (fun x => let p := x in k))
  (at level 61, p pattern, m at next level, right associativity)
  : result_scope.
Local Open Scope result_scope.

(** [a, b = l]. *)
Definition unpack2 (l : list string) : result (string * string) :=
  match l with
  | [a; b] => Ok (a, b)
  | _ => Raise (UnpackError 2 (List.length l))
  end.

(** [int(s)] as a computation that may raise. *)
Definition int_of (s : string) : result Z :=
  match PyStr.int s with
  | Some n => Ok n
  | None => Raise (InvalidLiteral s)
  end.

(** [str(e)] is kept symbolic: the wording of the interpreter's messages
    is not part of the program. *)
Inductive text : Set :=
| Str (s : string)
| StrOfExn (e : exn).

(* ================================================================== *)
(** * CronPreview *)

Module CronPreview.

Import PyStr.
Import DateTime.

Record ParseResult : Set := mkParseResult {
  valid : bool;
  description : string;
  next_runs : list string;
  explanation : text;
  breakdown : option (list (string * string))
}.

(** ** get_common_patterns *)

Definition patterns : list (string * string) :=
  [ ("* * * * *", "Every minute");
    ("0 * * * *", "Every hour");
    ("0 0 * * *", "Daily at midnight");
    ("0 12 * * *", "Daily at noon");
    ("0 9 * * 1", "Every Monday at 9 AM");
    ("0 0 1 * *", "First day of every month");
    ("0 0 1 1 *", "Every New Year (January 1st)");
    ("*/5 * * * *", "Every 5 minutes");
    ("*/15 * * * *", "Every 15 minutes");
    ("*/30 * * * *", "Every 30 minutes");
    ("0 */6 * * *", "Every 6 hours");
    ("0 2 * * *", "Daily at 2 AM");
    ("0 0 * * 0", "Every Sunday at midnight");
    ("0 0 * * 1-5", "Weekdays at midnight");
    ("30 2 * * 1-5", "Weekdays at 2:30 AM") ].

Fixpoint dict_get (d : list (string * string)) (k : string) : option string :=
  match d with
  | [] => None
  | (k', v) :: r => if String.eqb k' k then Some v else dict_get r k
  end.

Definition get_common_patterns (expression : string) : option string :=
  dict_get patterns expression.

(** ** explain_field *)

Definition explain_field (field field_name : string) (min_val max_val : Z)
  : result string :=
  if String.eqb field "*" then Ok ("Any " ++ field_name)
  else if contains "/" field then
    if startswith "*/" field then
      Ok ("Every " ++ drop 2 field ++ " " ++ field_name ++ "s")
    else
      let parts := split "/" field in
      Ok ("Every " ++ nth 1 parts "" ++ " " ++ field_name
            ++ "s starting from " ++ nth 0 parts "")
  else if contains "," field then Ok (field_name ++ "s: " ++ field)
  else if contains "-" field then
    '(start, end_) <- unpack2 (split "-" field) ;;
    Ok (field_name ++ "s from " ++ start ++ " to " ++ end_)
  else Ok (field_name ++ " " ++ field).

(** ** The explanation phrases of parse_cron

    Each function is one of the five blocks of parse_cron and returns what
    the block appends to [explanation_parts]. *)

Definition minute_phrase (minute : string) : result (list string) :=
  if String.eqb minute "*" then Ok ["every minute"]
  else if contains "/" minute then
    if startswith "*/" minute then
      Ok ["every " ++ drop 2 minute ++ " minutes"]
    else
      Ok ["every " ++ nth 1 (split "/" minute) ""
            ++ " minutes starting at minute " ++ nth 0 (split "/" minute) ""]
  else if contains "," minute then Ok ["at minutes " ++ minute]
  else if contains "-" minute then
    '(start, end_) <- unpack2 (split "-" minute) ;;
    Ok ["from minute " ++ start ++ " to " ++ end_]
  else Ok ["at minute " ++ minute].

Definition hour_phrase (hour : string) : result (list string) :=
  if negb (String.eqb hour "*") then
    if contains "/" hour then
      if startswith "*/" hour then Ok ["every " ++ drop 2 hour ++ " hours"]
      else
        Ok ["every " ++ nth 1 (split "/" hour) ""
              ++ " hours starting at hour " ++ nth 0 (split "/" hour) ""]
    else if contains "," hour then Ok ["at hours " ++ hour]
    else if contains "-" hour then
      '(start, end_) <- unpack2 (split "-" hour) ;;
      Ok ["from hour " ++ start ++ " to " ++ end_]
    else Ok ["at " ++ hour ++ ":XX"]
  else Ok [].

Definition day_phrase (day : string) : result (list string) :=
  if negb (String.eqb day "*") then
    if contains "/" day then
      Ok ["every " ++ nth 1 (split "/" day) "" ++ " days"]
    else if contains "," day then Ok ["on days " ++ day]
    else if contains "-" day then
      '(start, end_) <- unpack2 (split "-" day) ;;
      Ok ["from day " ++ start ++ " to " ++ end_]
    else Ok ["on day " ++ day]
  else Ok [].

(** [s.isdigit() and lo <= int(s) <= hi]. *)
Definition digit_in_range (s : string) (lo hi : Z) : result bool :=
  if isdigit s then
    n <- int_of s ;; Ok ((lo <=? n) && (n <=? hi))
  else Ok false.

(** [[names[int(m) - base] for m in items
      if m.isdigit() and lo <= int(m) <= hi]]. *)
Fixpoint names_of (names : list string) (base lo hi : Z)
  (items : list string) : result (list string) :=
  match items with
  | [] => Ok []
  | m :: r =>
      ok <- digit_in_range m lo hi ;;
      if (ok : bool) then
        n <- int_of m ;;
        rest <- names_of names base lo hi r ;;
        Ok (nth (Z.to_nat (n - base)) names "" :: rest)
      else names_of names base lo hi r
  end.

Definition months : list string :=
  ["Jan"; "Feb"; "Mar"; "Apr"; "May"; "Jun";
   "Jul"; "Aug"; "Sep"; "Oct"; "Nov"; "Dec"].

Definition month_phrase (month : string) : result (list string) :=
  if negb (String.eqb month "*") then
    ok <- digit_in_range month 1 12 ;;
    if (ok : bool) then
      n <- int_of month ;;
      Ok ["in " ++ nth (Z.to_nat (n - 1)) months ""]
    else if contains "," month then
      month_names <- names_of months 1 1 12 (split "," month) ;;
      Ok ["in " ++ join ", " month_names]
    else Ok []
  else Ok [].

Definition days : list string :=
  ["Sunday"; "Monday"; "Tuesday"; "Wednesday"; "Thursday"; "Friday";
   "Saturday"].

Definition weekday_phrase (weekday : string) : result (list string) :=
  if negb (String.eqb weekday "*") then
    ok <- digit_in_range weekday 0 6 ;;
    if (ok : bool) then
      n <- int_of weekday ;;
      Ok ["on " ++ nth (Z.to_nat n) days ""]
    else if contains "," weekday then
      day_names <- names_of days 0 0 6 (split "," weekday) ;;
      Ok ["on " ++ join ", " day_names]
    else Ok []
  else Ok [].

(** ** calculate_next_runs

    The loops below build the list of the datetimes whose rendering the
    source appends to [next_runs]; [calculate_next_runs] renders them.  An
    exception raised inside the try block abandons the loop and leaves in
    [next_runs] what was appended before it. *)

(** [for i in range(count): next_runs.append(now + timedelta(minutes =
    step * (i + 1)))], from iteration [i] on. *)
Fixpoint offset_loop (now : datetime) (step i : Z) (count : nat)
  : list datetime :=
  match count with
  | O => []
  | S count' =>
      match add_minutes now (step * (i + 1)) with
      | None => []
      | Some next_run => next_run :: offset_loop now step (i + 1) count'
      end
  end.

(** The loop of the "specific time daily" branch. *)
Fixpoint daily_loop (now next_run : datetime) (count : nat) : list datetime :=
  match count with
  | O => []
  | S count' =>
      match (if le next_run now then add_minutes next_run 1440
             else Some next_run) with
      | None => []
      | Some next_run =>
          next_run ::
            match add_minutes next_run 1440 with
            | None => []
            | Some next_run => daily_loop now next_run count'
            end
      end
  end.

(** The loop of the "every hour" branch. *)
Fixpoint hourly_loop (next_run : datetime) (count : nat) : list datetime :=
  match count with
  | O => []
  | S count' =>
      next_run ::
        match add_minutes next_run 60 with
        | None => []
        | Some next_run => hourly_loop next_run count'
        end
  end.

(** Equality of two lists of strings. *)
Fixpoint list_eqb (a b : list string) : bool :=
  match a, b with
  | [], [] => true
  | x :: a', y :: b' => String.eqb x y && list_eqb a' b'
  | _, _ => false
  end.

Definition or_nothing {A : Type} (m : result (list A)) : list A :=
  match m with
  | Ok l => l
  | Raise _ => []
  end.

Definition run_datetimes (now : datetime) (parts : list string) (count : nat)
  : result (list datetime) :=
  match parts with
  | [minute; hour; day; month; weekday] =>
      Ok (if list_eqb parts ["*"; "*"; "*"; "*"; "*"] then
            offset_loop now 1 0 count
          else if startswith "*/" minute && String.eqb hour "*" then
            or_nothing
              (interval <- int_of (drop 2 minute) ;;
               Ok (offset_loop now interval 0 count))
          else if isdigit minute && isdigit hour then
            or_nothing
              (target_hour <- int_of hour ;;
               target_minute <- int_of minute ;;
               match replace_hour_minute now target_hour target_minute with
               | None => Ok []
               | Some next_run => Ok (daily_loop now next_run count)
               end)
          else if String.eqb minute "0" && String.eqb hour "*" then
            match add_minutes (replace_minute_zero now) 60 with
            | None => []
            | Some next_run => hourly_loop next_run count
            end
          else offset_loop now 60 0 count)
  | _ => Raise (UnpackError 5 (List.length parts))
  end.

Definition calculate_next_runs (now : datetime) (parts : list string)
  (count : nat) : result (list string) :=
  next_runs <- run_datetimes now parts count ;;
  Ok (firstn count (map strftime next_runs)).

(** ** parse_cron *)

Definition parse_cron_body (now : datetime) (expression : string)
  : result ParseResult :=
  let parts := split_ws (strip expression) in
  match parts with
  | [minute; hour; day; month; weekday] =>
      p1 <- minute_phrase minute ;;
      p2 <- hour_phrase hour ;;
      p3 <- day_phrase day ;;
      p4 <- month_phrase month ;;
      p5 <- weekday_phrase weekday ;;
      let explanation_parts := (p1 ++ p2 ++ p3 ++ p4 ++ p5)%list in
      let description :=
        match get_common_patterns expression with
        | Some d => d
        | None => capitalize (join " " explanation_parts)
        end in
      next_runs <- calculate_next_runs now parts 5 ;;
      b1 <- explain_field minute "minute" 0 59 ;;
      b2 <- explain_field hour "hour" 0 23 ;;
      b3 <- explain_field day "day of month" 1 31 ;;
      b4 <- explain_field month "month" 1 12 ;;
      b5 <- explain_field weekday "day of week" 0 6 ;;
      Ok {| valid := true;
            description := description;
            next_runs := next_runs;
            explanation := Str (capitalize (join " " explanation_parts));
            breakdown := Some [("minute", b1); ("hour", b2); ("day", b3);
                               ("month", b4); ("weekday", b5)] |}
  | _ =>
      Ok {| valid := false;
            description := "Invalid cron expression - must have 5 parts";
            next_runs := [];
            explanation := Str "Cron format: minute hour day month weekday";
            breakdown := None |}
  end.

Definition parse_cron (now : datetime) (expression : string) : ParseResult :=
  match parse_cron_body now expression with
  | Ok r => r
  | Raise e =>
      {| valid := false;
         description := "Error parsing cron expression";
         next_runs := [];
         explanation := StrOfExn e;
         breakdown := None |}
  end.

End CronPreview.

(* ================================================================== *)
(** * The crontab tool and the temporary directory *)

Definition LF : ascii := ascii_of_N 10.
Definition CR : ascii := ascii_of_N 13.
Definition NL : string := String LF EmptyString.

(** What [text=True] does to the output of a command: a carriage return,
    with the line feed that follows it if there is one, is read as one
    line feed. *)
Fixpoint universal_newlines (s : string) : string :=
  match s with
  | EmptyString => EmptyString
  | String c r =>
      if Ascii.eqb c CR then
        String LF
          match r with
          | EmptyString => EmptyString
          | String d r' =>
              if Ascii.eqb d LF then universal_newlines r'
              else universal_newlines r
          end
      else String c (universal_newlines r)
  end.

(** The world the server acts on: the installed table ([None] when the
    user has none, in which case [crontab -l] fails), and the temporary
    files, each a name and its contents.  [crontab -l] prints the
    installed text as it was installed; files are written and read back
    without loss (the encoding of the text is not modelled). *)
Record world : Set := mkWorld {
  crontab : option string;
  temp_files : list (nat * string);
  next_temp : nat
}.

(** Computations on the world that may raise. *)
Definition M (A : Type) : Type := world -> result A * world.

Definition ret {A : Type} (a : A) : M A := fun w => (Ok a, w).

Definition raise {A : Type} (e : exn) : M A := fun w => (Raise e, w).

Definition bindM {A B : Type} (m : M A) (k : A -> M B) : M B :=
  fun w =>
    match m w with
    | (Ok a, w') => k a w'
    | (Raise e, w') => (Raise e, w')
    end.

(** [try: m  except: h]. *)
Definition try_except {A : Type} (m : M A) (h : exn -> M A) : M A :=
  fun w =>
    match m w with
    | (Ok a, w') => (Ok a, w')
    | (Raise e, w') => h e w'
    end.

Declare Scope world_scope.
Delimit Scope world_scope with world.
Notation "x <~ m ;; k" := (bindM m (fun x => k))
  (at level 61, m at next level, right associativity) : world_scope.
Notation "m ;;; k" := (bindM m (fun _ => k))
  (at level 61, right associativity) : world_scope.

Module CronMonitorServer.

Import PyStr.
Local Open Scope world_scope.

(** [subprocess.run(['crontab', '-l'], capture_output=True, text=True,
    check=True).stdout]. *)
Definition crontab_list : M string :=
  fun w =>
    match crontab w with
    | Some table => (Ok (universal_newlines table), w)
    | None => (Raise CalledProcessError, w)
    end.

(** [with tempfile.NamedTemporaryFile(mode='w', delete=False, ...) as f:
    f.write(data); temp_file = f.name]. *)
Definition write_temp (data : string) : M nat :=
  fun w =>
    let name := next_temp w in
    (Ok name,
     {| crontab := crontab w;
        temp_files := (name, data) :: temp_files w;
        next_temp := S name |}).

Fixpoint read_file (files : list (nat * string)) (name : nat)
  : option string :=
  match files with
  | [] => None
  | (n, data) :: r => if Nat.eqb n name then Some data else read_file r name
  end.

(** [os.unlink(name)]. *)
Definition unlink (name : nat) : M unit :=
  fun w =>
    (Ok tt,
     {| crontab := crontab w;
        temp_files :=
          filter (fun f => negb (Nat.eqb (fst f) name)) (temp_files w);
        next_temp := next_temp w |}).

Record Job : Set := mkJob {
  index : Z;
  schedule : string;
  command : string;
  comment : string;
  full_line : string;
  description : string;
  next_runs : list string
}.

(** ** get_cron_jobs *)

(** The loop over the lines, from a pending [comment] and a [job_index];
    the result is what the loop appends to [jobs]. *)
Fixpoint scan_jobs (now : DateTime.datetime) (comment : string)
  (job_index : Z) (lines : list string) : list Job :=
  match lines with
  | [] => []
  | line :: rest =>
      let line := strip line in
      if String.eqb line "" then scan_jobs now "" job_index rest
      else if startswith "#" line then
        scan_jobs now (strip (drop 1 line)) job_index rest
      else
        let parts := split_ws line in
        if (5 <=? List.length parts)%nat then
          let schedule := join " " (firstn 5 parts) in
          let command := join " " (skipn 5 parts) in
          let preview := CronPreview.parse_cron now schedule in
          {| index := job_index;
             schedule := schedule;
             command := command;
             comment :=
               if String.eqb comment "" then "Custom cron job" else comment;
             full_line := line;
             description := CronPreview.description preview;
             next_runs := firstn 3 (CronPreview.next_runs preview) |}
            :: scan_jobs now "" (job_index + 1) rest
        else scan_jobs now "" job_index rest
  end.

Definition get_cron_jobs (now : DateTime.datetime) (w : world) : list Job :=
  match crontab_list w with
  | (Ok stdout, _) => scan_jobs now "" 0 (split LF stdout)
  | (Raise _, _) => []
  end.

(** ** delete_cron_job: the loop that builds [filtered_lines]

    [is_job_line line] is the test [line.strip() and not
    line.startswith('#')], and [prev] is [lines[i-1]] when [i > 0]. *)
Definition is_job_line (line : string) : bool :=
  negb (String.eqb (strip line) "") && negb (startswith "#" line).

Fixpoint filter_lines (job_index : Z) (prev : option string)
  (current_job_index : Z) (filtered_lines lines : list string)
  : list string :=
  match lines with
  | [] => filtered_lines
  | line :: rest =>
      if is_job_line line then
        if current_job_index =? job_index then
          let filtered_lines :=
            match prev with
            | Some p =>
                if startswith "#" (strip p) then removelast filtered_lines
                else filtered_lines
            | None => filtered_lines
            end in
          filter_lines job_index (Some line) (current_job_index + 1)
            filtered_lines rest
        else
          filter_lines job_index (Some line) (current_job_index + 1)
            (filtered_lines ++ [line]) rest
      else
        filter_lines job_index (Some line) current_job_index
          (filtered_lines ++ [line]) rest
  end.

Section Installer.

(** Whether [crontab <file>] accepts a file with the given contents. *)
Variable accepts : string -> bool.

(** [subprocess.run(['crontab', temp_file], check=True)]. *)
Definition crontab_install (temp_file : nat) : M unit :=
  fun w =>
    match read_file (temp_files w) temp_file with
    | Some data =>
        if accepts data then
          (Ok tt,
           {| crontab := Some data;
              temp_files := temp_files w;
              next_temp := next_temp w |})
        else (Raise CalledProcessError, w)
    | None => (Raise CalledProcessError, w)
    end.

(** The common tail of add_cron_job and delete_cron_job. *)
Definition install_lines (lines : list string) : M bool :=
  temp_file <~ write_temp (join NL lines ++ NL) ;;
  crontab_install temp_file ;;;
  unlink temp_file ;;;
  ret true.

Definition add_cron_job (schedule command comment : string)
  : world -> bool * world :=
  fun w =>
    match
      try_except
        (current_jobs <~
           try_except
             (stdout <~ crontab_list ;; ret (split LF (strip stdout)))
             (fun _ => ret []) ;;
         let current_jobs :=
           if negb (String.eqb comment "")
           then (current_jobs ++ [("#" ++ comment)%string])%list
           else current_jobs in
         let current_jobs :=
           (current_jobs ++ [(schedule ++ " " ++ command)%string])%list in
         install_lines current_jobs)
        (fun _ => ret false) w
    with
    | (Ok b, w') => (b, w')
    | (Raise _, w') => (false, w')
    end.

Definition delete_cron_job (job_index : Z) : world -> bool * world :=
  fun w =>
    match
      try_except
        (stdout <~ crontab_list ;;
         let lines := split LF (strip stdout) in
         let filtered_lines := filter_lines job_index None 0 [] lines in
         install_lines filtered_lines)
        (fun _ => ret false) w
    with
    | (Ok b, w') => (b, w')
    | (Raise _, w') => (false, w')
    end.

End Installer.

End CronMonitorServer.

(* ================================================================== *)
(** * More of Python's [str] *)

Module PyText.

Import PyStr.

(** [sub in s] for a string [sub]. *)
Fixpoint contains_str (sub s : string) : bool :=
  startswith sub s
  || match s with
     | EmptyString => false
     | String _ r => contains_str sub r
     end.

(** [s.replace(old, new)] for a non-empty [old]: the occurrences of [old]
    are taken from the left and do not overlap.  [skip] counts the
    characters of the occurrence just replaced that are still to pass. *)
Fixpoint replace_from (old new : string) (skip : nat) (s : string) : string :=
  match s with
  | EmptyString => EmptyString
  | String c r =>
      match skip with
      | S skip' => replace_from old new skip' r
      | O =>
          if startswith old s then
            new ++ replace_from old new (String.length old - 1) r
          else String c (replace_from old new 0 r)
      end
  end.

Definition replace (old new s : string) : string := replace_from old new 0 s.

(** [l[-n:]] for [n > 0]. *)
Definition last_n {A : Type} (n : nat) (l : list A) : list A :=
  skipn (List.length l - n) l.

End PyText.

(* ================================================================== *)
(** * The log reader and the GET routes of CronMonitorServer *)

(** What [subprocess.run(cmd, capture_output=True, text=True, check=True)]
    does for a command that reads a log: it returns the output of a command
    that exits with status 0, raises [CalledProcessError] on another exit
    status, and raises something else when the command cannot be run or
    its output cannot be decoded. *)
Inductive run_outcome : Type :=
| Completed (stdout : string)
| NonZeroExit
| OtherFailure.

Module CronMonitorRoutes.

Import PyStr PyText.

Definition commands : list (list string) :=
  [ ["journalctl"; "-u"; "cron"; "-n"; "20"; "--no-pager"];
    ["tail"; "-20"; "/var/log/cron.log"];
    ["tail"; "-20"; "/var/log/syslog"] ].

Section Logs.

(** The outcome of each command on the machine. *)
Variable run : list string -> run_outcome.

(** The [for cmd in commands] loop of get_cron_activity; [None] is an
    exception that leaves the loop. *)
Fixpoint activity_loop (cmds : list (list string)) : option (list string) :=
  match cmds with
  | [] => Some ["No cron activity found in logs"]
  | cmd :: rest =>
      match run cmd with
      | Completed stdout =>
          let lines :=
            last_n 15
              (filter (contains_str "CRON")
                 (split LF (universal_newlines stdout))) in
          match lines with
          | [] => activity_loop rest
          | _ :: _ => Some lines
          end
      | NonZeroExit => activity_loop rest
      | OtherFailure => None
      end
  end.

Definition get_cron_activity : list string :=
  match activity_loop commands with
  | Some lines => lines
  | None => ["Error reading cron logs"]
  end.

End Logs.

(** [self.path.split('/')[-1].replace('%20', ' ').replace('%2A', '*')]. *)
Definition preview_expression (path : string) : string :=
  replace "%2A" "*" (replace "%20" " " (last (split "/" path) "")).

(** What do_GET writes after the headers, before [json.dumps] or
    [encode]. *)
Inductive body : Type :=
| Dashboard
| Jobs (jobs : list CronMonitorServer.Job)
| Activity (lines : list string)
| Preview (preview : CronPreview.ParseResult)
| NoBody.

(** do_GET: the status and the body of the answer. *)
Definition do_GET (now : DateTime.datetime)
  (run : list string -> run_outcome) (path : string) (w : world)
  : Z * body :=
  if String.eqb path "/" then (200, Dashboard)
  else if String.eqb path "/api/jobs" then
    (200, Jobs (CronMonitorServer.get_cron_jobs now w))
  else if String.eqb path "/api/activity" then
    (200, Activity (get_cron_activity run))
  else if startswith "/api/preview/" path then
    (200, Preview (CronPreview.parse_cron now (preview_expression path)))
  else (404, NoBody).

End CronMonitorRoutes.

(* ================================================================== *)
(** * Vocabulary of the statements *)

(** The text of a table with the given lines. *)
Definition lines_text (l : list string) : string := PyStr.join NL l ++ NL.

(** A world with that table installed and no temporary file. *)
Definition world_of (table : string) : world :=
  {| crontab := Some table; temp_files := []; next_temp := 0 |}.

(** Two readings of the clock: 3 November 2026 at 11:00 and at 13:00. *)
Definition noon_before : DateTime.datetime := DateTime.at_ 2026 11 3 11 0 0.
Definition noon_after : DateTime.datetime := DateTime.at_ 2026 11 3 13 0 0.

Module Spec.

Import PyStr DateTime CronPreview.

(** What parse_cron returns for a wrong number of tokens. *)
Definition arity_error : ParseResult :=
  {| valid := false;
     description := "Invalid cron expression - must have 5 parts";
     next_runs := [];
     explanation := Str "Cron format: minute hour day month weekday";
     breakdown := None |}.

(** The phrase and the breakdown string the specification gives for a
    step field [a/n] of the field called [name]. *)
Definition step_phrase (name a n : string) : string :=
  "every " ++ n ++ " " ++ name ++ "s starting at " ++ name ++ " " ++ a.

Definition step_breakdown (name a n : string) : string :=
  "Every " ++ n ++ " " ++ name ++ "s starting from " ++ a.

Import CronMonitorServer.

(** The number of lines the loop of delete_cron_job counts. *)
Definition count_job_lines (lines : list string) : Z :=
  Z.of_nat (List.length (filter is_job_line lines)).


(** A datetime the datetime module can hold. *)
Definition wf (dt : datetime) : Prop :=
  representable (minute_index dt) = true /\ 0 <= sub_minute dt < 60000000.


(** The longest prefix of representable datetimes. *)
Fixpoint while_representable (l : list datetime) : list datetime :=
  match l with
  | [] => []
  | d :: r =>
      if representable (minute_index d) then d :: while_representable r
      else []
  end.

(** The days before 1 January of the year [y1 + 1]. *)
Definition days_before_year (y1 : Z) : Z :=
  y1 * 365 + y1 / 4 - y1 / 100 + y1 / 400.

(** [month_day] on every day of a year, by enumeration. *)
Definition month_day_ok (leapyear : bool) (k : nat) : bool :=
  let n := Z.of_nat k in
  let '(month, day) := month_day n leapyear in
  (nth (Z.to_nat month) DAYS_BEFORE_MONTH 0
   + b2z ((2 <? month) && leapyear) + day =? n + 1)
  && (1 <=? month) && (month <=? 12) && (1 <=? day) && (day <=? 31).

(** [a] is in an earlier minute than [b]. *)
Definition earlier (a b : datetime) : Prop :=
  minute_index a < minute_index b.

(** Within the range of the datetime module. *)
Definition rep (d : datetime) : Prop :=
  representable (minute_index d) = true.

(** Strictly increasing, representable, and after minute [lo]. *)
Definition ascending (lo : Z) (l : list datetime) : Prop :=
  StronglySorted earlier l
  /\ Forall (fun d => lo < minute_index d /\ rep d) l.

(** The expressions that take the "every X minutes" branch with a step
    that is zero or negative. *)
Definition nonpositive_step_parts (parts : list string) : bool :=
  match parts with
  | [minute; hour; _; _; _] =>
      startswith "*/" minute && String.eqb hour "*"
      && match int (drop 2 minute) with
         | Some interval => interval <=? 0
         | None => false
         end
  | _ => false
  end.

(** The same test on an expression, split as parse_cron splits it. *)
Definition nonpositive_step (expression : string) : bool :=
  nonpositive_step_parts (split_ws (strip expression)).

(** The expressions that take that branch with a step of zero. *)
Definition zero_step_parts (parts : list string) : bool :=
  match parts with
  | [minute; hour; _; _; _] =>
      startswith "*/" minute && String.eqb hour "*"
      && match int (drop 2 minute) with
         | Some interval => interval =? 0
         | None => false
         end
  | _ => false
  end.

Definition zero_step (expression : string) : bool :=
  zero_step_parts (split_ws (strip expression)).

(** [n] zeros. *)
Fixpoint zeros (n : nat) : string :=
  match n with
  | O => EmptyString
  | S n' => String "0" (zeros n')
  end.

(** Only white space. *)
Definition blank (s : string) : Prop := all_chars isspace s = true.

(** The lines of [a ++ b]: the last line of [a] continues with the first
    line of [b]. *)
Fixpoint app_lines (la lb : list string) : list string :=
  match la with
  | [] => lb
  | [x] =>
      match lb with
      | h :: t => (x ++ h) :: t
      | [] => [x]
      end
  | x :: r => x :: app_lines r lb
  end.

(** The pending comment after the loop of get_cron_jobs has read
    [lines]. *)
Fixpoint final_comment (comment : string) (lines : list string) : string :=
  match lines with
  | [] => comment
  | line :: rest =>
      let line := strip line in
      if String.eqb line "" then final_comment "" rest
      else if startswith "#" line then
        final_comment (strip (drop 1 line)) rest
      else final_comment "" rest
  end.

(** The entry get_cron_jobs builds from the line [sched ++ " " ++ cmd]
    read under a pending comment [note]. *)
Definition new_job (now : DateTime.datetime) (sched cmd note : string)
  (job_index : Z) : Job :=
  let line := strip (sched ++ " " ++ cmd) in
  let parts := split_ws line in
  let preview := CronPreview.parse_cron now (join " " (firstn 5 parts)) in
  {| index := job_index;
     schedule := join " " (firstn 5 parts);
     command := join " " (skipn 5 parts);
     comment := strip note;
     full_line := line;
     description := CronPreview.description preview;
     next_runs := firstn 3 (CronPreview.next_runs preview) |}.

(** Neither a line feed nor a carriage return. *)
Definition single_line (s : string) : bool :=
  negb (contains LF s) && negb (contains CR s).

(** The lines add_cron_job stages. *)
Definition staged_lines (w : world) (sched cmd note : string)
  : list string :=
  app
    match crontab w with
    | Some table => split LF (strip (universal_newlines table))
    | None => []
    end
    ["#" ++ note; sched ++ " " ++ cmd].

End Spec.

(* ================================================================== *)
(** * Vocabulary of the further properties *)

Module Props.

Import PyStr DateTime CronPreview.

(** A field on which the range case raises: it reaches the test for a
    dash and its split on the dash does not give two pieces. *)
Definition too_many_dashes (field : string) : bool :=
  negb (contains "/" field) && negb (contains "," field)
  && contains "-" field
  && negb (List.length (split "-" field) =? 2)%nat.

(** A string that [isdigit] accepts and [int] rejects. *)
Definition bad_digits (s : string) : bool :=
  isdigit s && match int s with Some _ => false | None => true end.

(** A month or weekday field with such a string as the field or as one of
    its comma-separated items. *)
Definition bad_number_list (field : string) : bool :=
  existsb bad_digits (split "," field).

(** The expressions parse_cron accepts. *)
Definition parses (expression : string) : bool :=
  match split_ws expression with
  | [minute; hour; day; month; weekday] =>
      negb (too_many_dashes minute) && negb (too_many_dashes hour)
      && negb (too_many_dashes day) && negb (too_many_dashes month)
      && negb (too_many_dashes weekday)
      && negb (bad_number_list month) && negb (bad_number_list weekday)
  | _ => false
  end.

(** An upper-case ASCII letter. *)
Definition is_upper (c : ascii) : bool :=
  ((65 <=? code c) && (code c <=? 90))%N.

Definition no_upper (s : string) : bool :=
  all_chars (fun c => negb (is_upper c)) s.

(** [count] datetimes [step] minutes apart: [dt] moved by [step * k],
    [step * (k + 1)], ... minutes. *)
Fixpoint offsets (dt : datetime) (step k : Z) (count : nat) : list datetime :=
  match count with
  | O => []
  | S count' =>
      mk (minute_index dt + step * k) (sub_minute dt)
        :: offsets dt step (k + 1) count'
  end.

(** [count] datetimes on the minute, [step] minutes apart, from minute
    [first]. *)
Fixpoint every (step first : Z) (count : nat) : list datetime :=
  match count with
  | O => []
  | S count' => mk first 0 :: every step (first + step) count'
  end.

Definition breakdown_keys : list string :=
  ["minute"; "hour"; "day"; "month"; "weekday"].

Import CronMonitorServer.

(** A stripped line that get_cron_jobs turns into an entry. *)
Definition is_entry_line (line : string) : bool :=
  negb (String.eqb line "") && negb (startswith "#" line)
  && (5 <=? List.length (split_ws line))%nat.

(** What a line leaves as pending comment for the line right below it. *)
Definition annotation (line : string) : string :=
  let line := strip line in
  if String.eqb line "" then ""
  else if startswith "#" line then strip (drop 1 line)
  else "".

(** The comment shown for a pending comment. *)
Definition label (pending : string) : string :=
  if String.eqb pending "" then "Custom cron job" else pending.

(** A token: not empty and free of white space. *)
Definition token (t : string) : Prop :=
  t <> "" /\ all_chars (fun c => negb (isspace c)) t = true.

(** The numbers [first], [first + 1], ... ([count] of them). *)
Definition numbers (first : Z) (count : nat) : list Z :=
  map (fun k => first + Z.of_nat k) (seq 0 count).

(** What holds of every entry the loop emits. *)
Definition well_formed (now : DateTime.datetime) (job : Job) : Prop :=
  is_entry_line (full_line job) = true
  /\ split_ws (schedule job) = firstn 5 (split_ws (full_line job))
  /\ split_ws (command job) = skipn 5 (split_ws (full_line job))
  /\ List.length (split_ws (schedule job)) = 5%nat
  /\ comment job <> ""
  /\ description job
     = CronPreview.description (CronPreview.parse_cron now (schedule job))
  /\ (List.length (next_runs job) <= 3)%nat.

(** The position of the line that the loop of delete_cron_job drops: the
    first line it counts when its counter, at [current] on entry, equals
    [job_index]. *)
Fixpoint target_position (job_index current : Z) (lines : list string)
  : option nat :=
  match lines with
  | [] => None
  | line :: rest =>
      if is_job_line line then
        if current =? job_index then Some O
        else option_map S (target_position job_index (current + 1) rest)
      else option_map S (target_position job_index current rest)
  end.

(** [lines] without the line at position [k], and without the line above
    it when that one, stripped, starts with [#]. *)
Definition without_entry (lines : list string) (k : nat) : list string :=
  app
    (if match k with
        | O => false
        | S k' => startswith "#" (strip (nth k' lines ""))
        end
     then firstn (k - 1) lines
     else firstn k lines)
    (skipn (S k) lines).

(** The last line read, as the loop of delete_cron_job remembers it. *)
Definition last_line (lines : list string) : option string :=
  match lines with
  | [] => None
  | _ => Some (last lines "")
  end.

(** The names of the temporary files are below the next name to be
    given. *)
Definition fresh (w : world) : Prop :=
  Forall (fun f : nat * string => (fst f < next_temp w)%nat) (temp_files w).

(** The text add_cron_job and delete_cron_job start from. *)
Definition current_text (w : world) : option string :=
  option_map (fun table => strip (universal_newlines table)) (crontab w).

Definition current_lines (w : world) : list string :=
  match current_text w with
  | Some text => split LF text
  | None => []
  end.

(** The lines add_cron_job appends. *)
Definition added_lines (sched cmd note : string) : list string :=
  app (if String.eqb note "" then [] else ["#" ++ note])
      [sched ++ " " ++ cmd].

(** The pending comment that the lines of a table leave at their end. *)
Definition trailing_annotation (lines : list string) : string :=
  match lines with
  | [] => ""
  | _ => annotation (last lines "")
  end.

(** The lines of the output of a log command that mention CRON. *)
Definition cron_lines (out : string) : list string :=
  filter (PyText.contains_str "CRON") (split LF (universal_newlines out)).

(** A log command that gives get_cron_activity nothing: it exits with an
    error status, or no line of its output mentions CRON. *)
Definition silent (o : run_outcome) : bool :=
  match o with
  | Completed out =>
      match cron_lines out with
      | [] => true
      | _ :: _ => false
      end
  | NonZeroExit => true
  | OtherFailure => false
  end.

(** A line of the activity list: it mentions CRON and holds no line
    break. *)
Definition log_line (line : string) : Prop :=
  PyText.contains_str "CRON" line = true
  /\ contains LF line = false /\ contains CR line = false.

(** A text with its spaces written [%20] and its asterisks [%2A]. *)
Definition escape_char (c : ascii) : string :=
  if Ascii.eqb c " " then "%20"
  else if Ascii.eqb c "*" then "%2A"
  else String c "".

Fixpoint escape (s : string) : string :=
  match s with
  | EmptyString => EmptyString
  | String c r => escape_char c ++ escape r
  end.

(** The same with the spaces left as they are. *)
Definition escape_star_char (c : ascii) : string :=
  if Ascii.eqb c "*" then "%2A" else String c "".

Fixpoint escape_stars (s : string) : string :=
  match s with
  | EmptyString => EmptyString
  | String c r => escape_star_char c ++ escape_stars r
  end.

(** A call that returns. *)
Definition is_ok {A : Type} (r : result A) : bool :=
  match r with
  | Ok _ => true
  | Raise _ => false
  end.

End Props.

(* ================================================================== *)
(** * The specification's examples, evaluated *)

Example split_ws_ex :
  PyStr.split_ws "  0 12  * * *  " = ["0"; "12"; "*"; "*"; "*"].
Proof. reflexivity. Qed.

Example split_ex : PyStr.split "/" "1/5/" = ["1"; "5"; ""].
Proof. reflexivity. Qed.

Example strip_ex : PyStr.strip "  a b  " = "a b".
Proof. reflexivity. Qed.

Example int_ex :
  PyStr.int "1_000" = Some 1000 /\ PyStr.int "-5" = Some (-5)
  /\ PyStr.int "x" = None /\ PyStr.int "1__0" = None /\ PyStr.int "" = None
  /\ PyStr.int "007" = Some 7.
Proof. repeat split; reflexivity. Qed.

Example int_limit_ex :
  PyStr.int (Spec.zeros 4300) = Some 0
  /\ PyStr.int (Spec.zeros 4301) = None
  /\ PyStr.int ("1" ++ Spec.zeros 4300) = None
  /\ PyStr.int (" -" ++ Spec.zeros 4299 ++ "_7 ") = Some (-7).
Proof. repeat split; vm_compute; reflexivity. Qed.

Example capitalize_ex :
  PyStr.capitalize "every minute in Jan" = "Every minute in jan".
Proof. reflexivity. Qed.

Example strftime_ex :
  DateTime.strftime (DateTime.at_ 2024 2 29 23 59 30) = "2024-02-29 23:59"
  /\ DateTime.strftime (DateTime.at_ 2026 11 3 11 0 0) = "2026-11-03 11:00"
  /\ DateTime.strftime (DateTime.mk 0 0) = "1-01-01 00:00"
  /\ DateTime.strftime (DateTime.at_ 886 1 16 19 0 0) = "886-01-16 19:00"
  /\ DateTime.strftime (DateTime.mk (DateTime.MINUTES - 1) 0)
     = "9999-12-31 23:59"
  /\ DateTime.strftime (DateTime.at_ 2000 12 31 0 0 0) = "2000-12-31 00:00"
  /\ DateTime.strftime (DateTime.at_ 1900 3 1 0 0 0) = "1900-03-01 00:00".
Proof. repeat split; vm_compute; reflexivity. Qed.

Example parse_noon_before :
  CronPreview.parse_cron noon_before "0 12 * * *" =
    {| CronPreview.valid := true;
       CronPreview.description := "Daily at noon";
       CronPreview.next_runs :=
         ["2026-11-03 12:00"; "2026-11-04 12:00"; "2026-11-05 12:00";
          "2026-11-06 12:00"; "2026-11-07 12:00"];
       CronPreview.explanation := Str "At minute 0 at 12:xx";
       CronPreview.breakdown :=
         Some [("minute", "minute 0"); ("hour", "hour 12");
               ("day", "Any day of month"); ("month", "Any month");
               ("weekday", "Any day of week")] |}.
Proof. vm_compute. reflexivity. Qed.

Example parse_noon_after :
  CronPreview.next_runs (CronPreview.parse_cron noon_after "0 12 * * *") =
    ["2026-11-04 12:00"; "2026-11-05 12:00"; "2026-11-06 12:00";
     "2026-11-07 12:00"; "2026-11-08 12:00"].
Proof. vm_compute. reflexivity. Qed.

Example parse_quarter :
  let r := CronPreview.parse_cron noon_before "*/15 * * * *" in
  CronPreview.description r = "Every 15 minutes"
  /\ CronPreview.next_runs r =
       ["2026-11-03 11:15"; "2026-11-03 11:30"; "2026-11-03 11:45";
        "2026-11-03 12:00"; "2026-11-03 12:15"].
Proof. vm_compute. split; reflexivity. Qed.

Example parse_far_back :
  CronPreview.calculate_next_runs noon_before
    ["*/-600000000"; "*"; "*"; "*"; "*"] 5
  = Ok ["886-01-16 19:00"].
Proof. vm_compute. reflexivity. Qed.

Example parse_unpack_error :
  CronPreview.parse_cron noon_before "* * * 1-2-3 *" =
    {| CronPreview.valid := false;
       CronPreview.description := "Error parsing cron expression";
       CronPreview.next_runs := [];
       CronPreview.explanation := StrOfExn (UnpackError 2 3);
       CronPreview.breakdown := None |}.
Proof. vm_compute. reflexivity. Qed.

Example pairing_ex :
  let w := world_of (lines_text ["#backup job"; "0 2 * * * /bin/backup.sh"]) in
  map (fun j => (CronMonitorServer.index j, CronMonitorServer.schedule j,
                 CronMonitorServer.command j, CronMonitorServer.comment j))
      (CronMonitorServer.get_cron_jobs noon_before w)
  = [(0, "0 2 * * *", "/bin/backup.sh", "backup job")]
  /\ CronMonitorServer.delete_cron_job (fun _ => true) 0 w
     = (true, {| crontab := Some NL; temp_files := []; next_temp := 1 |}).
Proof. vm_compute. split; reflexivity. Qed.

Example blank_line_reset_ex :
  let w := world_of (lines_text ["#orphan comment"; ""; "0 0 * * * /bin/x"]) in
  map CronMonitorServer.comment (CronMonitorServer.get_cron_jobs noon_before w)
  = ["Custom cron job"].
Proof. vm_compute. reflexivity. Qed.

Lemma Ok_inj {A : Type} (a b : A) : Ok a = Ok b -> a = b.
Proof. intros H. now injection H. Qed.

(* ================================================================== *)
(** * Facts about the string operations *)

Module PyStrFacts.

Import PyStr.

Lemma split_ws_cons (c : ascii) (r : string) :
  split_ws (String c r) =
    if isspace c then split_ws r
    else match r with
         | EmptyString => [String c EmptyString]
         | String d _ =>
             if isspace d then String c EmptyString :: split_ws r
             else match split_ws r with
                  | t :: ts => String c t :: ts
                  | [] => [String c EmptyString]
                  end
         end.
Proof. reflexivity. Qed.

Lemma split_ws_lstrip (s : string) : split_ws (lstrip s) = split_ws s.
Proof.
  induction s as [|c r IH]; [reflexivity|].
  cbn [lstrip]. rewrite (split_ws_cons c r).
  destruct (isspace c) eqn:Hc; [exact IH|].
  rewrite split_ws_cons, Hc. reflexivity.
Qed.

Lemma rstrip_empty_blank (s : string) :
  rstrip s = EmptyString -> all_chars isspace s = true.
Proof.
  induction s as [|c r IH]; [reflexivity|].
  cbn [rstrip all_chars]. destruct (rstrip r) eqn:Hr.
  - destruct (isspace c); [intros _; now rewrite IH | discriminate].
  - discriminate.
Qed.

Lemma blank_rstrip (s : string) :
  all_chars isspace s = true -> rstrip s = EmptyString.
Proof.
  induction s as [|c r IH]; [reflexivity|].
  cbn [rstrip all_chars]. intros H. apply andb_prop in H as [Hc Hr].
  rewrite (IH Hr), Hc. reflexivity.
Qed.

Lemma blank_split_ws (s : string) :
  all_chars isspace s = true -> split_ws s = [].
Proof.
  induction s as [|c r IH]; [reflexivity|].
  cbn [all_chars]. intros H. apply andb_prop in H as [Hc Hr].
  rewrite split_ws_cons, Hc. auto.
Qed.

Lemma blank_lstrip (s : string) :
  all_chars isspace s = true -> lstrip s = EmptyString.
Proof.
  induction s as [|c r IH]; [reflexivity|].
  cbn [all_chars lstrip]. intros H. apply andb_prop in H as [Hc Hr].
  rewrite Hc. auto.
Qed.

(** A non-empty [rstrip s] starts like [s]. *)
Lemma rstrip_head (s : string) (d : ascii) (t : string) :
  rstrip s = String d t -> exists t', s = String d t'.
Proof.
  destruct s as [|c r]; [discriminate|].
  cbn [rstrip]. destruct (rstrip r); [destruct (isspace c)|];
    intros H; inversion H; eauto.
Qed.

Lemma split_ws_rstrip (s : string) : split_ws (rstrip s) = split_ws s.
Proof.
  induction s as [|c r IH]; [reflexivity|].
  cbn [rstrip]. destruct (rstrip r) as [|d t] eqn:Hr.
  - pose proof (rstrip_empty_blank r Hr) as Hb.
    rewrite (split_ws_cons c r), (blank_split_ws r Hb).
    destruct (isspace c) eqn:Hc; [reflexivity|].
    rewrite split_ws_cons, Hc.
    destruct r as [|d r']; [reflexivity|].
    cbn [all_chars] in Hb. apply andb_prop in Hb as [Hd _].
    now rewrite Hd.
  - destruct (rstrip_head r d t Hr) as [t' ->].
    rewrite (split_ws_cons c (String d t)), (split_ws_cons c (String d t')).
    rewrite IH. reflexivity.
Qed.

Lemma split_ws_strip (s : string) : split_ws (strip s) = split_ws s.
Proof. unfold strip. now rewrite split_ws_rstrip, split_ws_lstrip. Qed.

End PyStrFacts.

(* ================================================================== *)
(** * The interpreter: validation *)

Module ParseFacts.

Import PyStr DateTime CronPreview Spec.

Lemma wrong_arity (now : datetime) (expression : string) :
  List.length (split_ws (strip expression)) <> 5%nat ->
  parse_cron_body now expression = Ok arity_error.
Proof.
  unfold parse_cron_body. intros H.
  destruct (split_ws (strip expression)) as [|a [|b [|c [|d [|e [|f l]]]]]];
    try reflexivity.
  now elim H.
Qed.

(** What the body returns without raising is either the arity error or a
    result flagged valid that carries the projection of the five tokens. *)
Lemma body_ok (now : datetime) (expression : string) (r : ParseResult) :
  parse_cron_body now expression = Ok r ->
  r = arity_error
  \/ (valid r = true
      /\ calculate_next_runs now (split_ws (strip expression)) 5
         = Ok (next_runs r)).
Proof.
  unfold parse_cron_body.
  destruct (split_ws (strip expression)) as [|a [|b [|c [|d [|e [|f l]]]]]];
    try (intros H; injection H as <-; now left).
  intros H. right.
  repeat match type of H with
         | bind ?m _ = Ok _ =>
             destruct m eqn:?; cbn [bind] in H; [|discriminate]
         end.
  injection H as <-. split; reflexivity.
Qed.

End ParseFacts.

(** C5. An expression whose white-space split does not give exactly five
    tokens is rejected: parse_cron returns valid = False, the fixed
    description and an empty next_runs. *)
Theorem parse_rejects_wrong_arity :
  forall (now : DateTime.datetime) (expression : string),
    List.length (PyStr.split_ws expression) <> 5%nat ->
    let r := CronPreview.parse_cron now expression in
    CronPreview.valid r = false
    /\ CronPreview.description r
       = "Invalid cron expression - must have 5 parts"
    /\ CronPreview.next_runs r = [].
Proof.
  intros now expression H r. subst r. unfold CronPreview.parse_cron.
  rewrite ParseFacts.wrong_arity
    by (now rewrite PyStrFacts.split_ws_strip).
  repeat split.
Qed.

Lemma parse_rejects_wrong_arity_witness :
  List.length (PyStr.split_ws "*/5 * *") <> 5%nat
  /\ CronPreview.valid (CronPreview.parse_cron noon_before "*/5 * *") = false.
Proof.
  assert (H : List.length (PyStr.split_ws "*/5 * *") <> 5%nat)
    by (vm_compute; discriminate).
  split; [exact H|].
  exact (proj1 (parse_rejects_wrong_arity noon_before "*/5 * *" H)).
Defined.

(** C6. Whenever parse_cron returns valid = False, next_runs is empty and
    the result has no breakdown. *)
Theorem invalid_has_no_runs_no_breakdown :
  forall (now : DateTime.datetime) (expression : string),
    CronPreview.valid (CronPreview.parse_cron now expression) = false ->
    CronPreview.next_runs (CronPreview.parse_cron now expression) = []
    /\ CronPreview.breakdown (CronPreview.parse_cron now expression) = None.
Proof.
  intros now expression. unfold CronPreview.parse_cron.
  destruct (CronPreview.parse_cron_body now expression) as [r|e] eqn:Hb.
  - destruct (ParseFacts.body_ok now expression r Hb) as [-> | [Hv _]].
    + intros _. split; reflexivity.
    + rewrite Hv. discriminate.
  - intros _. split; reflexivity.
Qed.

Lemma invalid_has_no_runs_no_breakdown_witness :
  CronPreview.next_runs (CronPreview.parse_cron noon_before "* * * 1-2-3 *")
    = []
  /\ CronPreview.breakdown
       (CronPreview.parse_cron noon_before "* * * 1-2-3 *") = None.
Proof.
  apply (invalid_has_no_runs_no_breakdown noon_before "* * * 1-2-3 *").
  vm_compute. reflexivity.
Defined.

(** C10. A valid result may have no next run: for the five-token expression
    [*/x * * * *] the conversion of the step raises inside
    calculate_next_runs, which swallows the exception, and parse_cron still
    returns valid = True, at any time of the clock. *)
Theorem valid_with_no_runs :
  exists expression : string,
    List.length (PyStr.split_ws expression) = 5%nat
    /\ forall now : DateTime.datetime,
         CronPreview.valid (CronPreview.parse_cron now expression) = true
         /\ CronPreview.next_runs (CronPreview.parse_cron now expression)
            = [].
Proof.
  exists "*/x * * * *". split; [reflexivity|].
  intros now. split; reflexivity.
Qed.

(* ================================================================== *)
(** * The interpreter: step fields *)

Module StepFacts.

Import PyStr CronPreview Spec.

Lemma contains_app (c : ascii) (a b : string) :
  contains c (a ++ b) = contains c a || contains c b.
Proof.
  induction a as [|d a IH]; [reflexivity|].
  cbn [append contains]. rewrite IH. now rewrite orb_assoc.
Qed.

Lemma split_without_sep (c : ascii) (s : string) :
  contains c s = false -> split c s = [s].
Proof.
  induction s as [|d s IH]; [reflexivity|].
  cbn [contains split]. intros H. apply orb_false_elim in H as [Hd Hs].
  rewrite Hd, (IH Hs). reflexivity.
Qed.

Lemma split_at_first_sep (c : ascii) (a b : string) :
  contains c a = false ->
  split c (a ++ String c b) = a :: split c b.
Proof.
  induction a as [|d a IH]; cbn [append contains split].
  - intros _. now rewrite Ascii.eqb_refl.
  - intros H. apply orb_false_elim in H as [Hd Ha].
    rewrite Hd, (IH Ha). reflexivity.
Qed.

Lemma split_step (a n : string) :
  contains "/" a = false -> contains "/" n = false ->
  split "/" (a ++ "/" ++ n) = [a; n].
Proof.
  intros Ha Hn. change ("/" ++ n) with (String "/" n).
  now rewrite (split_at_first_sep "/" a n Ha), (split_without_sep "/" n Hn).
Qed.

Lemma contains_step (a n : string) : contains "/" (a ++ "/" ++ n) = true.
Proof.
  rewrite contains_app. cbn. now rewrite orb_true_r.
Qed.

Lemma step_not_star (a n : string) : String.eqb (a ++ "/" ++ n) "*" = false.
Proof.
  destruct (String.eqb_spec (a ++ "/" ++ n) "*") as [E|]; [|reflexivity].
  pose proof (contains_step a n) as H. rewrite E in H. discriminate.
Qed.

Lemma step_not_star_slash (a n : string) :
  a <> "*" -> contains "/" a = false ->
  startswith "*/" (a ++ "/" ++ n) = false.
Proof.
  intros Hne Ha. unfold startswith.
  destruct a as [|c a]; [reflexivity|].
  cbn [append prefix].
  destruct (ascii_dec "*" c) as [<-|]; [|reflexivity].
  destruct a as [|d a]; [now elim Hne|].
  cbn [append prefix].
  destruct (ascii_dec "/" d) as [<-|]; [|reflexivity].
  cbn in Ha. discriminate.
Qed.

Lemma isdigit_char_not (c : ascii) (s : string) :
  contains c s = true -> isdigit_char c = false -> isdigit s = false.
Proof.
  intros Hc Hd. unfold isdigit.
  assert (all_chars isdigit_char s = false) as ->.
  { induction s as [|d s IH]; [discriminate|].
    cbn [contains] in Hc. cbn [all_chars].
    destruct (Ascii.eqb_spec d c) as [->|].
    - now rewrite Hd.
    - cbn in Hc. rewrite (IH Hc). apply andb_false_r. }
  now destruct s.
Qed.

End StepFacts.

(** C8, as the specification states it, fails for the last three fields:
    the day-of-month block renders [1/2] as "every 2 days", with no
    starting clause, and the month and weekday blocks render it as
    nothing. *)
Lemma step_phrase_counterexample :
  CronPreview.day_phrase "1/2" = Ok ["every 2 days"]
  /\ CronPreview.day_phrase "1/2"
     <> Ok [Spec.step_phrase "day" "1" "2"]
  /\ CronPreview.month_phrase "1/2" = Ok []
  /\ CronPreview.weekday_phrase "1/2" = Ok []
  /\ CronPreview.explanation
       (CronPreview.parse_cron noon_before "* * 1/2 1/2 1/2")
     = Str "Every minute every 2 days".
Proof. vm_compute. repeat split; try reflexivity. discriminate. Qed.

(** C8, amended.  For a step field [a/n] whose base [a] is not the wildcard
    ([a] and [n] without a slash): the minute and the hour blocks contribute
    "every n minutes starting at minute a" and "every n hours starting at
    hour a"; the day-of-month block contributes "every n days"; the month
    and weekday blocks contribute nothing when the field has no comma; and
    explain_field gives "Every n <name>s starting from a" for every field
    name, so for the five names parse_cron passes. *)
Theorem step_field_phrases :
  forall a n : string,
    a <> "*" ->
    PyStr.contains "/" a = false ->
    PyStr.contains "/" n = false ->
    let field := a ++ "/" ++ n in
    CronPreview.minute_phrase field
      = Ok [Spec.step_phrase "minute" a n]
    /\ CronPreview.hour_phrase field = Ok [Spec.step_phrase "hour" a n]
    /\ CronPreview.day_phrase field = Ok ["every " ++ n ++ " days"]
    /\ (PyStr.contains "," field = false ->
        CronPreview.month_phrase field = Ok []
        /\ CronPreview.weekday_phrase field = Ok [])
    /\ forall (name : string) (min_val max_val : Z),
         CronPreview.explain_field field name min_val max_val
         = Ok (Spec.step_breakdown name a n).
Proof.
  intros a n Hne Ha Hn field.
  pose proof (StepFacts.step_not_star a n) as Hstar.
  pose proof (StepFacts.contains_step a n) as Hslash.
  pose proof (StepFacts.step_not_star_slash a n Hne Ha) as Hpre.
  pose proof (StepFacts.split_step a n Ha Hn) as Hsplit.
  fold field in Hstar, Hslash, Hpre, Hsplit.
  assert (Hdig : PyStr.isdigit field = false)
    by (apply (StepFacts.isdigit_char_not "/"); [exact Hslash|reflexivity]).
  unfold CronPreview.minute_phrase, CronPreview.hour_phrase,
    CronPreview.day_phrase, CronPreview.month_phrase,
    CronPreview.weekday_phrase, CronPreview.explain_field,
    CronPreview.digit_in_range.
  rewrite Hstar, Hslash, Hpre, Hsplit, Hdig. cbn [negb nth bind].
  repeat split.
  all: match goal with
       | H : PyStr.contains "," _ = false |- _ => now rewrite H
       end.
Qed.

Lemma step_field_phrases_witness :
  CronPreview.minute_phrase "5/15"
    = Ok ["every 15 minutes starting at minute 5"]
  /\ CronPreview.explain_field "5/15" "day of month" 1 31
     = Ok "Every 15 day of months starting from 5".
Proof.
  assert (H1 : "5" <> "*") by discriminate.
  assert (H2 : PyStr.contains "/" "5" = false) by reflexivity.
  assert (H3 : PyStr.contains "/" "15" = false) by reflexivity.
  pose proof (step_field_phrases "5" "15" H1 H2 H3) as H.
  split.
  - exact (proj1 H).
  - exact (proj2 (proj2 (proj2 (proj2 H))) "day of month" 1 31).
Defined.

(* ================================================================== *)
(** * The table editor: deletion *)

Module DeleteFacts.

Import PyStr CronMonitorServer Spec.

Lemma count_job_lines_cons (line : string) (rest : list string) :
  count_job_lines (line :: rest) =
    (if is_job_line line then 1 else 0) + count_job_lines rest.
Proof.
  unfold count_job_lines. cbn [filter].
  destruct (is_job_line line); cbn [List.length]; lia.
Qed.

Lemma count_job_lines_nonneg (lines : list string) :
  0 <= count_job_lines lines.
Proof. unfold count_job_lines. lia. Qed.

(** When the counter never meets [job_index], every line is kept. *)
Lemma filter_lines_keeps_all (job_index : Z) (lines : list string) :
  forall (prev : option string) (current : Z) (filtered : list string),
    job_index < current \/ current + count_job_lines lines <= job_index ->
    filter_lines job_index prev current filtered lines
    = (filtered ++ lines)%list.
Proof.
  induction lines as [|line rest IH]; intros prev cur acc H.
  - cbn [filter_lines]. now rewrite app_nil_r.
  - cbn [filter_lines]. rewrite count_job_lines_cons in H.
    pose proof (count_job_lines_nonneg rest) as Hn.
    destruct (is_job_line line).
    + destruct (Z.eqb_spec cur job_index) as [E|NE]; [lia|].
      rewrite IH by lia. now rewrite <- app_assoc.
    + rewrite IH by lia. now rewrite <- app_assoc.
Qed.

Lemma split_nonempty (c : ascii) (s : string) : split c s <> [].
Proof.
  destruct s as [|d s]; cbn [split]; [discriminate|].
  destruct (Ascii.eqb d c); [discriminate|].
  destruct (split c s); discriminate.
Qed.

Lemma join_cons (sep x : string) (l : list string) :
  l <> [] -> join sep (x :: l) = x ++ sep ++ join sep l.
Proof. destruct l; [now intros H; elim H | reflexivity]. Qed.

Lemma join_head_cons (sep : string) (d : ascii) (h : string)
  (t : list string) :
  join sep (String d h :: t) = String d (join sep (h :: t)).
Proof. destruct t; reflexivity. Qed.

(** Joining the pieces of a split with the separator gives the text
    back. *)
Lemma join_split (c : ascii) (s : string) :
  join (String c EmptyString) (split c s) = s.
Proof.
  induction s as [|d s IH]; [reflexivity|].
  cbn [split]. destruct (Ascii.eqb_spec d c) as [->|NE].
  - rewrite join_cons by apply split_nonempty. now rewrite IH.
  - pose proof (split_nonempty c s) as Hne.
    destruct (split c s) as [|h t]; [now elim Hne|].
    now rewrite join_head_cons, IH.
Qed.

End DeleteFacts.

(** C1, as the specification states it, fails: on a table with one
    entry, deleting index 7 (out of range) returns True when the
    installation succeeds; and on a table that starts with an empty line
    the same call rewrites the table. *)
Lemma delete_out_of_range_counterexample :
  let w := world_of (lines_text ["0 2 * * * /bin/backup.sh"]) in
  let w' := world_of (lines_text [""; "0 2 * * * /bin/backup.sh"]) in
  Spec.count_job_lines ["0 2 * * * /bin/backup.sh"] = 1
  /\ fst (CronMonitorServer.delete_cron_job (fun _ => true) 7 w) = true
  /\ crontab (snd (CronMonitorServer.delete_cron_job (fun _ => true) 7 w'))
     <> crontab w'.
Proof. vm_compute. repeat split. discriminate. Qed.

(** C1, amended.  When the index is out of range (negative, or at least
    the number of lines the loop counts), delete_cron_job drops no line: it
    stages the text it read, trimmed of surrounding white space and closed
    by a newline, and returns the outcome of the installation.  If the
    tool accepts that text it becomes the table and the result is True;
    otherwise the table is unchanged and the result is False. *)
Theorem delete_out_of_range :
  forall (accepts : string -> bool) (w : world) (table : string)
         (job_index : Z),
    crontab w = Some table ->
    let stdout := universal_newlines table in
    job_index < 0
    \/ Spec.count_job_lines (PyStr.split LF (PyStr.strip stdout))
       <= job_index ->
    let text := PyStr.strip stdout ++ NL in
    let r := CronMonitorServer.delete_cron_job accepts job_index w in
    fst r = accepts text
    /\ crontab (snd r) = Some (if accepts text then text else table).
Proof.
  intros accepts w table job_index Hw stdout Hrange text r. subst r.
  unfold CronMonitorServer.delete_cron_job, try_except, bindM,
    CronMonitorServer.crontab_list, CronMonitorServer.install_lines, bindM,
    CronMonitorServer.write_temp, CronMonitorServer.crontab_install,
    CronMonitorServer.unlink, ret.
  rewrite Hw. fold stdout.
  rewrite DeleteFacts.filter_lines_keeps_all by lia.
  cbn [snd app fst temp_files next_temp CronMonitorServer.read_file].
  rewrite Nat.eqb_refl.
  replace (PyStr.join NL (PyStr.split LF (PyStr.strip stdout)))
    with (PyStr.strip stdout)
    by (symmetry; apply (DeleteFacts.join_split LF)).
  fold text.
  destruct (accepts text); cbn [fst snd crontab]; split; auto.
Qed.

Lemma delete_out_of_range_witness :
  let w := world_of (lines_text ["0 2 * * * /bin/backup.sh"]) in
  fst (CronMonitorServer.delete_cron_job (fun _ => true) 7 w) = true.
Proof.
  refine (proj1 (delete_out_of_range (fun _ => true)
            (world_of (lines_text ["0 2 * * * /bin/backup.sh"]))
            (lines_text ["0 2 * * * /bin/backup.sh"]) 7 eq_refl _)).
  right. vm_compute. discriminate.
Defined.

(** C2 fails on the code: delete_cron_job counts every non-blank line that
    does not start with [#], while get_cron_jobs numbers only the lines of
    at least five tokens.  On the table below get_cron_jobs gives index 0 to
    the backup line, and deleting index 0 drops the MAILTO line and keeps
    the backup line. *)
Theorem delete_index_disagrees_with_list :
  let w := world_of (lines_text ["MAILTO=root"; "0 2 * * * /bin/backup.sh"]) in
  map (fun j => (CronMonitorServer.index j, CronMonitorServer.full_line j))
      (CronMonitorServer.get_cron_jobs noon_before w)
  = [(0, "0 2 * * * /bin/backup.sh")]
  /\ CronMonitorServer.delete_cron_job (fun _ => true) 0 w
     = (true,
        {| crontab := Some (lines_text ["0 2 * * * /bin/backup.sh"]);
           temp_files := [];
           next_temp := 1 |}).
Proof. vm_compute. split; reflexivity. Qed.

(** Whatever the table and the inputs, a rejected installation leaves the
    staged file behind. *)
Lemma add_rejected_leaves_temp_file (accepts : string -> bool) (w : world)
  (schedule command comment : string) :
  (forall data, accepts data = false) ->
  let r := CronMonitorServer.add_cron_job accepts schedule command comment w in
  fst r = false
  /\ crontab (snd r) = crontab w
  /\ exists data, In (next_temp w, data) (temp_files (snd r)).
Proof.
  intros Hrej.
  unfold CronMonitorServer.add_cron_job, try_except, bindM,
    CronMonitorServer.crontab_list, CronMonitorServer.install_lines, bindM,
    CronMonitorServer.write_temp, CronMonitorServer.crontab_install,
    CronMonitorServer.unlink, ret.
  destruct (crontab w) as [table|] eqn:Hw;
    cbn [fst snd temp_files next_temp CronMonitorServer.read_file];
    rewrite Nat.eqb_refl, Hrej; cbn [fst snd crontab temp_files];
    (split; [reflexivity | split; [now rewrite ?Hw|]]);
    eexists; left; reflexivity.
Qed.

Lemma delete_rejected_leaves_temp_file (accepts : string -> bool) (w : world)
  (table : string) (job_index : Z) :
  crontab w = Some table ->
  (forall data, accepts data = false) ->
  let r := CronMonitorServer.delete_cron_job accepts job_index w in
  fst r = false
  /\ crontab (snd r) = crontab w
  /\ exists data, In (next_temp w, data) (temp_files (snd r)).
Proof.
  intros Hw Hrej.
  unfold CronMonitorServer.delete_cron_job, try_except, bindM,
    CronMonitorServer.crontab_list, CronMonitorServer.install_lines, bindM,
    CronMonitorServer.write_temp, CronMonitorServer.crontab_install,
    CronMonitorServer.unlink, ret.
  rewrite Hw. cbn [fst snd temp_files next_temp CronMonitorServer.read_file].
  rewrite Nat.eqb_refl, Hrej. cbn [fst snd crontab temp_files].
  split; [reflexivity | split; [assumption|]].
  eexists; left; reflexivity.
Qed.

(** C4 fails on the code: the temporary file is unlinked only after a
    successful installation.  When the tool rejects the staged text,
    add_cron_job and delete_cron_job return False and the file they
    created is still there. *)
Theorem temp_file_left_after_failed_install :
  let w := world_of (lines_text ["0 2 * * * /bin/backup.sh"]) in
  CronMonitorServer.add_cron_job (fun _ => false) "0 3 * * *" "/bin/x" "x" w
  = (false,
     {| crontab := crontab w;
        temp_files :=
          [(0%nat, lines_text ["0 2 * * * /bin/backup.sh"; "#x";
                               "0 3 * * * /bin/x"])];
        next_temp := 1 |})
  /\ CronMonitorServer.delete_cron_job (fun _ => false) 0 w
     = (false,
        {| crontab := crontab w;
           temp_files := [(0%nat, lines_text [])];
           next_temp := 1 |}).
Proof. vm_compute. split; reflexivity. Qed.

(* ================================================================== *)
(** * The projector: plain integers and the daily branch *)

Module DailyFacts.

Import PyStr DateTime CronPreview Spec.










(** ** The loop *)


Lemma add_minutes_mk (t k : Z) :
  add_minutes (mk t 0) k =
    if representable (t + k) then Some (mk (t + k) 0) else None.
Proof. reflexivity. Qed.



Lemma while_representable_length (l : list datetime) :
  (List.length (while_representable l) <= List.length l)%nat.
Proof.
  induction l as [|d r IH]; [apply Nat.le_refl|].
  cbn [while_representable].
  destruct (representable (minute_index d)); cbn [List.length]; lia.
Qed.


Lemma today_representable (now : datetime) (h m : Z) :
  representable (minute_index now) = true ->
  0 <= h <= 23 -> 0 <= m <= 59 ->
  representable (minute_index now / 1440 * 1440 + h * 60 + m) = true.
Proof.
  unfold representable, MINUTES, MAX_ORDINAL. intros H Hh Hm.
  apply andb_prop in H as [H1 H2].
  apply Z.leb_le in H1. apply Z.ltb_lt in H2.
  apply andb_true_intro. split; [apply Z.leb_le | apply Z.ltb_lt].
  - pose proof (Z.div_pos (minute_index now) 1440 H1 ltac:(lia)). lia.
  - assert (minute_index now / 1440 < 3652059)
      by (apply Z.div_lt_upper_bound; lia).
    lia.
Qed.

End DailyFacts.




(* ================================================================== *)
(** * The calendar: rendering a datetime loses nothing *)

Module CalendarFacts.

Import DateTime Spec.

Lemma days_before_year_cycles (n400 n100 n4 n1 : Z) :
  0 <= n400 -> 0 <= n100 <= 3 -> 0 <= n4 <= 24 -> 0 <= n1 <= 3 ->
  days_before_year (400 * n400 + 100 * n100 + 4 * n4 + n1)
  = 146097 * n400 + 36524 * n100 + 1461 * n4 + 365 * n1.
Proof.
  intros. unfold days_before_year.
  Z.to_euclidean_division_equations; lia.
Qed.

Lemma is_leap_cycles (n400 n100 n4 n1 : Z) :
  0 <= n400 -> 0 <= n100 <= 3 -> 0 <= n4 <= 24 -> 0 <= n1 <= 3 ->
  is_leap (400 * n400 + 100 * n100 + 4 * n4 + n1 + 1)
  = (n1 =? 3) && (negb (n4 =? 24) || (n100 =? 3)).
Proof.
  intros. unfold is_leap.
  destruct (Z.eqb_spec n1 3), (Z.eqb_spec n4 24), (Z.eqb_spec n100 3),
    (Z.eqb_spec ((400 * n400 + 100 * n100 + 4 * n4 + n1 + 1) mod 4) 0),
    (Z.eqb_spec ((400 * n400 + 100 * n100 + 4 * n4 + n1 + 1) mod 100) 0),
    (Z.eqb_spec ((400 * n400 + 100 * n100 + 4 * n4 + n1 + 1) mod 400) 0);
    cbn; try reflexivity; exfalso; Z.to_euclidean_division_equations; lia.
Qed.

(** The cycles of 400, 100, 4 and 1 years in a day count. *)
Lemma cycles (n0 : Z) :
  0 <= n0 ->
  let n400 := n0 / 146097 in
  let r1 := n0 mod 146097 in
  let n100 := r1 / 36524 in
  let r2 := r1 mod 36524 in
  let n4 := r2 / 1461 in
  let r3 := r2 mod 1461 in
  let n1 := r3 / 365 in
  let r4 := r3 mod 365 in
  n0 = 146097 * n400 + 36524 * n100 + 1461 * n4 + 365 * n1 + r4
  /\ 0 <= n400 /\ 0 <= n100 <= 4 /\ 0 <= n4 <= 24 /\ 0 <= n1 <= 4
  /\ 0 <= r4 < 365
  /\ (n100 = 4 -> n4 = 0 /\ n1 = 0 /\ r4 = 0)
  /\ (n1 = 4 -> r4 = 0 /\ n4 <= 23).
Proof.
  intros H. cbv zeta. Z.to_euclidean_division_equations; lia.
Qed.

Lemma month_day_checked (leapyear : bool) :
  forallb (month_day_ok leapyear) (seq 0 365) = true.
Proof. destruct leapyear; vm_compute; reflexivity. Qed.

Lemma month_day_spec (n : Z) (leapyear : bool) :
  0 <= n < 365 ->
  nth (Z.to_nat (fst (month_day n leapyear))) DAYS_BEFORE_MONTH 0
  + b2z ((2 <? fst (month_day n leapyear)) && leapyear)
  + snd (month_day n leapyear) = n + 1
  /\ 1 <= fst (month_day n leapyear) <= 12
  /\ 1 <= snd (month_day n leapyear) <= 31.
Proof.
  intros Hn.
  pose proof (proj1 (forallb_forall _ _) (month_day_checked leapyear)
                (Z.to_nat n)) as H.
  assert (Hin : In (Z.to_nat n) (seq 0 365)) by (apply in_seq; lia).
  specialize (H Hin). unfold month_day_ok in H.
  rewrite Z2Nat.id in H by lia.
  destruct (month_day n leapyear) as [month day]. cbn [fst snd].
  repeat (apply andb_prop in H as [H ?]).
  repeat match goal with
         | H : (_ <=? _) = true |- _ => apply Z.leb_le in H
         | H : (_ =? _) = true |- _ => apply Z.eqb_eq in H
         end.
  lia.
Qed.

(** [ymd2ord] undoes [ord2ymd]. *)
Lemma ymd2ord_ord2ymd (ordinal : Z) :
  1 <= ordinal ->
  let '(y, mo, d) := ord2ymd ordinal in
  ymd2ord y mo d = ordinal.
Proof.
  intros Hord. unfold ord2ymd.
  destruct (cycles (ordinal - 1) ltac:(lia))
    as (Hsum & H400 & H100 & H4 & H1 & Hr & Hlast400 & Hlast4).
  set (n400 := (ordinal - 1) / 146097) in *.
  set (r1 := (ordinal - 1) mod 146097) in *.
  set (n100 := r1 / 36524) in *.
  set (r2 := r1 mod 36524) in *.
  set (n4 := r2 / 1461) in *.
  set (r3 := r2 mod 1461) in *.
  set (n1 := r3 / 365) in *.
  set (r4 := r3 mod 365) in *.
  destruct (Z.eqb_spec n1 4) as [E1|N1]; cbn [orb].
  - destruct (Hlast4 E1) as [Hr4 Hn4].
    assert (n100 <= 3)
      by (destruct (Z.eq_dec n100 4) as [E|]; [apply Hlast400 in E|]; lia).
    unfold ymd2ord.
    replace (n400 * 400 + 1 + n100 * 100 + n4 * 4 + n1 - 1 - 1)
      with (400 * n400 + 100 * n100 + 4 * n4 + 3) by lia.
    fold (days_before_year (400 * n400 + 100 * n100 + 4 * n4 + 3)).
    rewrite days_before_year_cycles by lia.
    replace (n400 * 400 + 1 + n100 * 100 + n4 * 4 + n1 - 1)
      with (400 * n400 + 100 * n100 + 4 * n4 + 3 + 1) by lia.
    assert (is_leap (400 * n400 + 100 * n100 + 4 * n4 + 3 + 1) = true)
      as ->.
    { rewrite is_leap_cycles by lia.
      destruct (Z.eqb_spec n4 24); [lia | reflexivity]. }
    change (nth (Z.to_nat 12) DAYS_BEFORE_MONTH 0) with 334.
    change (b2z ((2 <? 12) && true)) with 1. lia.
  - destruct (Z.eqb_spec n100 4) as [E100|N100].
    + destruct (Hlast400 E100) as (Hn4 & Hn1 & Hr4).
      unfold ymd2ord.
      replace (n400 * 400 + 1 + n100 * 100 + n4 * 4 + n1 - 1 - 1)
        with (400 * n400 + 100 * 3 + 4 * 24 + 3) by lia.
      fold (days_before_year (400 * n400 + 100 * 3 + 4 * 24 + 3)).
      rewrite days_before_year_cycles by lia.
      replace (n400 * 400 + 1 + n100 * 100 + n4 * 4 + n1 - 1)
        with (400 * n400 + 100 * 3 + 4 * 24 + 3 + 1) by lia.
      rewrite is_leap_cycles by lia.
      change (nth (Z.to_nat 12) DAYS_BEFORE_MONTH 0) with 334.
      change (b2z ((2 <? 12) && ((3 =? 3) && (negb (24 =? 24) || (3 =? 3)))))
        with 1.
      lia.
    + set (leapyear := (n1 =? 3) && (negb (n4 =? 24) || (n100 =? 3))).
      destruct (month_day_spec r4 leapyear Hr) as (Hmd & Hmo & Hd).
      destruct (month_day r4 leapyear) as [month day]. cbn [fst snd] in *.
      unfold ymd2ord.
      replace (n400 * 400 + 1 + n100 * 100 + n4 * 4 + n1 - 1)
        with (400 * n400 + 100 * n100 + 4 * n4 + n1) by lia.
      fold (days_before_year (400 * n400 + 100 * n100 + 4 * n4 + n1)).
      rewrite days_before_year_cycles by lia.
      replace (n400 * 400 + 1 + n100 * 100 + n4 * 4 + n1)
        with (400 * n400 + 100 * n100 + 4 * n4 + n1 + 1) by lia.
      rewrite is_leap_cycles by lia. fold leapyear. lia.
Qed.

Lemma ord2ymd_range (ordinal : Z) :
  1 <= ordinal <= MAX_ORDINAL ->
  let '(y, mo, d) := ord2ymd ordinal in
  1 <= y <= 9999 /\ 1 <= mo <= 12 /\ 1 <= d <= 31.
Proof.
  unfold MAX_ORDINAL. intros Hord. unfold ord2ymd.
  destruct (cycles (ordinal - 1) ltac:(lia))
    as (Hsum & H400 & H100 & H4 & H1 & Hr & Hlast400 & Hlast4).
  set (n400 := (ordinal - 1) / 146097) in *.
  set (r1 := (ordinal - 1) mod 146097) in *.
  set (n100 := r1 / 36524) in *.
  set (r2 := r1 mod 36524) in *.
  set (n4 := r2 / 1461) in *.
  set (r3 := r2 mod 1461) in *.
  set (n1 := r3 / 365) in *.
  set (r4 := r3 mod 365) in *.
  destruct (Z.eqb_spec n1 4) as [E1|N1]; cbn [orb].
  - destruct (Hlast4 E1). lia.
  - destruct (Z.eqb_spec n100 4) as [E100|N100].
    + destruct (Hlast400 E100) as (? & ? & ?). lia.
    + set (leapyear := (n1 =? 3) && (negb (n4 =? 24) || (n100 =? 3))).
      destruct (month_day_spec r4 leapyear Hr) as (_ & Hmo & Hd).
      destruct (month_day r4 leapyear) as [month day]. cbn [fst snd] in *.
      lia.
Qed.

(** ** Rendering is injective *)

Lemma digit_inj (x y : Z) : digit x = digit y -> x mod 10 = y mod 10.
Proof.
  unfold digit. intros H. apply (f_equal N_of_ascii) in H.
  pose proof (Z.mod_pos_bound x 10 ltac:(lia)).
  pose proof (Z.mod_pos_bound y 10 ltac:(lia)).
  rewrite !N_ascii_embedding in H by lia. lia.
Qed.

Lemma pad2_inj (x y : Z) :
  0 <= x < 100 -> 0 <= y < 100 -> pad2 x = pad2 y -> x = y.
Proof.
  unfold pad2. intros Hx Hy H. injection H as H1 H0.
  apply digit_inj in H1, H0.
  Z.to_euclidean_division_equations; lia.
Qed.

Lemma pad4_inj (x y : Z) :
  0 <= x < 10000 -> 0 <= y < 10000 -> pad4 x = pad4 y -> x = y.
Proof.
  unfold pad4, pad2. intros Hx Hy H. injection H as H3 H2 H1 H0.
  apply digit_inj in H3, H2, H1, H0.
  Z.to_euclidean_division_equations; lia.
Qed.

Lemma digit_not_dash (x : Z) : digit x <> "-"%char.
Proof.
  unfold digit. intros H. apply (f_equal N_of_ascii) in H.
  pose proof (Z.mod_pos_bound x 10 ltac:(lia)).
  rewrite N_ascii_embedding in H by lia.
  change (N_of_ascii "-") with 45%N in H. lia.
Qed.

Lemma cons_eq (a b : ascii) (s t : string) :
  String a s = String b t -> a = b /\ s = t.
Proof. intros H. now injection H. Qed.

(** The year is read back from a text that goes on with a dash, whatever
    its number of digits. *)
Lemma year_text_inj (x y : Z) (rx ry : string) :
  1 <= x <= 9999 -> 1 <= y <= 9999 ->
  year_text x ++ String "-" rx = year_text y ++ String "-" ry ->
  x = y /\ rx = ry.
Proof.
  unfold year_text, pad4, pad2. intros Hx Hy.
  destruct (Z.ltb_spec x 10), (Z.ltb_spec x 100), (Z.ltb_spec x 1000),
    (Z.ltb_spec y 10), (Z.ltb_spec y 100), (Z.ltb_spec y 1000);
    try lia; cbn [append]; intros Heq;
    repeat match goal with
           | H : String _ _ = String _ _ |- _ =>
               apply cons_eq in H; destruct H
           end;
    try (exfalso;
         match goal with
         | H : digit _ = "-"%char |- _ => exact (digit_not_dash _ H)
         | H : "-"%char = digit _ |- _ =>
             exact (digit_not_dash _ (eq_sym H))
         end);
    (split; [|assumption]);
    repeat match goal with
           | H : digit _ = digit _ |- _ => apply digit_inj in H
           end;
    Z.to_euclidean_division_equations; lia.
Qed.

Lemma strftime_inj (a b : datetime) :
  representable (minute_index a) = true ->
  representable (minute_index b) = true ->
  strftime a = strftime b ->
  minute_index a = minute_index b.
Proof.
  unfold representable, MINUTES, MAX_ORDINAL, strftime.
  set (ma := minute_index a). set (mb := minute_index b).
  intros Ha Hb.
  apply andb_prop in Ha as [Ha0 Ha1]. apply Z.leb_le in Ha0.
  apply Z.ltb_lt in Ha1.
  apply andb_prop in Hb as [Hb0 Hb1]. apply Z.leb_le in Hb0.
  apply Z.ltb_lt in Hb1.
  assert (Hda : 1 <= ma / 1440 + 1 <= MAX_ORDINAL)
    by (unfold MAX_ORDINAL; Z.to_euclidean_division_equations; lia).
  assert (Hdb : 1 <= mb / 1440 + 1 <= MAX_ORDINAL)
    by (unfold MAX_ORDINAL; Z.to_euclidean_division_equations; lia).
  pose proof (ord2ymd_range _ Hda) as Ra.
  pose proof (ord2ymd_range _ Hdb) as Rb.
  pose proof (ymd2ord_ord2ymd (ma / 1440 + 1) ltac:(lia)) as Ia.
  pose proof (ymd2ord_ord2ymd (mb / 1440 + 1) ltac:(lia)) as Ib.
  destruct (ord2ymd (ma / 1440 + 1)) as [[ya moa] da].
  destruct (ord2ymd (mb / 1440 + 1)) as [[yb mob] db].
  intros H. cbn [append] in H.
  apply year_text_inj in H; [|lia|lia]. destruct H as [Ey H].
  assert (Hy : pad2 moa = pad2 mob /\ pad2 da = pad2 db
               /\ pad2 (ma mod 1440 / 60) = pad2 (mb mod 1440 / 60)
               /\ pad2 (ma mod 1440 mod 60) = pad2 (mb mod 1440 mod 60)).
  { unfold pad2 in *. cbn [append] in H.
    injection H as -> -> -> -> -> -> -> ->. repeat split. }
  destruct Hy as (Emo & Ed & Eh & Em).
  apply pad2_inj in Emo; [|lia|lia].
  apply pad2_inj in Ed; [|lia|lia].
  apply pad2_inj in Eh;
    [| Z.to_euclidean_division_equations; lia
     | Z.to_euclidean_division_equations; lia].
  apply pad2_inj in Em;
    [| Z.to_euclidean_division_equations; lia
     | Z.to_euclidean_division_equations; lia].
  subst yb mob db. rewrite Ia in Ib.
  Z.to_euclidean_division_equations; lia.
Qed.

End CalendarFacts.

(* ================================================================== *)
(** * The projector: order of the entries *)

Module RunsFacts.

Import PyStr DateTime CronPreview Spec.

Lemma ascending_nil (lo : Z) : ascending lo [].
Proof. split; constructor. Qed.

Lemma ascending_cons (lo : Z) (d : datetime) (l : list datetime) :
  lo < minute_index d -> rep d -> ascending (minute_index d) l ->
  ascending lo (d :: l).
Proof.
  intros Hlo Hrep [Hs Hf]. split.
  - constructor; [exact Hs|].
    eapply Forall_impl; [|exact Hf]. intros x [Hx _]. exact Hx.
  - constructor; [now split|].
    eapply Forall_impl; [|exact Hf]. intros x [Hx Hr]. split; [lia|exact Hr].
Qed.

Lemma ascending_weaken (lo lo' : Z) (l : list datetime) :
  lo' <= lo -> ascending lo l -> ascending lo' l.
Proof.
  intros Hle [Hs Hf]. split; [exact Hs|].
  eapply Forall_impl; [|exact Hf]. intros x [Hx Hr]. split; [lia|exact Hr].
Qed.

Lemma add_minutes_some (dt d : datetime) (k : Z) :
  add_minutes dt k = Some d ->
  minute_index d = minute_index dt + k /\ rep d.
Proof.
  unfold add_minutes, rep.
  destruct (representable (minute_index dt + k)) eqn:H; [|discriminate].
  intros E. injection E as <-. now split.
Qed.

Lemma offset_loop_ascending (now : datetime) (step : Z) (count : nat) :
  0 < step ->
  forall i : Z,
    ascending (minute_index now + step * i) (offset_loop now step i count).
Proof.
  intros Hstep. induction count as [|count IH]; intros i.
  - apply ascending_nil.
  - cbn [offset_loop].
    destruct (add_minutes now (step * (i + 1))) as [d|] eqn:Hd;
      [|apply ascending_nil].
    destruct (add_minutes_some _ _ _ Hd) as [Hi Hr].
    apply ascending_cons; [lia | exact Hr |].
    rewrite Hi. apply IH.
Qed.

Lemma daily_loop_ascending (now : datetime) (count : nat) :
  forall next_run : datetime,
    rep next_run ->
    ascending (minute_index next_run - 1) (daily_loop now next_run count).
Proof.
  induction count as [|count IH]; intros next_run Hrep.
  - apply ascending_nil.
  - cbn [daily_loop].
    assert (Hfirst :
              forall d,
                (if le next_run now then add_minutes next_run 1440
                 else Some next_run) = Some d ->
                minute_index next_run <= minute_index d /\ rep d).
    { intros d. destruct (le next_run now).
      - intros Hd. destruct (add_minutes_some _ _ _ Hd). split; [lia|auto].
      - intros Hd. injection Hd as <-. split; [lia|auto]. }
    destruct (if le next_run now then add_minutes next_run 1440
              else Some next_run) as [d|]; [|apply ascending_nil].
    destruct (Hfirst d eq_refl) as [Hle Hr].
    apply ascending_cons; [lia | exact Hr |].
    destruct (add_minutes d 1440) as [d'|] eqn:Hd'; [|apply ascending_nil].
    destruct (add_minutes_some _ _ _ Hd') as [Hi Hr'].
    apply (ascending_weaken (minute_index d' - 1)); [lia|].
    now apply IH.
Qed.

Lemma hourly_loop_ascending (count : nat) :
  forall next_run : datetime,
    rep next_run ->
    ascending (minute_index next_run - 1) (hourly_loop next_run count).
Proof.
  induction count as [|count IH]; intros next_run Hrep.
  - apply ascending_nil.
  - cbn [hourly_loop]. apply ascending_cons; [lia | exact Hrep |].
    destruct (add_minutes next_run 60) as [d'|] eqn:Hd';
      [|apply ascending_nil].
    destruct (add_minutes_some _ _ _ Hd') as [Hi Hr'].
    apply (ascending_weaken (minute_index d' - 1)); [lia|].
    now apply IH.
Qed.

Lemma replace_hour_minute_rep (now d : datetime) (h m : Z) :
  rep now -> replace_hour_minute now h m = Some d -> rep d.
Proof.
  unfold replace_hour_minute. intros Hnow.
  destruct ((0 <=? h) && (h <=? 23) && (0 <=? m) && (m <=? 59)) eqn:Hb;
    [|discriminate].
  intros E. injection E as <-.
  repeat (apply andb_prop in Hb as [Hb ?]).
  repeat match goal with
         | H : (_ <=? _) = true |- _ => apply Z.leb_le in H
         end.
  apply DailyFacts.today_representable; auto.
Qed.

Lemma run_datetimes_ascending (now : datetime) (parts : list string)
  (count : nat) (l : list datetime) :
  rep now ->
  nonpositive_step_parts parts = false ->
  run_datetimes now parts count = Ok l ->
  exists lo, ascending lo l.
Proof.
  intros Hnow Hstep. unfold run_datetimes.
  destruct parts as [|minute [|hour [|day [|month [|weekday [|x parts]]]]]];
    try discriminate.
  intros H. apply Ok_inj in H. subst l.
  cbn [nonpositive_step_parts] in Hstep.
  destruct (list_eqb [minute; hour; day; month; weekday]
              ["*"; "*"; "*"; "*"; "*"]).
  { eexists. apply offset_loop_ascending. lia. }
  destruct (startswith "*/" minute && String.eqb hour "*").
  { unfold int_of. cbn [andb] in Hstep.
    destruct (int (drop 2 minute)) as [interval|]; cbn [bind or_nothing].
    - eexists. apply offset_loop_ascending. apply Z.leb_gt in Hstep. lia.
    - exists 0. apply ascending_nil. }
  destruct (isdigit minute && isdigit hour).
  { unfold int_of.
    destruct (int hour) as [h|]; cbn [bind or_nothing];
      [|exists 0; apply ascending_nil].
    destruct (int minute) as [m|]; cbn [bind or_nothing];
      [|exists 0; apply ascending_nil].
    destruct (replace_hour_minute now h m) as [d|] eqn:Hd;
      cbn [or_nothing]; [|exists 0; apply ascending_nil].
    eexists. apply daily_loop_ascending.
    exact (replace_hour_minute_rep now d h m Hnow Hd). }
  destruct (String.eqb minute "0" && String.eqb hour "*").
  { destruct (add_minutes (replace_minute_zero now) 60) as [d|] eqn:Hd;
      [|exists 0; apply ascending_nil].
    eexists. apply hourly_loop_ascending.
    exact (proj2 (add_minutes_some _ _ _ Hd)). }
  eexists. apply offset_loop_ascending. lia.
Qed.

Lemma ascending_rep (lo : Z) (l : list datetime) :
  ascending lo l -> Forall rep l.
Proof.
  intros [_ Hf]. eapply Forall_impl; [|exact Hf]. now intros x [_ Hr].
Qed.

Lemma firstn_distinct {A : Type} (n : nat) (l : list A) :
  NoDup l -> NoDup (firstn n l).
Proof.
  intros H. rewrite <- (firstn_skipn n l) in H.
  exact (NoDup_app_remove_r _ _ H).
Qed.

Lemma ascending_firstn (lo : Z) (n : nat) (l : list datetime) :
  ascending lo l -> ascending lo (firstn n l).
Proof.
  revert lo n. induction l as [|d l IH]; intros lo n H.
  - now rewrite firstn_nil.
  - destruct n as [|n]; [apply ascending_nil|].
    cbn [firstn]. destruct H as [Hs Hf].
    inversion Hs as [|? ? Hs' Hall]; subst.
    inversion Hf as [|? ? [Hlo Hr] Hf']; subst.
    apply ascending_cons; [exact Hlo | exact Hr |].
    apply IH. split; [exact Hs'|].
    rewrite Forall_forall in *. intros x Hx. split.
    + exact (Hall x Hx).
    + exact (proj2 (Hf' x Hx)).
Qed.

(** The renderings of an ascending list are pairwise different. *)
Lemma ascending_NoDup (lo : Z) (l : list datetime) :
  ascending lo l -> NoDup (map strftime l).
Proof.
  revert lo. induction l as [|d l IH]; intros lo H; [constructor|].
  destruct H as [Hs Hf].
  inversion Hs as [|? ? Hs' Hall]; subst.
  inversion Hf as [|? ? [Hlo Hr] Hf']; subst.
  cbn [map]. constructor.
  - intros Hin. apply in_map_iff in Hin as (x & Hx & Hxl).
    rewrite Forall_forall in Hall, Hf'.
    pose proof (Hall x Hxl) as Hlt. unfold earlier in Hlt.
    pose proof (CalendarFacts.strftime_inj x d (proj2 (Hf' x Hxl)) Hr Hx).
    lia.
  - apply (IH lo). now split.
Qed.

(** With a step that is not zero the offsets are pairwise different,
    forwards or backwards. *)
Lemma offset_loop_distinct (now : datetime) (step : Z) (count : nat) :
  step <> 0 ->
  forall i : Z,
    NoDup (map strftime (offset_loop now step i count))
    /\ Forall (fun d =>
                 rep d
                 /\ exists k : Z,
                      i < k /\ minute_index d = minute_index now + step * k)
         (offset_loop now step i count).
Proof.
  intros Hstep. induction count as [|count IH]; intros i.
  - split; constructor.
  - cbn [offset_loop].
    destruct (add_minutes now (step * (i + 1))) as [d|] eqn:Hd;
      [|split; constructor].
    destruct (add_minutes_some _ _ _ Hd) as [Hi Hr].
    destruct (IH (i + 1)) as [Hnd Hall]. split.
    + cbn [map]. constructor; [|exact Hnd].
      intros Hin. apply in_map_iff in Hin as (x & Hx & Hxl).
      rewrite Forall_forall in Hall.
      destruct (Hall x Hxl) as [Hrx (k & Hk & Hxk)].
      pose proof (CalendarFacts.strftime_inj x d Hrx Hr Hx) as E.
      rewrite Hxk, Hi in E.
      assert (Hmul : step * k = step * (i + 1)) by lia.
      apply Z.mul_reg_l in Hmul; [lia | exact Hstep].
    + constructor.
      * split; [exact Hr|]. exists (i + 1). split; [lia | exact Hi].
      * eapply Forall_impl; [|exact Hall].
        intros x [Hrx (k & Hk & Hxk)]. split; [exact Hrx|].
        exists k. split; [lia | exact Hxk].
Qed.

(** Unless the step is zero, no timestamp occurs twice. *)
Lemma run_datetimes_distinct (now : datetime) (parts : list string)
  (count : nat) (l : list datetime) :
  rep now ->
  zero_step_parts parts = false ->
  run_datetimes now parts count = Ok l ->
  NoDup (map strftime l).
Proof.
  intros Hnow Hzero Hrun.
  destruct (nonpositive_step_parts parts) eqn:Hstep.
  - revert Hrun. unfold run_datetimes.
    destruct parts
      as [|minute [|hour [|day [|month [|weekday [|x parts]]]]]];
      try discriminate.
    intros H. apply Ok_inj in H. subst l.
    cbn [nonpositive_step_parts zero_step_parts] in Hstep, Hzero.
    destruct (list_eqb [minute; hour; day; month; weekday]
                ["*"; "*"; "*"; "*"; "*"]).
    { apply (ascending_NoDup (minute_index now + 1 * 0)).
      apply offset_loop_ascending. lia. }
    destruct (startswith "*/" minute && String.eqb hour "*");
      [|cbn [andb] in Hstep; discriminate].
    cbn [andb] in Hstep, Hzero. unfold int_of.
    destruct (int (drop 2 minute)) as [n|]; [|discriminate].
    cbn [bind or_nothing]. apply Z.eqb_neq in Hzero.
    exact (proj1 (offset_loop_distinct now n count Hzero 0)).
  - destruct (run_datetimes_ascending now parts count l Hnow Hstep Hrun)
      as [lo H].
    exact (ascending_NoDup lo l H).
Qed.

End RunsFacts.

(** C3, as the specification states it, fails: with a step of zero the
    five entries are the same timestamp. *)
Lemma next_runs_duplicates_counterexample :
  CronPreview.next_runs (CronPreview.parse_cron noon_before "*/0 * * * *")
  = ["2026-11-03 11:00"; "2026-11-03 11:00"; "2026-11-03 11:00";
     "2026-11-03 11:00"; "2026-11-03 11:00"]
  /\ ~ NoDup
       (CronPreview.next_runs
          (CronPreview.parse_cron noon_before "*/0 * * * *")).
Proof.
  assert (E : CronPreview.next_runs
                (CronPreview.parse_cron noon_before "*/0 * * * *")
              = ["2026-11-03 11:00"; "2026-11-03 11:00"; "2026-11-03 11:00";
                 "2026-11-03 11:00"; "2026-11-03 11:00"])
    by (vm_compute; reflexivity).
  split; [exact E|]. rewrite E. intros H.
  inversion H as [|? ? Hnotin _]. apply Hnotin. now left.
Qed.

(** The order property below tells a forward list from a backward one:
    the entries of a negative step are no renderings of datetimes in
    increasing order. *)
Lemma backward_step_is_not_ordered :
  CronPreview.next_runs (CronPreview.parse_cron noon_before "*/-30 * * * *")
  = ["2026-11-03 10:30"; "2026-11-03 10:00"; "2026-11-03 09:30";
     "2026-11-03 09:00"; "2026-11-03 08:30"]
  /\ ~ exists ts : list DateTime.datetime,
        CronPreview.next_runs
          (CronPreview.parse_cron noon_before "*/-30 * * * *")
        = map DateTime.strftime ts
        /\ Forall Spec.rep ts
        /\ StronglySorted Spec.earlier ts.
Proof.
  assert (E : CronPreview.next_runs
                (CronPreview.parse_cron noon_before "*/-30 * * * *")
              = ["2026-11-03 10:30"; "2026-11-03 10:00"; "2026-11-03 09:30";
                 "2026-11-03 09:00"; "2026-11-03 08:30"])
    by (vm_compute; reflexivity).
  split; [exact E|]. rewrite E. intros (ts & Hts & Hrep & Hs).
  destruct ts as [|a [|b ts]]; try discriminate.
  cbn [map] in Hts. injection Hts as Ha Hb _.
  inversion Hrep as [|? ? Ra Hrep']; subst.
  inversion Hrep' as [|? ? Rb _]; subst.
  inversion Hs as [|? ? _ Hall]; subst.
  inversion Hall as [|? ? Hab _]; subst.
  unfold Spec.earlier in Hab.
  assert (Sa : DateTime.strftime (DateTime.at_ 2026 11 3 10 30 0)
               = "2026-11-03 10:30") by (vm_compute; reflexivity).
  assert (Sb : DateTime.strftime (DateTime.at_ 2026 11 3 10 0 0)
               = "2026-11-03 10:00") by (vm_compute; reflexivity).
  pose proof (CalendarFacts.strftime_inj (DateTime.at_ 2026 11 3 10 30 0) a
                eq_refl Ra (eq_trans Sa Ha)) as Ia.
  pose proof (CalendarFacts.strftime_inj (DateTime.at_ 2026 11 3 10 0 0) b
                eq_refl Rb (eq_trans Sb Hb)) as Ib.
  change (DateTime.minute_index (DateTime.at_ 2026 11 3 10 30 0))
    with (DateTime.minute_index (DateTime.at_ 2026 11 3 10 0 0) + 30) in Ia.
  lia.
Qed.

(** C3, amended.  next_runs never has more than 5 entries.  Unless the
    minute field is [*/n] with a wildcard hour and [n = 0], no timestamp
    occurs twice.  Unless that [n] is zero or negative, the entries are
    the renderings of datetimes that the datetime module can hold, in
    strictly increasing order. *)
Theorem next_runs_bounded_and_ordered :
  forall (now : DateTime.datetime) (expression : string),
    Spec.wf now ->
    let r := CronPreview.parse_cron now expression in
    (List.length (CronPreview.next_runs r) <= 5)%nat
    /\ (Spec.zero_step expression = false ->
        NoDup (CronPreview.next_runs r))
    /\ (Spec.nonpositive_step expression = false ->
        exists ts : list DateTime.datetime,
          CronPreview.next_runs r = map DateTime.strftime ts
          /\ Forall Spec.rep ts
          /\ StronglySorted Spec.earlier ts).
Proof.
  intros now expression [Hrep _] r. subst r.
  assert (Hnil :
            (List.length (@nil string) <= 5)%nat
            /\ (Spec.zero_step expression = false -> NoDup (@nil string))
            /\ (Spec.nonpositive_step expression = false ->
                exists ts : list DateTime.datetime,
                  [] = map DateTime.strftime ts
                  /\ Forall Spec.rep ts
                  /\ StronglySorted Spec.earlier ts)).
  { split; [cbn; lia|]. split; [intros _; constructor|]. intros _.
    exists []. split; [reflexivity|]. split; constructor. }
  unfold CronPreview.parse_cron.
  destruct (CronPreview.parse_cron_body now expression) as [r|e] eqn:Hb;
    [|exact Hnil].
  destruct (ParseFacts.body_ok now expression r Hb) as [-> | [_ Hruns]];
    [exact Hnil|].
  unfold CronPreview.calculate_next_runs in Hruns.
  destruct (CronPreview.run_datetimes now
              (PyStr.split_ws (PyStr.strip expression)) 5) as [l|]
    eqn:Hl; [|discriminate].
  cbn [bind] in Hruns. apply Ok_inj in Hruns. rewrite <- Hruns.
  split; [apply firstn_le_length|]. split.
  - intros Hzero. apply RunsFacts.firstn_distinct.
    exact (RunsFacts.run_datetimes_distinct now _ 5 l Hrep Hzero Hl).
  - intros Hstep.
    destruct (RunsFacts.run_datetimes_ascending now _ 5 l Hrep Hstep Hl)
      as [lo Hasc].
    pose proof (RunsFacts.ascending_firstn lo 5 l Hasc) as Hasc5.
    rewrite firstn_map. exists (firstn 5 l).
    split; [reflexivity|].
    split; [exact (RunsFacts.ascending_rep lo _ Hasc5) | exact (proj1 Hasc5)].
Qed.

Lemma next_runs_bounded_and_ordered_witness :
  NoDup (CronPreview.next_runs
           (CronPreview.parse_cron noon_before "*/-30 * * * *"))
  /\ exists ts : list DateTime.datetime,
       CronPreview.next_runs
         (CronPreview.parse_cron noon_before "*/15 * * * *")
       = map DateTime.strftime ts
       /\ Forall Spec.rep ts
       /\ StronglySorted Spec.earlier ts.
Proof.
  assert (Hwf : Spec.wf noon_before)
    by (split; [reflexivity | cbn; lia]).
  split.
  - exact (proj1 (proj2 (next_runs_bounded_and_ordered noon_before
                           "*/-30 * * * *" Hwf)) eq_refl).
  - exact (proj2 (proj2 (next_runs_bounded_and_ordered noon_before
                           "*/15 * * * *" Hwf)) eq_refl).
Defined.

(* ================================================================== *)
(** * The table editor: the text of a table *)

Module TextFacts.

Import PyStr Spec.

Lemma append_assoc (a b c : string) : (a ++ b) ++ c = a ++ (b ++ c).
Proof.
  induction a as [|x a IH]; cbn [append]; [reflexivity | now rewrite IH].
Qed.

Lemma split_app_sep (c : ascii) (a b : string) :
  split c (a ++ String c b) = (split c a ++ split c b)%list.
Proof.
  induction a as [|d a IH]; cbn [append split].
  - now rewrite Ascii.eqb_refl.
  - destruct (Ascii.eqb d c); rewrite IH; [reflexivity|].
    pose proof (DeleteFacts.split_nonempty c a) as Hne.
    destruct (split c a); [now elim Hne | reflexivity].
Qed.

Lemma app_lines_cons (d : ascii) (h : string) (t lb : list string) :
  lb <> [] ->
  app_lines (String d h :: t) lb =
    match app_lines (h :: t) lb with
    | h' :: t' => String d h' :: t'
    | [] => [String d EmptyString]
    end.
Proof.
  intros Hne. destruct t as [|y t].
  - cbn [app_lines]. destruct lb; [now elim Hne | reflexivity].
  - reflexivity.
Qed.

Lemma split_app (c : ascii) (a b : string) :
  split c (a ++ b) = app_lines (split c a) (split c b).
Proof.
  pose proof (DeleteFacts.split_nonempty c b) as Hb.
  induction a as [|d a IH]; cbn [append split].
  - destruct (split c b); [now elim Hb | reflexivity].
  - pose proof (DeleteFacts.split_nonempty c a) as Ha.
    destruct (Ascii.eqb d c).
    + rewrite IH. destruct (split c a); [now elim Ha | reflexivity].
    + rewrite IH. destruct (split c a) as [|h t]; [now elim Ha|].
      now rewrite app_lines_cons.
Qed.

Lemma split_blank (c : ascii) (s : string) :
  blank s -> Forall blank (split c s).
Proof.
  unfold blank. induction s as [|d s IH]; cbn [all_chars split].
  - intros _. now constructor.
  - intros H. apply andb_prop in H as [Hd Hs]. specialize (IH Hs).
    destruct (Ascii.eqb d c); [now constructor|].
    destruct (split c s) as [|h t]; [now constructor; [cbn; rewrite Hd|]|].
    inversion IH as [|? ? Hh Ht]; subst. constructor; [|exact Ht].
    cbn [all_chars]. now rewrite Hd, Hh.
Qed.

(** ** Stripping *)

Lemma rstrip_cons (c : ascii) (r : string) :
  rstrip (String c r) =
    match rstrip r with
    | EmptyString => if isspace c then EmptyString else String c EmptyString
    | r' => String c r'
    end.
Proof. reflexivity. Qed.

Lemma rstrip_nonspace (c : ascii) (r : string) :
  isspace c = false -> rstrip (String c r) = String c (rstrip r).
Proof. intros H. rewrite rstrip_cons, H. now destruct (rstrip r). Qed.

Lemma lstrip_head (s : string) (d : ascii) (t : string) :
  lstrip s = String d t -> isspace d = false.
Proof.
  induction s as [|c r IH]; [discriminate|].
  cbn [lstrip]. destruct (isspace c) eqn:Hc; [exact IH|].
  intros H. injection H as <- _. exact Hc.
Qed.

Lemma lstrip_app (s x : string) (d : ascii) (t : string) :
  lstrip s = String d t -> lstrip (s ++ x) = String d (t ++ x).
Proof.
  induction s as [|c r IH]; [discriminate|].
  cbn [lstrip append]. destruct (isspace c); [exact IH|].
  intros H. injection H as <- <-. reflexivity.
Qed.

Lemma lstrip_rstrip (s : string) : rstrip (lstrip s) = lstrip (rstrip s).
Proof.
  induction s as [|c r IH]; [reflexivity|].
  cbn [lstrip]. destruct (isspace c) eqn:Hc.
  - rewrite IH, rstrip_cons, Hc.
    destruct (rstrip r); [reflexivity|]. cbn [lstrip]. now rewrite Hc.
  - rewrite (rstrip_nonspace c r Hc). cbn [lstrip]. now rewrite Hc.
Qed.

Lemma rstrip_app_blank (x h : string) :
  blank h -> rstrip (x ++ h) = rstrip x.
Proof.
  intros Hh. induction x as [|c r IH]; cbn [append].
  - now apply PyStrFacts.blank_rstrip.
  - now rewrite !rstrip_cons, IH.
Qed.

Lemma strip_app_blank (x h : string) : blank h -> strip (x ++ h) = strip x.
Proof.
  intros Hh. unfold strip. now rewrite !lstrip_rstrip, rstrip_app_blank.
Qed.

Lemma rstrip_decompose (s : string) :
  exists ws, blank ws /\ s = rstrip s ++ ws.
Proof.
  induction s as [|c r (ws & Hws & Hr)].
  - exists "". now split.
  - rewrite rstrip_cons. destruct (rstrip r) as [|d t] eqn:Ht.
    + destruct (isspace c) eqn:Hc.
      * exists (String c r). split; [|reflexivity].
        unfold blank. cbn [all_chars]. rewrite Hc.
        now apply PyStrFacts.rstrip_empty_blank.
      * exists ws. split; [exact Hws|]. cbn [append] in *. now rewrite <- Hr.
    + exists ws. split; [exact Hws|]. cbn [append] in *. now rewrite <- Hr.
Qed.

Lemma strip_rstrip (s : string) : strip (rstrip s) = strip s.
Proof.
  destruct (rstrip_decompose s) as (ws & Hws & Hs).
  rewrite Hs at 2. now rewrite strip_app_blank.
Qed.

Lemma blank_strip (s : string) : blank s -> strip s = "".
Proof. intros H. unfold strip. now rewrite PyStrFacts.blank_lstrip. Qed.

Lemma strip_space_cons (c : ascii) (s : string) :
  isspace c = true -> strip (String c s) = strip s.
Proof. intros H. unfold strip. cbn [lstrip]. now rewrite H. Qed.

Lemma startswith_char (a b : ascii) (s : string) :
  startswith (String a EmptyString) (String b s) = Ascii.eqb a b.
Proof.
  unfold startswith. cbn [prefix].
  destruct (ascii_dec a b) as [->|NE].
  - rewrite Ascii.eqb_refl. now destruct s.
  - symmetry. now apply Ascii.eqb_neq.
Qed.

(** A comment line as add_cron_job writes it. *)
Lemma strip_comment_line (comment : string) :
  strip (String "#" comment) = String "#" (rstrip comment).
Proof.
  unfold strip.
  change (lstrip (String "#" comment)) with (String "#" comment).
  now apply rstrip_nonspace.
Qed.

(** The head of a stripped line whose left part is not blank. *)
Lemma strip_app_head (s x : string) (d : ascii) (t : string) :
  lstrip s = String d t -> exists u, strip (s ++ x) = String d u.
Proof.
  intros H. unfold strip. rewrite (lstrip_app s x d t H).
  rewrite (rstrip_nonspace d _ (lstrip_head s d t H)). eauto.
Qed.

(** ** Tokens *)

Lemma split_ws_head (c : ascii) (r : string) :
  isspace c = false -> split_ws (String c r) <> [].
Proof.
  intros H. rewrite PyStrFacts.split_ws_cons, H.
  destruct r as [|d r]; [discriminate|].
  destruct (isspace d); [discriminate|].
  destruct (split_ws (String d r)); discriminate.
Qed.

Lemma split_ws_app_space (a b : string) (c : ascii) :
  isspace c = true ->
  split_ws (a ++ String c b) = (split_ws a ++ split_ws b)%list.
Proof.
  intros Hc. induction a as [|d r IH]; cbn [append].
  - now rewrite PyStrFacts.split_ws_cons, Hc.
  - rewrite (PyStrFacts.split_ws_cons d (r ++ String c b)),
      (PyStrFacts.split_ws_cons d r).
    destruct (isspace d); [exact IH|].
    destruct r as [|e r'].
    + cbn [append] in *. now rewrite Hc, IH.
    + cbn [append] in *. destruct (isspace e) eqn:He.
      * now rewrite IH.
      * rewrite IH. pose proof (split_ws_head e r' He) as Hne.
        destruct (split_ws (String e r')); [now elim Hne | reflexivity].
Qed.

(** ** Universal newlines *)

Lemma universal_newlines_id (s : string) :
  contains CR s = false -> universal_newlines s = s.
Proof.
  induction s as [|c r IH]; [reflexivity|].
  cbn [contains universal_newlines]. intros H.
  apply orb_false_elim in H as [Hc Hr]. now rewrite Hc, (IH Hr).
Qed.

Lemma universal_newlines_no_cr (s : string) :
  contains CR (universal_newlines s) = false.
Proof.
  enough (H : contains CR (universal_newlines s) = false
              /\ forall c, contains CR (universal_newlines (String c s))
                           = false) by exact (proj1 H).
  induction s as [|d r [IH1 IH2]].
  - split; [reflexivity|]. intros c. cbn [universal_newlines].
    destruct (Ascii.eqb c CR) eqn:Hc; [reflexivity|].
    cbn [contains]. now rewrite Hc.
  - split; [apply IH2|]. intros c.
    change (universal_newlines (String c (String d r)))
      with (if Ascii.eqb c CR then
              String LF (if Ascii.eqb d LF then universal_newlines r
                         else universal_newlines (String d r))
            else String c (universal_newlines (String d r))).
    destruct (Ascii.eqb c CR) eqn:Hc.
    + cbn [contains]. destruct (Ascii.eqb d LF); [exact IH1 | apply IH2].
    + cbn [contains]. rewrite Hc. apply IH2.
Qed.

Lemma contains_lstrip (c : ascii) (s : string) :
  contains c s = false -> contains c (lstrip s) = false.
Proof.
  induction s as [|d r IH]; [reflexivity|].
  cbn [lstrip]. destruct (isspace d); [|auto].
  cbn [contains]. intros H. apply orb_false_elim in H as [_ Hr]. auto.
Qed.

Lemma contains_rstrip (c : ascii) (s : string) :
  contains c s = false -> contains c (rstrip s) = false.
Proof.
  induction s as [|d r IH]; [reflexivity|].
  cbn [contains]. intros H. apply orb_false_elim in H as [Hd Hr].
  rewrite rstrip_cons. specialize (IH Hr).
  destruct (rstrip r).
  - destruct (isspace d); [reflexivity|]. cbn [contains]. now rewrite Hd.
  - cbn [contains] in *. now rewrite Hd, IH.
Qed.

Lemma contains_strip (c : ascii) (s : string) :
  contains c s = false -> contains c (strip s) = false.
Proof. intros H. now apply contains_rstrip, contains_lstrip. Qed.

End TextFacts.

(* ================================================================== *)
(** * The table editor: listing after an addition *)

Module AddFacts.

Import PyStr CronMonitorServer TextFacts Spec.

Lemma scan_jobs_app (now : DateTime.datetime) (a b : list string) :
  forall (comment : string) (job_index : Z),
    scan_jobs now comment job_index (a ++ b) =
      (scan_jobs now comment job_index a
       ++ scan_jobs now (final_comment comment a)
            (job_index
             + Z.of_nat (List.length (scan_jobs now comment job_index a)))
            b)%list.
Proof.
  induction a as [|line rest IH]; intros comment job_index.
  - cbn [app scan_jobs final_comment List.length]. f_equal. lia.
  - cbn [app scan_jobs final_comment].
    destruct (String.eqb (strip line) ""); [apply IH|].
    destruct (startswith "#" (strip line)); [apply IH|].
    destruct (5 <=? List.length (split_ws (strip line)))%nat; [|apply IH].
    rewrite IH. cbn [app List.length]. do 3 f_equal. lia.
Qed.

(** A line matters only through its stripped form. *)
Lemma scan_jobs_strip_eq (now : DateTime.datetime) (l l' : string)
  (t : list string) (comment : string) (job_index : Z) :
  strip l = strip l' ->
  scan_jobs now comment job_index (l :: t)
  = scan_jobs now comment job_index (l' :: t).
Proof. intros H. cbn [scan_jobs]. now rewrite H. Qed.

Lemma scan_blank_lines (now : DateTime.datetime) (t : list string) :
  Forall blank t ->
  forall (comment : string) (job_index : Z),
    scan_jobs now comment job_index t = [].
Proof.
  induction 1 as [|l t Hl _ IH]; intros comment job_index; [reflexivity|].
  cbn [scan_jobs]. rewrite (blank_strip l Hl). apply IH.
Qed.

Lemma scan_lstrip (now : DateTime.datetime) (job_index : Z) (s : string) :
  scan_jobs now "" job_index (split LF (lstrip s))
  = scan_jobs now "" job_index (split LF s).
Proof.
  induction s as [|c r IH]; [reflexivity|].
  cbn [lstrip]. destruct (isspace c) eqn:Hc; [|reflexivity].
  rewrite IH. cbn [split].
  destruct (Ascii.eqb c LF); [reflexivity|].
  pose proof (DeleteFacts.split_nonempty LF r) as Hne.
  destruct (split LF r) as [|h t]; [now elim Hne|].
  apply scan_jobs_strip_eq. symmetry. now apply strip_space_cons.
Qed.

Lemma scan_app_lines_blank (now : DateTime.datetime) (la : list string)
  (h : string) (t : list string) :
  la <> [] -> blank h -> Forall blank t ->
  forall (comment : string) (job_index : Z),
    scan_jobs now comment job_index (app_lines la (h :: t))
    = scan_jobs now comment job_index la.
Proof.
  intros Hne Hh Ht. induction la as [|x r IH]; [now elim Hne|].
  intros comment job_index. destruct r as [|y r].
  - cbn [app_lines].
    rewrite (scan_jobs_strip_eq now (x ++ h) x t)
      by now apply strip_app_blank.
    change (x :: t) with ([x] ++ t)%list.
    rewrite scan_jobs_app, (scan_blank_lines now t Ht).
    now rewrite app_nil_r.
  - change (app_lines (x :: y :: r) (h :: t))
      with (x :: app_lines (y :: r) (h :: t)).
    specialize (IH ltac:(discriminate)).
    cbn [scan_jobs].
    destruct (String.eqb (strip x) ""); [apply IH|].
    destruct (startswith "#" (strip x)); [apply IH|].
    destruct (5 <=? List.length (split_ws (strip x)))%nat;
      [f_equal|]; apply IH.
Qed.

(** Listing the stripped text gives the jobs of the text. *)
Lemma scan_strip (now : DateTime.datetime) (job_index : Z) (s : string) :
  scan_jobs now "" job_index (split LF (strip s))
  = scan_jobs now "" job_index (split LF s).
Proof.
  rewrite <- (scan_lstrip now job_index s). unfold strip.
  destruct (rstrip_decompose (lstrip s)) as (ws & Hws & Hs).
  rewrite Hs at 2. rewrite split_app.
  pose proof (split_blank LF ws Hws) as Hb.
  pose proof (DeleteFacts.split_nonempty LF ws) as Hne.
  destruct (split LF ws) as [|h t]; [now elim Hne|].
  inversion Hb as [|? ? Hh Ht]; subst.
  symmetry. apply scan_app_lines_blank; auto.
  apply DeleteFacts.split_nonempty.
Qed.

(** The lines add_cron_job appends, read by the loop of get_cron_jobs. *)
Section NewLines.

Variable now : DateTime.datetime.
Variables sched cmd note : string.

Hypothesis five_tokens : List.length (split_ws sched) = 5%nat.
Hypothesis no_hash : startswith "#" (lstrip sched) = false.
Hypothesis note_not_blank : strip note <> "".

Lemma new_line_parts :
  split_ws (strip (sched ++ " " ++ cmd))
  = (split_ws sched ++ split_ws cmd)%list.
Proof.
  rewrite PyStrFacts.split_ws_strip.
  change (" " ++ cmd) with (String " " cmd).
  now apply split_ws_app_space.
Qed.

Lemma new_line_not_comment :
  String.eqb (strip (sched ++ " " ++ cmd)) "" = false
  /\ startswith "#" (strip (sched ++ " " ++ cmd)) = false.
Proof.
  destruct (lstrip sched) as [|d t] eqn:Hl.
  - pose proof (PyStrFacts.split_ws_lstrip sched) as H.
    rewrite Hl in H. cbn in H. rewrite <- H in five_tokens. discriminate.
  - destruct (strip_app_head sched (" " ++ cmd) d t Hl) as [u ->].
    split; [reflexivity|].
    now rewrite startswith_char in *.
Qed.

Lemma scan_new_lines (pending : string) (job_index : Z) :
  scan_jobs now pending job_index ["#" ++ note; sched ++ " " ++ cmd; ""]
  = [new_job now sched cmd note job_index].
Proof.
  cbn [scan_jobs].
  change ("#" ++ note) with (String "#" note).
  rewrite strip_comment_line.
  change (String.eqb (String "#" (rstrip note)) "") with false.
  rewrite startswith_char. change (Ascii.eqb "#" "#") with true.
  cbn [drop]. rewrite strip_rstrip.
  destruct new_line_not_comment as [-> ->].
  assert (Hlen : (5 <=? List.length
                          (split_ws (strip (sched ++ " " ++ cmd))))%nat
                 = true).
  { rewrite new_line_parts, length_app, five_tokens.
    apply Nat.leb_le. lia. }
  rewrite Hlen.
  change (String.eqb (strip "") "") with true.
  unfold new_job. f_equal. f_equal.
  destruct (String.eqb_spec (strip note) ""); [contradiction|reflexivity].
Qed.

Lemma new_job_fields (job_index : Z) :
  index (new_job now sched cmd note job_index) = job_index
  /\ schedule (new_job now sched cmd note job_index)
     = join " " (split_ws sched)
  /\ command (new_job now sched cmd note job_index)
     = join " " (split_ws cmd)
  /\ comment (new_job now sched cmd note job_index) = strip note.
Proof.
  unfold new_job. cbn [index schedule command comment].
  rewrite new_line_parts.
  assert (H1 : firstn 5 (split_ws sched ++ split_ws cmd) = split_ws sched).
  { rewrite <- five_tokens.
    rewrite firstn_app, Nat.sub_diag, firstn_all, firstn_O.
    apply app_nil_r. }
  assert (H2 : skipn 5 (split_ws sched ++ split_ws cmd) = split_ws cmd).
  { rewrite <- five_tokens.
    now rewrite skipn_app, Nat.sub_diag, skipn_all, skipn_O. }
  rewrite H1, H2. repeat split.
Qed.

End NewLines.

(** ** The staged text *)

Lemma single_line_spec (s : string) :
  single_line s = true -> contains LF s = false /\ contains CR s = false.
Proof.
  unfold single_line. intros H. apply andb_prop in H as [H1 H2].
  split; now apply negb_true_iff.
Qed.

Lemma split_pieces (c d : ascii) (s : string) :
  contains d s = false -> Forall (fun p => contains d p = false) (split c s).
Proof.
  induction s as [|e s IH]; cbn [contains split].
  - intros _. now constructor.
  - intros H. apply orb_false_elim in H as [He Hs]. specialize (IH Hs).
    destruct (Ascii.eqb e c); [now constructor|].
    destruct (split c s) as [|h t].
    + constructor; [|constructor]. cbn [contains]. now rewrite He.
    + inversion IH as [|? ? Hh Ht]; subst. constructor; [|exact Ht].
      cbn [contains]. now rewrite He, Hh.
Qed.

Lemma split_pieces_no_sep (c : ascii) (s : string) :
  Forall (fun p => contains c p = false) (split c s).
Proof.
  induction s as [|e s IH]; cbn [split].
  - now constructor.
  - destruct (Ascii.eqb e c) eqn:He; [now constructor|].
    destruct (split c s) as [|h t].
    + constructor; [|constructor]. cbn [contains]. now rewrite He.
    + inversion IH as [|? ? Hh Ht]; subst. constructor; [|exact Ht].
      cbn [contains]. now rewrite He, Hh.
Qed.

Lemma contains_join (c : ascii) (sep : string) (ls : list string) :
  contains c sep = false ->
  Forall (fun p => contains c p = false) ls ->
  contains c (join sep ls) = false.
Proof.
  intros Hsep. induction 1 as [|x r Hx Hr IH]; [reflexivity|].
  destruct r as [|y r]; [exact Hx|].
  rewrite DeleteFacts.join_cons by discriminate.
  now rewrite !StepFacts.contains_app, Hx, Hsep, IH.
Qed.

(** Reading back the lines of a staged text. *)
Lemma split_join_lines (ls : list string) :
  ls <> [] ->
  Forall (fun p => contains LF p = false) ls ->
  split LF (join NL ls ++ NL) = (ls ++ [""])%list.
Proof.
  intros Hne H. induction H as [|x r Hx Hr IH]; [now elim Hne|].
  destruct r as [|y r].
  - cbn [join]. unfold NL. rewrite split_app_sep.
    now rewrite (StepFacts.split_without_sep LF x Hx).
  - rewrite DeleteFacts.join_cons by discriminate.
    rewrite !append_assoc. unfold NL at 1. cbn [append].
    rewrite split_app_sep, (StepFacts.split_without_sep LF x Hx).
    rewrite IH by discriminate. reflexivity.
Qed.

Lemma add_success (accepts : string -> bool) (w : world)
  (sched cmd note : string) :
  note <> "" ->
  fst (add_cron_job accepts sched cmd note w) = true ->
  crontab (snd (add_cron_job accepts sched cmd note w))
  = Some (join NL (staged_lines w sched cmd note) ++ NL).
Proof.
  intros Hnote. unfold staged_lines.
  unfold add_cron_job, try_except, bindM, crontab_list, install_lines,
    bindM, write_temp, crontab_install, unlink, ret.
  destruct (String.eqb_spec note "") as [E|_]; [contradiction|].
  cbn [negb].
  destruct (crontab w) as [table|];
    cbn [fst snd temp_files next_temp read_file];
    rewrite Nat.eqb_refl;
    match goal with
    | |- context [accepts ?t] => destruct (accepts t)
    end; cbn [fst snd crontab]; try discriminate;
    intros _; now rewrite <- app_assoc.
Qed.

End AddFacts.

(** C9, as the specification states it, fails: the listing rebuilds the command
    from its tokens, so a command with two spaces in a row does not come
    back as it was given. *)
Lemma add_then_list_counterexample :
  let w := world_of (lines_text ["0 2 * * * /bin/backup.sh"]) in
  let r := CronMonitorServer.add_cron_job (fun _ => true)
             "0 3 * * *" "echo  hi" "greeting" w in
  List.length (PyStr.split_ws "0 3 * * *") = 5%nat
  /\ fst r = true
  /\ map CronMonitorServer.command
       (CronMonitorServer.get_cron_jobs noon_before (snd r))
     = ["/bin/backup.sh"; "echo hi"]
  /\ "echo hi" <> "echo  hi".
Proof. vm_compute. repeat split; discriminate. Qed.

(** C9, amended.  Let the schedule have five tokens and not begin with
    [#], let the comment be non-blank, and let the three inputs be free of
    line breaks.  If add_cron_job succeeds, the listing afterwards is the
    listing before followed by one new entry, whose index is the number of
    entries before, whose schedule and command are the tokens of the inputs
    joined by single spaces, and whose comment is the input comment
    trimmed. *)
Theorem add_then_list :
  forall (accepts : string -> bool) (now : DateTime.datetime) (w : world)
         (sched cmd note : string),
    List.length (PyStr.split_ws sched) = 5%nat ->
    PyStr.startswith "#" (PyStr.lstrip sched) = false ->
    PyStr.strip note <> "" ->
    Spec.single_line sched = true ->
    Spec.single_line cmd = true ->
    Spec.single_line note = true ->
    fst (CronMonitorServer.add_cron_job accepts sched cmd note w) = true ->
    let before := CronMonitorServer.get_cron_jobs now w in
    let after :=
      CronMonitorServer.get_cron_jobs now
        (snd (CronMonitorServer.add_cron_job accepts sched cmd note w)) in
    List.length after = S (List.length before)
    /\ exists job : CronMonitorServer.Job,
         after = (before ++ [job])%list
         /\ CronMonitorServer.index job = Z.of_nat (List.length before)
         /\ CronMonitorServer.schedule job
            = PyStr.join " " (PyStr.split_ws sched)
         /\ CronMonitorServer.command job
            = PyStr.join " " (PyStr.split_ws cmd)
         /\ CronMonitorServer.comment job = PyStr.strip note.
Proof.
  intros accepts now w sched cmd note H5 Hhash Hnote Hs Hc Hn Hok
    before after.
  destruct (AddFacts.single_line_spec _ Hs) as [Hs1 Hs2].
  destruct (AddFacts.single_line_spec _ Hc) as [Hc1 Hc2].
  destruct (AddFacts.single_line_spec _ Hn) as [Hn1 Hn2].
  assert (Hne : note <> "") by (intros ->; now apply Hnote).
  pose proof (AddFacts.add_success accepts w sched cmd note Hne Hok) as Hw.
  set (current := match crontab w with
                  | Some table =>
                      PyStr.split LF (PyStr.strip (universal_newlines table))
                  | None => []
                  end).
  assert (Hbefore : before = CronMonitorServer.scan_jobs now "" 0 current).
  { subst before current. unfold CronMonitorServer.get_cron_jobs,
      CronMonitorServer.crontab_list.
    destruct (crontab w) as [table|]; [|reflexivity].
    symmetry. apply AddFacts.scan_strip. }
  assert (Hlf : Forall (fun p => PyStr.contains LF p = false) current).
  { subst current. destruct (crontab w); [|constructor].
    apply AddFacts.split_pieces_no_sep. }
  assert (Hcr : Forall (fun p => PyStr.contains CR p = false) current).
  { subst current. destruct (crontab w); [|constructor].
    apply AddFacts.split_pieces, TextFacts.contains_strip,
      TextFacts.universal_newlines_no_cr. }
  assert (Hnew : forall c : ascii,
             PyStr.contains c sched = false ->
             PyStr.contains c cmd = false ->
             PyStr.contains c note = false ->
             Ascii.eqb "#" c = false -> Ascii.eqb " " c = false ->
             Forall (fun p => PyStr.contains c p = false)
               ["#" ++ note; sched ++ " " ++ cmd]).
  { intros c H1 H2 H3 H4 H6. repeat constructor.
    - cbn [append PyStr.contains]. now rewrite H4, H3.
    - rewrite !StepFacts.contains_app, H1, H2. cbn [PyStr.contains].
      now rewrite H6. }
  assert (Hafter : after
                   = CronMonitorServer.scan_jobs now "" 0
                       (current ++ ["#" ++ note; sched ++ " " ++ cmd; ""])).
  { subst after. unfold CronMonitorServer.get_cron_jobs,
      CronMonitorServer.crontab_list.
    rewrite Hw. unfold Spec.staged_lines. fold current.
    rewrite TextFacts.universal_newlines_id.
    - rewrite AddFacts.split_join_lines.
      + now rewrite <- app_assoc.
      + now destruct current.
      + apply Forall_app. split; [exact Hlf|]. now apply Hnew.
    - rewrite StepFacts.contains_app. apply orb_false_intro; [|reflexivity].
      apply AddFacts.contains_join; [reflexivity|].
      apply Forall_app. split; [exact Hcr|]. now apply Hnew. }
  rewrite AddFacts.scan_jobs_app in Hafter.
  rewrite (AddFacts.scan_new_lines now sched cmd note H5 Hhash Hnote)
    in Hafter.
  rewrite <- Hbefore in Hafter.
  split.
  - rewrite Hafter, length_app. cbn [List.length]. lia.
  - eexists. split; [exact Hafter|].
    destruct (AddFacts.new_job_fields now sched cmd note H5
                (0 + Z.of_nat (List.length before)))
      as (Hi & Hsch & Hcmd & Hcom).
    repeat split; auto.
Qed.

Lemma add_then_list_witness :
  let w := world_of (lines_text ["0 2 * * * /bin/backup.sh"]) in
  List.length
    (CronMonitorServer.get_cron_jobs noon_before
       (snd (CronMonitorServer.add_cron_job (fun _ => true)
               "0 3 * * *" "echo  hi" " greeting" w)))
  = S (List.length (CronMonitorServer.get_cron_jobs noon_before w)).
Proof.
  assert (Hnote : PyStr.strip " greeting" <> "") by discriminate.
  exact (proj1 (add_then_list (fun _ => true) noon_before
                  (world_of (lines_text ["0 2 * * * /bin/backup.sh"]))
                  "0 3 * * *" "echo  hi" " greeting"
                  eq_refl eq_refl Hnote eq_refl eq_refl eq_refl eq_refl)).
Defined.

(* ================================================================== *)
(** * The interpreter: which expressions are accepted *)

Module AcceptFacts.

Import PyStr DateTime CronPreview Spec Props.

Lemma unpack2_ok (l : list string) :
  is_ok (unpack2 l) = (List.length l =? 2)%nat.
Proof. destruct l as [|a [|b [|c l]]]; reflexivity. Qed.

Lemma bind_ok {A B : Type} (m : result A) (k : A -> result B) :
  (forall a, is_ok (k a) = true) -> is_ok (bind m k) = is_ok m.
Proof. intros H. destruct m; cbn; auto. Qed.

Lemma star_has_no_dash (field : string) :
  String.eqb field "*" = true -> too_many_dashes field = false.
Proof. intros H. apply String.eqb_eq in H. now subst. Qed.

Ltac range_case field :=
  unfold too_many_dashes;
  destruct (contains "/" field);
    [now (destruct (startswith "*/" field))|];
  destruct (contains "," field); [reflexivity|];
  destruct (contains "-" field); [|reflexivity];
  cbn [negb andb]; rewrite bind_ok by (now intros [? ?]);
  rewrite unpack2_ok; now destruct (_ =? _)%nat.

Lemma minute_phrase_ok (minute : string) :
  is_ok (minute_phrase minute) = negb (too_many_dashes minute).
Proof.
  unfold minute_phrase.
  destruct (String.eqb minute "*") eqn:E;
    [now rewrite star_has_no_dash|].
  range_case minute.
Qed.

Lemma hour_phrase_ok (hour : string) :
  is_ok (hour_phrase hour) = negb (too_many_dashes hour).
Proof.
  unfold hour_phrase.
  destruct (String.eqb hour "*") eqn:E;
    [now rewrite star_has_no_dash|]. cbn [negb].
  range_case hour.
Qed.

Lemma day_phrase_ok (day : string) :
  is_ok (day_phrase day) = negb (too_many_dashes day).
Proof.
  unfold day_phrase.
  destruct (String.eqb day "*") eqn:E;
    [now rewrite star_has_no_dash|]. cbn [negb].
  unfold too_many_dashes.
  destruct (contains "/" day); [reflexivity|].
  destruct (contains "," day); [reflexivity|].
  destruct (contains "-" day); [|reflexivity].
  cbn [negb andb]. rewrite bind_ok by (now intros [? ?]).
  rewrite unpack2_ok. now destruct (_ =? _)%nat.
Qed.

Lemma explain_field_ok (field name : string) (lo hi : Z) :
  is_ok (explain_field field name lo hi) = negb (too_many_dashes field).
Proof.
  unfold explain_field.
  destruct (String.eqb field "*") eqn:E;
    [now rewrite star_has_no_dash|].
  range_case field.
Qed.

Lemma digit_in_range_ok (s : string) (lo hi : Z) :
  is_ok (digit_in_range s lo hi) = negb (bad_digits s).
Proof.
  unfold digit_in_range, bad_digits, int_of.
  destruct (isdigit s); [|reflexivity].
  now destruct (int s).
Qed.

Lemma digit_in_range_true (s : string) (lo hi : Z) :
  digit_in_range s lo hi = Ok true -> is_ok (int_of s) = true.
Proof.
  unfold digit_in_range, int_of.
  destruct (isdigit s); [|discriminate]. now destruct (int s).
Qed.

Lemma names_of_ok (names : list string) (base lo hi : Z)
  (items : list string) :
  is_ok (names_of names base lo hi items) = negb (existsb bad_digits items).
Proof.
  induction items as [|m r IH]; [reflexivity|].
  cbn [names_of existsb]. rewrite negb_orb, <- IH.
  rewrite <- (digit_in_range_ok m lo hi).
  destruct (digit_in_range m lo hi) as [[|]|] eqn:E; cbn [bind is_ok andb];
    [|reflexivity|reflexivity].
  pose proof (digit_in_range_true m lo hi E) as Hint.
  destruct (int_of m); [|discriminate]. cbn [bind].
  now destruct (names_of names base lo hi r).
Qed.

Lemma comma_is_no_digit (s : string) :
  isdigit s = true -> contains "," s = false.
Proof.
  intros H. destruct (contains "," s) eqn:E; [|reflexivity].
  rewrite (StepFacts.isdigit_char_not "," s E eq_refl) in H. discriminate.
Qed.

(** The month and the weekday blocks have the same shape. *)
Lemma number_phrase_ok (field : string) (lo hi : Z)
  (single : Z -> list string) (several : list string -> list string)
  (names : list string) (base : Z) :
  is_ok
    (ok <- digit_in_range field lo hi ;;
     if (ok : bool) then n <- int_of field ;; Ok (single n)
     else if contains "," field then
       l <- names_of names base lo hi (split "," field) ;; Ok (several l)
     else Ok [])
  = negb (bad_number_list field).
Proof.
  unfold bad_number_list.
  destruct (isdigit field) eqn:Hd.
  - rewrite (StepFacts.split_without_sep "," field (comma_is_no_digit _ Hd)).
    cbn [existsb]. rewrite orb_false_r, <- (digit_in_range_ok field lo hi).
    destruct (digit_in_range field lo hi) as [[|]|] eqn:E;
      cbn [bind is_ok]; [|now rewrite comma_is_no_digit|reflexivity].
    pose proof (digit_in_range_true field lo hi E) as Hint.
    now destruct (int_of field).
  - unfold digit_in_range. rewrite Hd. cbn [bind].
    destruct (contains "," field) eqn:Hc.
    + rewrite bind_ok by reflexivity. apply names_of_ok.
    + rewrite (StepFacts.split_without_sep "," field Hc).
      cbn [existsb]. unfold bad_digits. now rewrite Hd.
Qed.

Lemma month_phrase_ok (month : string) :
  is_ok (month_phrase month) = negb (bad_number_list month).
Proof.
  unfold month_phrase.
  destruct (String.eqb_spec month "*") as [->|_]; [reflexivity|].
  cbn [negb]. apply number_phrase_ok.
Qed.

Lemma weekday_phrase_ok (weekday : string) :
  is_ok (weekday_phrase weekday) = negb (bad_number_list weekday).
Proof.
  unfold weekday_phrase.
  destruct (String.eqb_spec weekday "*") as [->|_]; [reflexivity|].
  cbn [negb]. apply number_phrase_ok.
Qed.

Lemma calculate_next_runs_ok (now : datetime) (a b c d e : string)
  (count : nat) :
  is_ok (calculate_next_runs now [a; b; c; d; e] count) = true.
Proof. reflexivity. Qed.

Ltac split_binds H :=
  repeat match type of H with
         | bind ?m _ = _ => destruct m eqn:?; cbn [bind] in H
         end.

Lemma body_valid (now : datetime) (expression : string) :
  match parse_cron_body now expression with
  | Ok r => valid r
  | Raise _ => false
  end = parses expression.
Proof.
  unfold parse_cron_body, parses. rewrite PyStrFacts.split_ws_strip.
  destruct (split_ws expression) as [|a [|b [|c [|d [|e [|f l]]]]]];
    try reflexivity.
  pose proof (minute_phrase_ok a) as H1.
  pose proof (hour_phrase_ok b) as H2.
  pose proof (day_phrase_ok c) as H3.
  pose proof (month_phrase_ok d) as H4.
  pose proof (weekday_phrase_ok e) as H5.
  pose proof (calculate_next_runs_ok now a b c d e 5) as H6.
  pose proof (explain_field_ok a "minute" 0 59) as H7.
  pose proof (explain_field_ok b "hour" 0 23) as H8.
  pose proof (explain_field_ok c "day of month" 1 31) as H9.
  pose proof (explain_field_ok d "month" 1 12) as H10.
  pose proof (explain_field_ok e "day of week" 0 6) as H11.
  destruct (minute_phrase a); cbn [bind is_ok] in *;
    [|now rewrite <- H1].
  rewrite <- H1.
  destruct (hour_phrase b); cbn [bind is_ok] in *; [|now rewrite <- H2].
  rewrite <- H2.
  destruct (day_phrase c); cbn [bind is_ok] in *; [|now rewrite <- H3].
  rewrite <- H3.
  destruct (month_phrase d); cbn [bind is_ok] in *;
    [|rewrite <- H4; cbn; now rewrite !andb_false_r].
  rewrite <- H4.
  destruct (weekday_phrase e); cbn [bind is_ok] in *;
    [|rewrite <- H5; cbn; now rewrite !andb_false_r].
  rewrite <- H5.
  destruct (calculate_next_runs now [a; b; c; d; e] 5); [|discriminate].
  cbn [bind].
  destruct (explain_field a "minute" 0 59); cbn [bind is_ok] in *;
    [|congruence].
  destruct (explain_field b "hour" 0 23); cbn [bind is_ok] in *;
    [|congruence].
  destruct (explain_field c "day of month" 1 31); cbn [bind is_ok] in *;
    [|congruence].
  rewrite <- H10, <- H11.
  destruct (explain_field d "month" 1 12); cbn [bind is_ok] in *;
    [|reflexivity].
  destruct (explain_field e "day of week" 0 6); reflexivity.
Qed.

Lemma valid_iff (now : datetime) (expression : string) :
  valid (parse_cron now expression) = parses expression.
Proof.
  rewrite <- (body_valid now expression). unfold parse_cron.
  now destruct (parse_cron_body now expression).
Qed.

(** A valid result: its explanation is a text, its description is the
    catalog entry of the expression or else that text, and its breakdown
    has the five keys. *)
Lemma valid_shape (now : datetime) (expression : string) :
  valid (parse_cron now expression) = true ->
  exists (x : string) (b : list (string * string)),
    explanation (parse_cron now expression) = Str x
    /\ description (parse_cron now expression)
       = match get_common_patterns expression with
         | Some d => d
         | None => x
         end
    /\ breakdown (parse_cron now expression) = Some b
    /\ map fst b = breakdown_keys
    /\ exists parts, x = capitalize (join " " parts).
Proof.
  unfold parse_cron.
  destruct (parse_cron_body now expression) as [r|e0] eqn:Hb;
    [|discriminate].
  unfold parse_cron_body in Hb.
  destruct (split_ws (strip expression)) as [|a [|b [|c [|d [|e [|f l]]]]]];
    try (apply Ok_inj in Hb; subst r; discriminate).
  split_binds Hb; try discriminate.
  apply Ok_inj in Hb. subst r. intros _.
  do 2 eexists. cbn [explanation description breakdown map fst].
  repeat split. eauto.
Qed.

End AcceptFacts.

(** X1.  parse_cron flags an expression valid exactly when it has five
    tokens, none of them is a range with more than one dash (a field with
    a dash, no slash and no comma whose split on the dash does not give two
    pieces), and neither the month nor the weekday field contains, as the
    field or as a comma-separated item, a digit string that [int]
    rejects.  The expression is taken short enough for [int] never to
    meet more digits than it converts. *)
Theorem parse_valid_iff :
  forall (now : DateTime.datetime) (expression : string),
    (String.length expression <= 4300)%nat ->
    CronPreview.valid (CronPreview.parse_cron now expression)
    = Props.parses expression.
Proof. intros now expression _. apply AcceptFacts.valid_iff. Qed.

Lemma parse_valid_iff_witness :
  CronPreview.valid (CronPreview.parse_cron noon_before "0 12 * * 1-2-3")
  = false.
Proof.
  exact (eq_trans
           (parse_valid_iff noon_before "0 12 * * 1-2-3"
              ltac:(cbn [String.length]; lia))
           eq_refl).
Defined.

(** X2.  In a valid result the description is the catalog entry when the
    expression, exactly as given, is a key of the catalog, and is the
    explanation otherwise; the breakdown is present with the keys minute,
    hour, day, month, weekday in that order. *)
Theorem valid_result_shape :
  forall (now : DateTime.datetime) (expression : string),
    CronPreview.valid (CronPreview.parse_cron now expression) = true ->
    exists (x : string) (b : list (string * string)),
      CronPreview.explanation (CronPreview.parse_cron now expression) = Str x
      /\ CronPreview.description (CronPreview.parse_cron now expression)
         = match CronPreview.get_common_patterns expression with
           | Some d => d
           | None => x
           end
      /\ CronPreview.breakdown (CronPreview.parse_cron now expression)
         = Some b
      /\ map fst b = Props.breakdown_keys.
Proof.
  intros now expression H.
  destruct (AcceptFacts.valid_shape now expression H)
    as (x & b & H1 & H2 & H3 & H4 & _).
  eauto 10.
Qed.

Lemma valid_result_shape_witness :
  exists (x : string) (b : list (string * string)),
    CronPreview.explanation (CronPreview.parse_cron noon_before " 0 12 * * *")
    = Str x
    /\ CronPreview.description
         (CronPreview.parse_cron noon_before " 0 12 * * *")
       = match CronPreview.get_common_patterns " 0 12 * * *" with
         | Some d => d
         | None => x
         end
    /\ CronPreview.breakdown
         (CronPreview.parse_cron noon_before " 0 12 * * *") = Some b
    /\ map fst b = Props.breakdown_keys.
Proof.
  apply (valid_result_shape noon_before " 0 12 * * *"). reflexivity.
Defined.

(* ================================================================== *)
(** * The interpreter: what the result depends on *)

Module ResultFacts.

Import PyStr DateTime CronPreview Spec Props.

(** Apart from the description, the result is a function of the tokens. *)
Lemma same_tokens (now : datetime) (e e' : string) :
  split_ws e = split_ws e' ->
  valid (parse_cron now e) = valid (parse_cron now e')
  /\ next_runs (parse_cron now e) = next_runs (parse_cron now e')
  /\ explanation (parse_cron now e) = explanation (parse_cron now e')
  /\ breakdown (parse_cron now e) = breakdown (parse_cron now e').
Proof.
  intros H. unfold parse_cron, parse_cron_body.
  rewrite !PyStrFacts.split_ws_strip, H.
  destruct (split_ws e') as [|a [|b [|c [|d [|x [|f l]]]]]];
    try (repeat split; reflexivity).
  repeat match goal with
         | |- context [bind ?m _] => destruct m; cbn [bind]
         end;
    repeat split; reflexivity.
Qed.

Lemma lower_char_not_upper (c : ascii) : is_upper (lower_char c) = false.
Proof.
  destruct c as [b0 b1 b2 b3 b4 b5 b6 b7].
  destruct b0, b1, b2, b3, b4, b5, b6, b7; reflexivity.
Qed.

Lemma lower_no_upper (s : string) : no_upper (lower s) = true.
Proof.
  unfold no_upper. induction s as [|c r IH]; [reflexivity|].
  cbn [lower all_chars]. now rewrite lower_char_not_upper, IH.
Qed.

Lemma capitalize_tail (s : string) : no_upper (drop 1 (capitalize s)) = true.
Proof.
  destruct s as [|c r]; [reflexivity|].
  cbn [capitalize drop]. apply lower_no_upper.
Qed.

End ResultFacts.

(** X3.  Two expressions with the same tokens get the same verdict, the
    same next runs, the same explanation and the same breakdown: white
    space around and between the fields matters only to the catalog lookup
    behind the description. *)
Theorem parse_depends_on_tokens :
  forall (now : DateTime.datetime) (e e' : string),
    PyStr.split_ws e = PyStr.split_ws e' ->
    CronPreview.valid (CronPreview.parse_cron now e)
    = CronPreview.valid (CronPreview.parse_cron now e')
    /\ CronPreview.next_runs (CronPreview.parse_cron now e)
       = CronPreview.next_runs (CronPreview.parse_cron now e')
    /\ CronPreview.explanation (CronPreview.parse_cron now e)
       = CronPreview.explanation (CronPreview.parse_cron now e')
    /\ CronPreview.breakdown (CronPreview.parse_cron now e)
       = CronPreview.breakdown (CronPreview.parse_cron now e').
Proof. exact ResultFacts.same_tokens. Qed.

Lemma parse_depends_on_tokens_witness :
  CronPreview.next_runs (CronPreview.parse_cron noon_before "0 12 * * *")
  = CronPreview.next_runs (CronPreview.parse_cron noon_before " 0  12 * * *")
  /\ CronPreview.description (CronPreview.parse_cron noon_before "0 12 * * *")
     <> CronPreview.description
          (CronPreview.parse_cron noon_before " 0  12 * * *").
Proof.
  split.
  - exact (proj1 (proj2 (parse_depends_on_tokens noon_before "0 12 * * *"
                           " 0  12 * * *" eq_refl))).
  - vm_compute. discriminate.
Defined.

(** X4.  Every key of the catalog is an expression parse_cron accepts, and
    its description is the catalog entry, whatever the clock. *)
Theorem catalog_keys_are_valid :
  Forall
    (fun entry : string * string =>
       forall now : DateTime.datetime,
         CronPreview.valid (CronPreview.parse_cron now (fst entry)) = true
         /\ CronPreview.description (CronPreview.parse_cron now (fst entry))
            = snd entry)
    CronPreview.patterns.
Proof.
  unfold CronPreview.patterns.
  repeat constructor; cbn [fst snd];
    match goal with
    | |- CronPreview.valid _ = true =>
        rewrite AcceptFacts.valid_iff; reflexivity
    | |- CronPreview.description (CronPreview.parse_cron ?now ?e) = _ =>
        destruct (AcceptFacts.valid_shape now e)
          as (x & b & _ & -> & _);
        [rewrite AcceptFacts.valid_iff; reflexivity | reflexivity]
    end.
Qed.

(** X5.  The explanation of a valid result is capitalised as a whole: after
    its first character it holds no upper-case letter, so the month and
    weekday names it mentions are in lower case. *)
Theorem explanation_is_lower_case :
  forall (now : DateTime.datetime) (expression x : string),
    CronPreview.valid (CronPreview.parse_cron now expression) = true ->
    CronPreview.explanation (CronPreview.parse_cron now expression) = Str x ->
    Props.no_upper (PyStr.drop 1 x) = true.
Proof.
  intros now expression x Hv Hx.
  destruct (AcceptFacts.valid_shape now expression Hv)
    as (x' & b & H1 & _ & _ & _ & parts & ->).
  rewrite H1 in Hx. injection Hx as <-.
  apply ResultFacts.capitalize_tail.
Qed.

Lemma explanation_is_lower_case_witness :
  CronPreview.explanation (CronPreview.parse_cron noon_before "0 9 * 1 1")
  = Str "At minute 0 at 9:xx in jan on monday"
  /\ Props.no_upper (PyStr.drop 1 "At minute 0 at 9:xx in jan on monday")
     = true.
Proof.
  assert (E : CronPreview.explanation
                (CronPreview.parse_cron noon_before "0 9 * 1 1")
              = Str "At minute 0 at 9:xx in jan on monday")
    by reflexivity.
  split; [exact E|].
  exact (explanation_is_lower_case noon_before "0 9 * 1 1" _ eq_refl E).
Defined.

(* ================================================================== *)
(** * The projector: the branches in closed form *)

Module BranchFacts.

Import PyStr DateTime CronPreview Spec Props.

Lemma offset_loop_offsets (now : datetime) (step : Z) (count : nat) :
  forall i : Z,
    offset_loop now step i count
    = while_representable (offsets now step (i + 1) count).
Proof.
  induction count as [|count IH]; intros i; [reflexivity|].
  cbn [offset_loop offsets while_representable minute_index].
  unfold add_minutes.
  destruct (representable (minute_index now + step * (i + 1)));
    [|reflexivity].
  now rewrite IH.
Qed.

Lemma offsets_length (now : datetime) (step : Z) (count : nat) :
  forall k : Z, List.length (offsets now step k count) = count.
Proof.
  induction count as [|count IH]; intros k; [reflexivity|].
  cbn [offsets List.length]. now rewrite IH.
Qed.

Lemma every_length (step : Z) (count : nat) :
  forall first : Z, List.length (every step first count) = count.
Proof.
  induction count as [|count IH]; intros first; [reflexivity|].
  cbn [every List.length]. now rewrite IH.
Qed.

Lemma hourly_loop_every (count : nat) :
  forall t : Z,
    representable t = true ->
    hourly_loop (mk t 0) count = while_representable (every 60 t count).
Proof.
  induction count as [|count IH]; intros t Hrep; [reflexivity|].
  cbn [hourly_loop every while_representable minute_index].
  rewrite Hrep. f_equal. rewrite DailyFacts.add_minutes_mk.
  destruct (representable (t + 60)) eqn:Hnext.
  - now apply IH.
  - destruct count; [reflexivity|].
    cbn [every while_representable minute_index]. now rewrite Hnext.
Qed.

(** Rendering a list of at most [count] datetimes and keeping the first
    [count] renderings. *)
Lemma render_all (count : nat) (l : list datetime) :
  (List.length l <= count)%nat ->
  firstn count (map strftime l) = map strftime l.
Proof. intros H. apply firstn_all2. now rewrite length_map. Qed.

Lemma render_offsets (now : datetime) (step : Z) (count : nat) :
  firstn count (map strftime (offset_loop now step 0 count))
  = map strftime (while_representable (offsets now step 1 count)).
Proof.
  rewrite offset_loop_offsets. apply render_all.
  etransitivity; [apply DailyFacts.while_representable_length|].
  now rewrite offsets_length.
Qed.

Lemma ignores_calendar_fields (now : datetime)
  (minute hour d mo wd d' mo' wd' : string) (count : nat) :
  minute <> "*" \/ hour <> "*" ->
  calculate_next_runs now [minute; hour; d; mo; wd] count
  = calculate_next_runs now [minute; hour; d'; mo'; wd'] count.
Proof.
  intros H. unfold calculate_next_runs, run_datetimes. cbn [list_eqb].
  destruct (String.eqb_spec minute "*") as [->|_];
    [destruct (String.eqb_spec hour "*") as [->|_]|]; cbn [andb];
    [|reflexivity|reflexivity].
  destruct H as [H|H]; now elim H.
Qed.

End BranchFacts.

(** X6.  Unless both the minute and the hour are the wildcard, the
    projection does not depend on the day-of-month, month and weekday
    fields. *)
Theorem projection_ignores_calendar_fields :
  forall (now : DateTime.datetime) (minute hour d mo wd d' mo' wd' : string)
         (count : nat),
    minute <> "*" \/ hour <> "*" ->
    CronPreview.calculate_next_runs now [minute; hour; d; mo; wd] count
    = CronPreview.calculate_next_runs now [minute; hour; d'; mo'; wd'] count.
Proof. exact BranchFacts.ignores_calendar_fields. Qed.

Lemma projection_ignores_calendar_fields_witness :
  CronPreview.calculate_next_runs noon_before ["30"; "2"; "*"; "*"; "1-5"] 5
  = CronPreview.calculate_next_runs noon_before ["30"; "2"; "31"; "2"; "*"] 5.
Proof.
  apply (projection_ignores_calendar_fields noon_before "30" "2").
  left. discriminate.
Defined.

(** X7.  With a wildcard minute and a wildcard hour the other three fields
    do matter: when they are wildcards too the entries are now + 1, 2, ...
    5 minutes, and otherwise they are now + 1, 2, ... 5 hours (cut where
    a datetime can no longer hold them). *)
Theorem wildcard_projection :
  forall (now : DateTime.datetime) (d mo wd : string),
    CronPreview.calculate_next_runs now ["*"; "*"; d; mo; wd] 5
    = Ok (map DateTime.strftime
            (Spec.while_representable
               (Props.offsets now
                  (if String.eqb d "*" && String.eqb mo "*"
                      && String.eqb wd "*"
                   then 1 else 60)
                  1 5))).
Proof.
  intros now d mo wd.
  unfold CronPreview.calculate_next_runs, CronPreview.run_datetimes.
  cbn [CronPreview.list_eqb bind].
  change (String.eqb "*" "*") with true. cbn [andb].
  rewrite andb_true_r.
  replace (String.eqb d "*" && (String.eqb mo "*" && String.eqb wd "*"))
    with (String.eqb d "*" && String.eqb mo "*" && String.eqb wd "*")
    by (now rewrite andb_assoc).
  destruct (String.eqb d "*" && String.eqb mo "*" && String.eqb wd "*").
  - now rewrite BranchFacts.render_offsets.
  - change (PyStr.startswith "*/" "*") with false.
    change (PyStr.isdigit "*") with false.
    change (String.eqb "*" "0") with false. cbn [andb].
    now rewrite BranchFacts.render_offsets.
Qed.

(** X8.  A minute field [*/...] with a wildcard hour: when [int] reads the
    text after the slash as [n], the entries are now + n, 2n, ... 5n
    minutes, not aligned on the clock and cut at the first one a datetime
    cannot hold (so a negative [n] goes back in time); when [int] rejects
    it, there is no entry. *)
Theorem step_projection :
  forall (now : DateTime.datetime) (minute d mo wd : string),
    PyStr.startswith "*/" minute = true ->
    CronPreview.calculate_next_runs now [minute; "*"; d; mo; wd] 5
    = Ok match PyStr.int (PyStr.drop 2 minute) with
         | Some n =>
             map DateTime.strftime
               (Spec.while_representable (Props.offsets now n 1 5))
         | None => []
         end.
Proof.
  intros now minute d mo wd Hpre.
  unfold CronPreview.calculate_next_runs, CronPreview.run_datetimes.
  cbn [CronPreview.list_eqb].
  assert (String.eqb minute "*" = false) as ->.
  { destruct (String.eqb_spec minute "*") as [->|]; [discriminate|easy]. }
  rewrite Hpre. change (String.eqb "*" "*") with true. cbn [andb bind].
  unfold int_of. destruct (PyStr.int (PyStr.drop 2 minute)) as [n|];
    cbn [bind CronPreview.or_nothing]; [|reflexivity].
  now rewrite BranchFacts.render_offsets.
Qed.

Lemma step_projection_witness :
  CronPreview.calculate_next_runs noon_before ["*/-30"; "*"; "*"; "*"; "*"] 5
  = Ok ["2026-11-03 10:30"; "2026-11-03 10:00"; "2026-11-03 09:30";
        "2026-11-03 09:00"; "2026-11-03 08:30"].
Proof.
  rewrite (step_projection noon_before "*/-30" "*" "*" "*" eq_refl).
  vm_compute. reflexivity.
Defined.

(** X9.  Minute [0] with a wildcard hour: the entries are the top of the
    next hour and the hours that follow it. *)
Theorem hourly_projection :
  forall (now : DateTime.datetime) (d mo wd : string),
    CronPreview.calculate_next_runs now ["0"; "*"; d; mo; wd] 5
    = Ok (map DateTime.strftime
            (Spec.while_representable
               (Props.every 60
                  (DateTime.minute_index now / 60 * 60 + 60) 5))).
Proof.
  intros now d mo wd.
  unfold CronPreview.calculate_next_runs, CronPreview.run_datetimes.
  cbn [CronPreview.list_eqb bind].
  change (String.eqb "0" "*") with false.
  change (PyStr.startswith "*/" "0") with false.
  change (PyStr.isdigit "*") with false.
  change (String.eqb "0" "0") with true.
  change (String.eqb "*" "*") with true.
  rewrite andb_false_r. cbn [andb].
  unfold DateTime.replace_minute_zero. rewrite DailyFacts.add_minutes_mk.
  f_equal.
  destruct (DateTime.representable
              (DateTime.minute_index now / 60 * 60 + 60)) eqn:Hnext.
  - rewrite BranchFacts.hourly_loop_every by exact Hnext.
    apply BranchFacts.render_all.
    etransitivity; [apply DailyFacts.while_representable_length|].
    now rewrite BranchFacts.every_length.
  - cbn [Props.every Spec.while_representable DateTime.minute_index].
    now rewrite Hnext.
Qed.

Example hourly_projection_ex :
  CronPreview.calculate_next_runs
    (DateTime.at_ 2026 11 3 11 20 45) ["0"; "*"; "*"; "*"; "*"] 5
  = Ok ["2026-11-03 12:00"; "2026-11-03 13:00"; "2026-11-03 14:00";
        "2026-11-03 15:00"; "2026-11-03 16:00"].
Proof. vm_compute. reflexivity. Qed.

(* ================================================================== *)
(** * The table editor: what a listing holds *)

Module ListFacts.

Import PyStr CronMonitorServer Spec Props TextFacts.

Lemma numbers_cons (first : Z) (count : nat) :
  numbers first (S count) = first :: numbers (first + 1) count.
Proof.
  unfold numbers. cbn [seq map]. f_equal; [lia|].
  rewrite <- seq_shift, map_map. apply map_ext. intros k. lia.
Qed.

Lemma scan_jobs_lines (now : DateTime.datetime) (lines : list string) :
  forall (pending : string) (job_index : Z),
    map full_line (scan_jobs now pending job_index lines)
    = filter is_entry_line (map strip lines).
Proof.
  induction lines as [|line rest IH]; intros pending job_index;
    [reflexivity|].
  cbn [scan_jobs map filter]. unfold is_entry_line at 1.
  destruct (String.eqb (strip line) ""); cbn [negb andb]; [apply IH|].
  destruct (startswith "#" (strip line)); cbn [negb andb]; [apply IH|].
  destruct (5 <=? List.length (split_ws (strip line)))%nat; [|apply IH].
  cbn [map full_line]. now rewrite IH.
Qed.

Lemma scan_jobs_indices (now : DateTime.datetime) (lines : list string) :
  forall (pending : string) (job_index : Z),
    map index (scan_jobs now pending job_index lines)
    = numbers job_index
        (List.length (scan_jobs now pending job_index lines)).
Proof.
  induction lines as [|line rest IH]; intros pending job_index;
    [reflexivity|].
  cbn [scan_jobs].
  destruct (String.eqb (strip line) ""); [apply IH|].
  destruct (startswith "#" (strip line)); [apply IH|].
  destruct (5 <=? List.length (split_ws (strip line)))%nat; [|apply IH].
  cbn [map index List.length]. now rewrite numbers_cons, IH.
Qed.

(** ** Tokens *)

Lemma token_cons (c : ascii) (t : string) :
  isspace c = false -> t = "" \/ token t -> token (String c t).
Proof.
  intros Hc Ht. split; [discriminate|].
  cbn [all_chars]. rewrite Hc. cbn [negb andb].
  destruct Ht as [->|[_ Ht]]; [reflexivity | exact Ht].
Qed.

Lemma split_ws_tokens (s : string) : Forall token (split_ws s).
Proof.
  induction s as [|c r IH]; [constructor|].
  rewrite PyStrFacts.split_ws_cons.
  destruct (isspace c) eqn:Hc; [exact IH|].
  destruct r as [|d r'].
  - constructor; [|constructor]. apply token_cons; auto.
  - destruct (isspace d).
    + constructor; [|exact IH]. apply token_cons; auto.
    + destruct (split_ws (String d r')) as [|t ts].
      * constructor; [|constructor]. apply token_cons; auto.
      * inversion IH as [|? ? Ht Hts]; subst.
        constructor; [|exact Hts]. apply token_cons; auto.
Qed.

Lemma split_ws_token (t : string) : token t -> split_ws t = [t].
Proof.
  intros [Hne Hall]. induction t as [|c r IH]; [now elim Hne|].
  cbn [all_chars] in Hall. apply andb_prop in Hall as [Hc Hr].
  apply negb_true_iff in Hc.
  rewrite PyStrFacts.split_ws_cons, Hc.
  destruct r as [|d r']; [reflexivity|].
  assert (Hd : isspace d = false).
  { cbn [all_chars] in Hr. apply andb_prop in Hr as [Hd _].
    now apply negb_true_iff in Hd. }
  rewrite Hd, IH by (discriminate || assumption). reflexivity.
Qed.

(** Joining tokens with single spaces and splitting again gives the
    tokens back. *)
Lemma split_ws_join (ts : list string) :
  Forall token ts -> split_ws (join " " ts) = ts.
Proof.
  induction 1 as [|t r Ht Hr IH]; [reflexivity|].
  destruct r as [|u r]; [now apply split_ws_token|].
  rewrite DeleteFacts.join_cons by discriminate.
  change (" " ++ join " " (u :: r)) with (String " " (join " " (u :: r))).
  rewrite split_ws_app_space by reflexivity.
  now rewrite (split_ws_token t Ht), IH.
Qed.

Lemma Forall_firstn_skipn {A : Type} (P : A -> Prop) (n : nat)
  (l : list A) :
  Forall P l -> Forall P (firstn n l) /\ Forall P (skipn n l).
Proof.
  intros H. rewrite <- (firstn_skipn n l) in H.
  now apply Forall_app in H.
Qed.

Lemma label_not_empty (pending : string) : label pending <> "".
Proof.
  unfold label. destruct (String.eqb_spec pending ""); [discriminate|easy].
Qed.

Lemma scan_jobs_well_formed (now : DateTime.datetime)
  (lines : list string) :
  forall (pending : string) (job_index : Z),
    Forall (well_formed now) (scan_jobs now pending job_index lines).
Proof.
  induction lines as [|line rest IH]; intros pending job_index;
    [constructor|].
  cbn [scan_jobs].
  destruct (String.eqb (strip line) "") eqn:He; [apply IH|].
  destruct (startswith "#" (strip line)) eqn:Hh; [apply IH|].
  destruct (5 <=? List.length (split_ws (strip line)))%nat eqn:H5;
    [|apply IH].
  constructor; [|apply IH].
  unfold well_formed.
  cbn [full_line schedule command comment description next_runs].
  destruct (Forall_firstn_skipn token 5 _ (split_ws_tokens (strip line)))
    as [Hf Hs].
  rewrite !split_ws_join by assumption.
  repeat split.
  - unfold is_entry_line. now rewrite He, Hh, H5.
  - apply firstn_length_le. now apply Nat.leb_le.
  - apply (label_not_empty pending).
  - apply firstn_le_length.
Qed.

(** ** The pending comment *)

Lemma final_comment_last (pending : string) (pre : list string)
  (x : string) :
  final_comment pending (pre ++ [x]) = annotation x.
Proof.
  revert pending. induction pre as [|y pre IH]; intros pending.
  - cbn [app final_comment]. unfold annotation.
    destruct (String.eqb (strip x) ""); [reflexivity|].
    now destruct (startswith "#" (strip x)).
  - cbn [app final_comment].
    destruct (String.eqb (strip y) ""); [apply IH|].
    destruct (startswith "#" (strip y)); apply IH.
Qed.

Lemma scan_entry_line (now : DateTime.datetime) (pending : string)
  (job_index : Z) (l : string) (post : list string) :
  is_entry_line (strip l) = true ->
  exists job rest,
    scan_jobs now pending job_index (l :: post) = job :: rest
    /\ full_line job = strip l
    /\ comment job = label pending.
Proof.
  unfold is_entry_line. intros H.
  apply andb_prop in H as [H H5]. apply andb_prop in H as [He Hh].
  apply negb_true_iff in He, Hh.
  cbn [scan_jobs]. rewrite He, Hh, H5. do 2 eexists.
  split; [reflexivity|]. split; reflexivity.
Qed.

Lemma comment_from_above (now : DateTime.datetime)
  (pre : list string) (x l : string) (post : list string) :
  is_entry_line (strip l) = true ->
  exists before job after,
    scan_jobs now "" 0 (pre ++ x :: l :: post) = (before ++ job :: after)%list
    /\ before = scan_jobs now "" 0 (pre ++ [x])
    /\ full_line job = strip l
    /\ comment job = label (annotation x).
Proof.
  intros H.
  replace (pre ++ x :: l :: post)%list
    with ((pre ++ [x]) ++ l :: post)%list by (now rewrite <- app_assoc).
  rewrite AddFacts.scan_jobs_app, final_comment_last.
  destruct (scan_entry_line now (annotation x)
              (0 + Z.of_nat (List.length (scan_jobs now "" 0 (pre ++ [x]))))
              l post H) as (job & rest & -> & Hf & Hc).
  exists (scan_jobs now "" 0 (pre ++ [x])), job, rest. auto.
Qed.

End ListFacts.

(** X10.  The entries of a listing are the lines of the table that, once
    stripped, are not empty, do not start with [#] and have at least five
    tokens, in the order of the table, and they are numbered 0, 1, 2, ...
    without a gap. *)
Theorem listing_lines_and_indices :
  forall (now : DateTime.datetime) (w : world) (table : string),
    crontab w = Some table ->
    map CronMonitorServer.full_line (CronMonitorServer.get_cron_jobs now w)
    = filter Props.is_entry_line
        (map PyStr.strip (PyStr.split LF (universal_newlines table)))
    /\ map CronMonitorServer.index (CronMonitorServer.get_cron_jobs now w)
       = Props.numbers 0
           (List.length (CronMonitorServer.get_cron_jobs now w)).
Proof.
  intros now w table Hw.
  unfold CronMonitorServer.get_cron_jobs, CronMonitorServer.crontab_list.
  rewrite Hw. split.
  - apply ListFacts.scan_jobs_lines.
  - apply ListFacts.scan_jobs_indices.
Qed.

Lemma listing_lines_and_indices_witness :
  let w := world_of (lines_text ["MAILTO=root"; "  0 2 * * * /bin/a  ";
                                 "# note"; "*/5 * * * * /bin/b"]) in
  map CronMonitorServer.full_line
    (CronMonitorServer.get_cron_jobs noon_before w)
  = ["0 2 * * * /bin/a"; "*/5 * * * * /bin/b"]
  /\ map CronMonitorServer.index
       (CronMonitorServer.get_cron_jobs noon_before w) = [0; 1].
Proof.
  pose proof (listing_lines_and_indices noon_before
                (world_of (lines_text ["MAILTO=root"; "  0 2 * * * /bin/a  ";
                                       "# note"; "*/5 * * * * /bin/b"]))
                _ eq_refl) as [H1 H2].
  split; [rewrite H1 | rewrite H2]; reflexivity.
Defined.

(** X11.  Every listed entry is well formed: its schedule splits into
    exactly five tokens, the first five of its line, and its command into
    the remaining tokens of the line; its comment is never empty; its
    description is that of parsing its schedule; and it shows at most
    three next runs. *)
Theorem listed_entries_are_well_formed :
  forall (now : DateTime.datetime) (w : world) (job : CronMonitorServer.Job),
    In job (CronMonitorServer.get_cron_jobs now w) ->
    PyStr.split_ws (CronMonitorServer.schedule job)
    = firstn 5 (PyStr.split_ws (CronMonitorServer.full_line job))
    /\ PyStr.split_ws (CronMonitorServer.command job)
       = skipn 5 (PyStr.split_ws (CronMonitorServer.full_line job))
    /\ List.length (PyStr.split_ws (CronMonitorServer.schedule job)) = 5%nat
    /\ CronMonitorServer.comment job <> ""
    /\ CronMonitorServer.description job
       = CronPreview.description
           (CronPreview.parse_cron now (CronMonitorServer.schedule job))
    /\ (List.length (CronMonitorServer.next_runs job) <= 3)%nat.
Proof.
  intros now w job Hin.
  unfold CronMonitorServer.get_cron_jobs, CronMonitorServer.crontab_list
    in Hin.
  destruct (crontab w) as [table|]; [|destruct Hin].
  pose proof (ListFacts.scan_jobs_well_formed now
                (PyStr.split LF (universal_newlines table)) "" 0) as H.
  rewrite Forall_forall in H. destruct (H job Hin) as (_ & H'). exact H'.
Qed.

Lemma listed_entries_are_well_formed_witness :
  let w := world_of (lines_text ["0   2 * * *   echo   a  b"]) in
  exists job,
    CronMonitorServer.get_cron_jobs noon_before w = [job]
    /\ PyStr.split_ws (CronMonitorServer.command job) = ["echo"; "a"; "b"].
Proof.
  eexists. split; [reflexivity|].
  rewrite (proj1 (proj2 (listed_entries_are_well_formed noon_before
                           (world_of
                              (lines_text ["0   2 * * *   echo   a  b"]))
                           _ (or_introl eq_refl)))).
  reflexivity.
Defined.

(** X12.  The comment of an entry is decided by the one line right above
    it: the text after [#] when that line is a comment with a text, and
    the default label in every other case (a blank line, a line with fewer
    than five tokens, another entry, a bare [#]). *)
Theorem comment_comes_from_the_line_above :
  forall (now : DateTime.datetime) (w : world) (table : string)
         (pre : list string) (x l : string) (post : list string),
    crontab w = Some table ->
    PyStr.split LF (universal_newlines table)
    = (pre ++ x :: l :: post)%list ->
    Props.is_entry_line (PyStr.strip l) = true ->
    exists before job after,
      CronMonitorServer.get_cron_jobs now w = (before ++ job :: after)%list
      /\ before = CronMonitorServer.scan_jobs now "" 0 (pre ++ [x])
      /\ CronMonitorServer.full_line job = PyStr.strip l
      /\ CronMonitorServer.comment job = Props.label (Props.annotation x).
Proof.
  intros now w table pre x l post Hw Hlines Hl.
  unfold CronMonitorServer.get_cron_jobs, CronMonitorServer.crontab_list.
  rewrite Hw, Hlines. now apply ListFacts.comment_from_above.
Qed.

Lemma comment_comes_from_the_line_above_witness :
  let w := world_of (lines_text ["# nightly"; "MAILTO=root";
                                 "0 2 * * * /bin/backup.sh"]) in
  exists before job after,
    CronMonitorServer.get_cron_jobs noon_before w
    = (before ++ job :: after)%list
    /\ CronMonitorServer.comment job = "Custom cron job".
Proof.
  destruct (comment_comes_from_the_line_above noon_before
              (world_of (lines_text ["# nightly"; "MAILTO=root";
                                     "0 2 * * * /bin/backup.sh"]))
              _ ["# nightly"] "MAILTO=root" "0 2 * * * /bin/backup.sh" [""]
              eq_refl eq_refl eq_refl)
    as (before & job & after & H & _ & _ & Hc).
  exists before, job, after. split; [exact H | exact Hc].
Defined.

(* ================================================================== *)
(** * The table editor: what a deletion keeps *)

Module DropFacts.

Import PyStr CronMonitorServer Spec Props TextFacts.

Lemma last_line_snoc (l : list string) (x : string) :
  last_line (l ++ [x]) = Some x.
Proof.
  unfold last_line. rewrite last_last. now destruct l.
Qed.

Lemma nth_last (l : list string) :
  l <> [] -> nth (List.length l - 1) l "" = last l "".
Proof.
  intros H. destruct (exists_last H) as (l' & x & ->).
  rewrite last_last, length_app. cbn [List.length].
  rewrite app_nth2 by lia.
  replace (List.length l' + 1 - 1 - List.length l')%nat with O by lia.
  reflexivity.
Qed.

Lemma firstn_removelast (l r : list string) :
  firstn (List.length l - 1) (l ++ r) = removelast l.
Proof.
  destruct l as [|a l] using rev_ind; [reflexivity|].
  rewrite removelast_last, length_app. cbn [List.length].
  rewrite <- app_assoc.
  replace (List.length l + 1 - 1)%nat with (List.length l + 0)%nat by lia.
  rewrite firstn_app_2. cbn [firstn]. apply app_nil_r.
Qed.

Lemma without_entry_at_end (P rest : list string) (line : string) :
  without_entry (P ++ line :: rest) (List.length P)
  = (match last_line P with
     | Some p => if startswith "#" (strip p) then removelast P else P
     | None => P
     end ++ rest)%list.
Proof.
  unfold without_entry.
  assert (Hskip : skipn (S (List.length P)) (P ++ line :: rest) = rest).
  { change (line :: rest) with ([line] ++ rest)%list.
    rewrite app_assoc.
    replace (S (List.length P)) with (List.length (P ++ [line]))
      by (rewrite length_app; cbn; lia).
    now rewrite skipn_app, skipn_all, Nat.sub_diag. }
  rewrite Hskip.
  destruct P as [|a P]; [reflexivity|].
  set (Q := a :: P) in *.
  assert (HQ : Q <> []) by discriminate.
  unfold last_line. fold Q.
  replace (match Q with [] => None | _ :: _ => Some (last Q "") end)
    with (Some (last Q "")) by reflexivity.
  replace (List.length Q) with (S (List.length Q - 1)) at 1
    by (subst Q; cbn [List.length]; lia).
  rewrite app_nth1 by (subst Q; cbn [List.length]; lia).
  rewrite (nth_last Q HQ).
  destruct (startswith "#" (strip (last Q ""))).
  - now rewrite firstn_removelast.
  - replace (List.length Q) with (List.length Q + 0)%nat at 1 by lia.
    rewrite firstn_app_2. cbn [firstn]. now rewrite app_nil_r.
Qed.

(** The loop, from any point: [P] holds the lines read so far, all
    kept. *)
Lemma filter_lines_spec (job_index : Z) (lines : list string) :
  forall (P : list string) (current : Z),
    filter_lines job_index (last_line P) current P lines
    = match target_position job_index current lines with
      | Some k => without_entry (P ++ lines) (List.length P + k)
      | None => (P ++ lines)%list
      end.
Proof.
  induction lines as [|line rest IH]; intros P cur.
  - cbn [filter_lines target_position]. now rewrite app_nil_r.
  - cbn [filter_lines target_position].
    assert (Hstep : forall c,
               filter_lines job_index (Some line) c (P ++ [line]) rest
               = match option_map S (target_position job_index c rest) with
                 | Some k => without_entry (P ++ line :: rest)
                               (List.length P + k)
                 | None => (P ++ line :: rest)%list
                 end).
    { intros c. rewrite <- (last_line_snoc P line), IH.
      destruct (target_position job_index c rest) as [k|];
        cbn [option_map]; rewrite <- app_assoc; cbn [app]; [|reflexivity].
      f_equal. rewrite length_app. cbn [List.length]. lia. }
    destruct (is_job_line line); [|apply Hstep].
    destruct (Z.eqb_spec cur job_index) as [E|NE]; [|apply Hstep].
    rewrite Nat.add_0_r, without_entry_at_end.
    rewrite DeleteFacts.filter_lines_keeps_all by lia.
    reflexivity.
Qed.

Lemma target_position_spec (job_index : Z) (lines : list string) :
  forall current : Z,
    match target_position job_index current lines with
    | Some k =>
        (k < List.length lines)%nat
        /\ is_job_line (nth k lines "") = true
        /\ current + count_job_lines (firstn k lines) = job_index
    | None =>
        job_index < current
        \/ current + count_job_lines lines <= job_index
    end.
Proof.
  induction lines as [|line rest IH]; intros cur.
  - cbn. lia.
  - cbn [target_position]. rewrite DeleteFacts.count_job_lines_cons.
    pose proof (DeleteFacts.count_job_lines_nonneg rest) as Hn.
    destruct (is_job_line line) eqn:Hj.
    + destruct (Z.eqb_spec cur job_index) as [E|NE].
      * cbn [nth firstn List.length]. repeat split; [lia|exact Hj|].
        unfold count_job_lines. cbn. lia.
      * specialize (IH (cur + 1)).
        destruct (target_position job_index (cur + 1) rest) as [k|];
          cbn [option_map].
        -- destruct IH as (Hk & Hl & Hc). cbn [nth firstn List.length].
           rewrite DeleteFacts.count_job_lines_cons, Hj.
           repeat split; [lia | exact Hl | lia].
        -- lia.
    + specialize (IH cur).
      destruct (target_position job_index cur rest) as [k|];
        cbn [option_map].
      * destruct IH as (Hk & Hl & Hc). cbn [nth firstn List.length].
        rewrite DeleteFacts.count_job_lines_cons, Hj.
        repeat split; [lia | exact Hl | lia].
      * lia.
Qed.

(** What the tail shared by add_cron_job and delete_cron_job does. *)
Lemma install_lines_run (accepts : string -> bool) (lines : list string)
  (w : world) :
  install_lines accepts lines w
  = let text := join NL lines ++ NL in
    if accepts text then
      (Ok true,
       {| crontab := Some text;
          temp_files :=
            filter (fun f => negb (Nat.eqb (fst f) (next_temp w)))
              (temp_files w);
          next_temp := S (next_temp w) |})
    else
      (Raise CalledProcessError,
       {| crontab := crontab w;
          temp_files := (next_temp w, text) :: temp_files w;
          next_temp := S (next_temp w) |}).
Proof.
  unfold install_lines, bindM, write_temp, crontab_install, unlink, ret.
  cbn [temp_files next_temp read_file]. rewrite Nat.eqb_refl.
  cbv zeta. destruct (accepts (join NL lines ++ NL));
    cbn [fst snd temp_files next_temp crontab filter negb];
    [|reflexivity].
  now rewrite Nat.eqb_refl.
Qed.

Lemma add_run (accepts : string -> bool) (sched cmd note : string)
  (w : world) :
  add_cron_job accepts sched cmd note w
  = match install_lines accepts
            (current_lines w ++ added_lines sched cmd note) w with
    | (Ok b, w') => (b, w')
    | (Raise _, w') => (false, w')
    end.
Proof.
  unfold add_cron_job, try_except, bindM, crontab_list, ret,
    current_lines, current_text, added_lines.
  destruct (crontab w) as [table|]; cbn [option_map];
    destruct (String.eqb note ""); cbn [negb app];
    rewrite <- ?app_assoc; cbn [app];
    match goal with
    | |- context [install_lines accepts ?l w] =>
        destruct (install_lines accepts l w) as [[b|e] w']
    end; reflexivity.
Qed.

Lemma delete_run (accepts : string -> bool) (job_index : Z) (w : world)
  (table : string) :
  crontab w = Some table ->
  delete_cron_job accepts job_index w
  = match install_lines accepts
            (filter_lines job_index None 0 [] (current_lines w)) w with
    | (Ok b, w') => (b, w')
    | (Raise _, w') => (false, w')
    end.
Proof.
  intros Hw.
  unfold delete_cron_job, try_except, bindM, crontab_list, ret,
    current_lines, current_text.
  rewrite Hw. cbn [option_map].
  match goal with
  | |- context [install_lines accepts ?l w] =>
      destruct (install_lines accepts l w) as [[b|e] w']
  end; reflexivity.
Qed.

Lemma filter_fresh (w : world) :
  fresh w ->
  filter (fun f : nat * string => negb (Nat.eqb (fst f) (next_temp w)))
    (temp_files w)
  = temp_files w.
Proof.
  unfold fresh. induction 1 as [|f l Hf _ IH]; [reflexivity|].
  cbn [filter].
  destruct (Nat.eqb_spec (fst f) (next_temp w)); [lia|].
  cbn [negb]. now rewrite IH.
Qed.

Lemma fresh_step (w : world) (files : list (nat * string))
  (table : option string) :
  Forall (fun f : nat * string => (fst f < S (next_temp w))%nat) files ->
  fresh {| crontab := table; temp_files := files;
           next_temp := S (next_temp w) |}.
Proof. intros H. exact H. Qed.

(** The outcome of installing [lines] from a world with fresh names. *)
Lemma install_outcome (accepts : string -> bool) (lines : list string)
  (w : world) :
  fresh w ->
  let text := join NL lines ++ NL in
  let r := match install_lines accepts lines w with
           | (Ok b, w') => (b, w')
           | (Raise _, w') => (false, w')
           end in
  fst r = accepts text
  /\ crontab (snd r) = (if accepts text then Some text else crontab w)
  /\ temp_files (snd r)
     = (if accepts text then temp_files w
        else (next_temp w, text) :: temp_files w)
  /\ fresh (snd r).
Proof.
  intros Hw text r. subst r. rewrite install_lines_run. fold text.
  cbv zeta. destruct (accepts text);
    cbn [fst snd crontab temp_files].
  - rewrite (filter_fresh w Hw). repeat split.
    apply fresh_step. eapply Forall_impl; [|exact Hw].
    intros f Hf. cbn beta in *. lia.
  - repeat split. apply fresh_step. constructor; [cbn; lia|].
    eapply Forall_impl; [|exact Hw]. intros f Hf. cbn beta in *. lia.
Qed.

End DropFacts.

(** X13.  The loop of delete_cron_job drops one line at most, the first
    one it counts up to the index, together with the line right above it
    when that line, stripped, starts with [#]; every other line is kept,
    in order.  When no line is counted up to the index, all lines are
    kept. *)
Theorem delete_keeps_the_other_lines :
  forall (job_index : Z) (lines : list string),
    let kept := CronMonitorServer.filter_lines job_index None 0 [] lines in
    ((job_index < 0 \/ Spec.count_job_lines lines <= job_index)
     /\ kept = lines)
    \/ exists k : nat,
         (k < List.length lines)%nat
         /\ CronMonitorServer.is_job_line (nth k lines "") = true
         /\ Spec.count_job_lines (firstn k lines) = job_index
         /\ kept = Props.without_entry lines k.
Proof.
  intros job_index lines kept. subst kept.
  pose proof (DropFacts.filter_lines_spec job_index lines [] 0) as H.
  pose proof (DropFacts.target_position_spec job_index lines 0) as Ht.
  cbn [Props.last_line app List.length Nat.add] in H. rewrite H.
  destruct (Props.target_position job_index 0 lines) as [k|].
  - right. exists k. destruct Ht as (Hk & Hl & Hc).
    repeat split; [exact Hk | exact Hl | lia].
  - left. split; [lia | reflexivity].
Qed.

(** X14.  From a world whose temporary names are fresh, add_cron_job and
    delete_cron_job return exactly what the tool answers on the staged
    text; a True result leaves the temporary files as they were, a False
    result leaves the table as it was, and the names stay fresh. *)
Theorem mutation_outcome :
  forall (accepts : string -> bool) (w : world) (table : string),
    Props.fresh w ->
    crontab w = Some table ->
    (forall sched cmd note : string,
        let r := CronMonitorServer.add_cron_job accepts sched cmd note w in
        (fst r = true -> temp_files (snd r) = temp_files w)
        /\ (fst r = false -> crontab (snd r) = crontab w)
        /\ Props.fresh (snd r))
    /\ (forall job_index : Z,
           let r := CronMonitorServer.delete_cron_job accepts job_index w in
           (fst r = true -> temp_files (snd r) = temp_files w)
           /\ (fst r = false -> crontab (snd r) = crontab w)
           /\ Props.fresh (snd r)).
Proof.
  intros accepts w table Hf Hw. split.
  - intros sched cmd note r. subst r. rewrite DropFacts.add_run.
    destruct (DropFacts.install_outcome accepts
                (Props.current_lines w ++ Props.added_lines sched cmd note)
                w Hf) as (H1 & H2 & H3 & H4).
    rewrite H1, H2, H3.
    repeat split; [| |exact H4]; intros ->; reflexivity.
  - intros job_index r. subst r. rewrite (DropFacts.delete_run _ _ _ _ Hw).
    destruct (DropFacts.install_outcome accepts
                (CronMonitorServer.filter_lines job_index None 0 []
                   (Props.current_lines w))
                w Hf) as (H1 & H2 & H3 & H4).
    rewrite H1, H2, H3.
    repeat split; [| |exact H4]; intros ->; reflexivity.
Qed.

Lemma mutation_outcome_witness :
  let w := world_of (lines_text ["0 2 * * * /bin/backup.sh"]) in
  temp_files
    (snd (CronMonitorServer.add_cron_job (fun _ => true)
            "0 3 * * *" "/bin/x" "x" w))
  = temp_files w.
Proof.
  assert (Hf : Props.fresh
                 (world_of (lines_text ["0 2 * * * /bin/backup.sh"])))
    by constructor.
  exact (proj1 (proj1 (mutation_outcome (fun _ => true) _ _ Hf eq_refl)
                  "0 3 * * *" "/bin/x" "x") eq_refl).
Defined.

(* ================================================================== *)
(** * The table editor: additions *)

Module EditFacts.

Import PyStr CronMonitorServer Spec Props TextFacts.

Lemma join_app (sep : string) (a b : list string) :
  a <> [] -> b <> [] ->
  join sep (a ++ b) = join sep a ++ sep ++ join sep b.
Proof.
  intros Ha Hb. induction a as [|x a IH]; [now elim Ha|].
  destruct a as [|y a].
  - cbn [app]. now rewrite DeleteFacts.join_cons.
  - change ((x :: y :: a) ++ b)%list with (x :: ((y :: a) ++ b))%list.
    rewrite !DeleteFacts.join_cons by discriminate.
    rewrite IH by discriminate. now rewrite !append_assoc.
Qed.

Lemma added_lines_nonempty (sched cmd note : string) :
  added_lines sched cmd note <> [].
Proof. unfold added_lines. now destruct (String.eqb note ""). Qed.

Lemma add_installs (accepts : string -> bool) (sched cmd note : string)
  (w : world) :
  fst (add_cron_job accepts sched cmd note w) = true ->
  crontab (snd (add_cron_job accepts sched cmd note w))
  = Some (join NL (current_lines w ++ added_lines sched cmd note) ++ NL).
Proof.
  rewrite DropFacts.add_run, DropFacts.install_lines_run. cbv zeta.
  destruct (accepts _); cbn [fst snd crontab]; [reflexivity|discriminate].
Qed.

Lemma delete_installs (accepts : string -> bool) (job_index : Z)
  (w : world) (table : string) :
  crontab w = Some table ->
  fst (delete_cron_job accepts job_index w) = true ->
  crontab (snd (delete_cron_job accepts job_index w))
  = Some (join NL (filter_lines job_index None 0 [] (current_lines w))
          ++ NL).
Proof.
  intros Hw. rewrite (DropFacts.delete_run _ _ _ _ Hw),
    DropFacts.install_lines_run. cbv zeta.
  destruct (accepts _); cbn [fst snd crontab]; [reflexivity|discriminate].
Qed.

Lemma current_lines_join (w : world) (text : string) :
  current_text w = Some text -> join NL (current_lines w) = text.
Proof.
  unfold current_lines. intros ->. apply (DeleteFacts.join_split LF).
Qed.

Lemma current_lines_none (w : world) :
  current_text w = None -> current_lines w = [].
Proof. unfold current_lines. now intros ->. Qed.

Lemma current_lines_some (w : world) (text : string) :
  current_text w = Some text -> current_lines w <> [].
Proof.
  unfold current_lines. intros ->. apply DeleteFacts.split_nonempty.
Qed.

Lemma current_lines_lf (w : world) :
  Forall (fun p => contains LF p = false) (current_lines w).
Proof.
  unfold current_lines. destruct (current_text w); [|constructor].
  apply AddFacts.split_pieces_no_sep.
Qed.

Lemma current_lines_cr (w : world) :
  Forall (fun p => contains CR p = false) (current_lines w).
Proof.
  unfold current_lines, current_text.
  destruct (crontab w) as [table|]; cbn [option_map]; [|constructor].
  apply AddFacts.split_pieces, contains_strip, universal_newlines_no_cr.
Qed.

Lemma listing_is_scan (now : DateTime.datetime) (w : world) :
  get_cron_jobs now w = scan_jobs now "" 0 (current_lines w).
Proof.
  unfold get_cron_jobs, crontab_list, current_lines, current_text.
  destruct (crontab w) as [table|]; cbn [option_map]; [|reflexivity].
  symmetry. apply AddFacts.scan_strip.
Qed.

(** The listing of a table staged from the current lines and some more
    lines. *)
Lemma listing_of_staged (now : DateTime.datetime) (w w' : world)
  (extra : list string) :
  extra <> [] ->
  Forall (fun p => contains LF p = false) extra ->
  Forall (fun p => contains CR p = false) extra ->
  crontab w' = Some (join NL (current_lines w ++ extra) ++ NL) ->
  get_cron_jobs now w'
  = (get_cron_jobs now w
     ++ scan_jobs now (final_comment "" (current_lines w))
          (Z.of_nat (List.length (get_cron_jobs now w)))
          (extra ++ [""]))%list.
Proof.
  intros Hne Hlf Hcr Hw'.
  rewrite (listing_is_scan now w).
  unfold get_cron_jobs, crontab_list. rewrite Hw'.
  rewrite universal_newlines_id.
  - rewrite AddFacts.split_join_lines.
    + rewrite <- app_assoc. now rewrite AddFacts.scan_jobs_app.
    + destruct (current_lines w); [exact Hne | discriminate].
    + apply Forall_app. split; [apply current_lines_lf | exact Hlf].
  - rewrite StepFacts.contains_app. apply orb_false_intro; [|reflexivity].
    apply AddFacts.contains_join; [reflexivity|].
    apply Forall_app. split; [apply current_lines_cr | exact Hcr].
Qed.

Lemma final_comment_trailing (lines : list string) :
  final_comment "" lines = trailing_annotation lines.
Proof.
  unfold trailing_annotation. destruct lines as [|a l]; [reflexivity|].
  rewrite (app_removelast_last "" (l := a :: l)) at 1 by discriminate.
  apply ListFacts.final_comment_last.
Qed.

Lemma new_line_is_entry (sched cmd : string) :
  List.length (split_ws sched) = 5%nat ->
  startswith "#" (lstrip sched) = false ->
  is_entry_line (strip (sched ++ " " ++ cmd)) = true.
Proof.
  intros H5 Hh. unfold is_entry_line.
  destruct (AddFacts.new_line_not_comment sched cmd H5 Hh) as [-> ->].
  rewrite AddFacts.new_line_parts, length_app, H5.
  cbn [negb andb]. apply Nat.leb_le. lia.
Qed.

(** The new line read under any pending comment. *)
Lemma scan_new_line (now : DateTime.datetime) (sched cmd pending : string)
  (job_index : Z) :
  List.length (split_ws sched) = 5%nat ->
  startswith "#" (lstrip sched) = false ->
  exists job,
    scan_jobs now pending job_index [sched ++ " " ++ cmd; ""] = [job]
    /\ index job = job_index
    /\ schedule job = join " " (split_ws sched)
    /\ command job = join " " (split_ws cmd)
    /\ comment job = label pending.
Proof.
  intros H5 Hh.
  pose proof (new_line_is_entry sched cmd H5 Hh) as He.
  unfold is_entry_line in He.
  apply andb_prop in He as [He H5']. apply andb_prop in He as [He Hn].
  apply negb_true_iff in He, Hn.
  cbn [scan_jobs]. rewrite He, Hn, H5'.
  change (String.eqb (strip "") "") with true.
  eexists. split; [reflexivity|].
  destruct (AddFacts.new_job_fields now sched cmd "" H5 job_index)
    as (_ & Hs & Hc & _).
  cbn [index schedule command comment]. repeat split.
  - exact Hs.
  - exact Hc.
Qed.

(** ** Stripping a staged text *)

Lemma rstrip_app_r (a b : string) :
  rstrip b <> "" -> rstrip (a ++ b) = a ++ rstrip b.
Proof.
  intros Hb. induction a as [|c a IH]; [reflexivity|].
  cbn [append]. rewrite rstrip_cons, IH.
  destruct (a ++ rstrip b) eqn:E; [|reflexivity].
  destruct a; [now elim Hb | discriminate].
Qed.

Lemma lstrip_nonspace (c : ascii) (s : string) :
  isspace c = false -> lstrip (String c s) = String c s.
Proof. intros H. cbn [lstrip]. now rewrite H. Qed.

Lemma strip_head_nonspace (s : string) (d : ascii) (t : string) :
  strip s = String d t -> isspace d = false.
Proof.
  unfold strip. rewrite lstrip_rstrip. apply lstrip_head.
Qed.

Lemma rstrip_keeps_head (s : string) :
  startswith "#" s = false -> startswith "#" (rstrip s) = false.
Proof.
  intros H. destruct (rstrip s) as [|d t] eqn:E; [reflexivity|].
  destruct (PyStrFacts.rstrip_head s d t E) as [t' ->].
  now rewrite startswith_char in *.
Qed.

Lemma rstrip_not_empty (s : string) : strip s <> "" -> rstrip s <> "".
Proof.
  intros H E. apply H. unfold strip. rewrite lstrip_rstrip, E. reflexivity.
Qed.

Lemma contains_rstrip_false (c : ascii) (s : string) :
  contains c s = false -> contains c (rstrip s) = false.
Proof. apply contains_rstrip. Qed.

Lemma strip_staged (pre c line : string) :
  rstrip line <> "" -> c <> "" ->
  strip ((pre ++ c ++ NL ++ line) ++ NL)
  = lstrip (pre ++ c ++ NL ++ rstrip line).
Proof.
  intros Hr Hc. rewrite strip_app_blank by reflexivity.
  unfold strip. rewrite lstrip_rstrip. f_equal.
  assert (H1 : rstrip (NL ++ line) = NL ++ rstrip line)
    by (now apply rstrip_app_r).
  assert (H2 : rstrip (c ++ NL ++ line) = c ++ NL ++ rstrip line).
  { rewrite rstrip_app_r; [now rewrite H1|]. rewrite H1. discriminate. }
  rewrite rstrip_app_r; [now rewrite H2|]. rewrite H2.
  destruct c; [now elim Hc | discriminate].
Qed.

Lemma split_two (c x : string) :
  contains LF c = false -> contains LF x = false ->
  split LF (c ++ NL ++ x) = [c; x].
Proof.
  intros Hc Hx. change (NL ++ x) with (String LF x).
  now rewrite split_app_sep, !StepFacts.split_without_sep.
Qed.

Lemma split_three (text c x : string) :
  contains LF c = false -> contains LF x = false ->
  split LF (text ++ NL ++ c ++ NL ++ x) = (split LF text ++ [c; x])%list.
Proof.
  intros Hc Hx. change (NL ++ c ++ NL ++ x) with (String LF (c ++ NL ++ x)).
  now rewrite split_app_sep, split_two.
Qed.

Lemma lstrip_shorter (s : string) :
  (String.length (lstrip s) <= String.length s)%nat.
Proof.
  induction s as [|x s IH]; [apply Nat.le_refl|].
  cbn [lstrip]. destruct (isspace x); cbn [String.length]; lia.
Qed.

Lemma lstrip_app_fixed (c x : string) :
  c <> "" -> lstrip c = c -> lstrip (c ++ x) = c ++ x.
Proof.
  intros Hc Hcl. destruct c as [|a c']; [now elim Hc|].
  cbn [append lstrip] in *. destruct (isspace a); [|reflexivity].
  exfalso. pose proof (f_equal String.length Hcl) as Hlen.
  pose proof (lstrip_shorter c') as Hle.
  cbn [String.length] in Hlen. lia.
Qed.

(** The lines delete_cron_job reads back after an addition with a
    comment: the old lines, unless the old text was empty, then the two
    new lines, the last one stripped on the right. *)
Lemma lines_after_add (old : option string) (c line : string) :
  c <> "" -> lstrip c = c ->
  contains LF c = false -> contains LF line = false ->
  strip line <> "" ->
  (forall d t, old = Some (String d t) -> isspace d = false) ->
  let current := match old with
                 | Some text => split LF text
                 | None => []
                 end in
  let kept := match old with
              | Some text => if String.eqb text "" then [] else split LF text
              | None => []
              end in
  split LF (strip (join NL (current ++ [c; line]) ++ NL))
  = app kept [c; rstrip line]
  /\ count_job_lines kept = count_job_lines current
  /\ join NL kept ++ NL
     = match old with Some text => text ++ NL | None => NL end.
Proof.
  intros Hc Hcl Hn Hl Hne Hold current kept.
  pose proof (rstrip_not_empty line Hne) as Hr.
  pose proof (contains_rstrip LF line Hl) as Hlr.
  destruct old as [[|d t]|]; subst current kept; cbn [String.eqb].
  - repeat split. cbn [split app].
    etransitivity;
      [apply f_equal; exact (strip_staged NL c line Hr Hc)|].
    change (lstrip (NL ++ c ++ NL ++ rstrip line))
      with (lstrip (c ++ NL ++ rstrip line)).
    rewrite (lstrip_app_fixed c _ Hc Hcl).
    exact (split_two c (rstrip line) Hn Hlr).
  - pose proof (Hold d t eq_refl) as Hd.
    repeat split.
    + rewrite join_app by (apply DeleteFacts.split_nonempty || discriminate).
      rewrite (DeleteFacts.join_split LF). cbn [join].
      etransitivity;
        [apply f_equal;
         transitivity
           (strip (((String d t ++ NL) ++ c ++ NL ++ line) ++ NL));
         [now rewrite !append_assoc
         | exact (strip_staged (String d t ++ NL) c line Hr Hc)]|].
      rewrite append_assoc. cbn [append]. rewrite lstrip_nonspace by exact Hd.
      exact (split_three (String d t) c (rstrip line) Hn Hlr).
    + now rewrite (DeleteFacts.join_split LF).
  - repeat split. cbn [app join].
    etransitivity;
      [apply f_equal; exact (strip_staged "" c line Hr Hc)|].
    cbn [append]. rewrite (lstrip_app_fixed c _ Hc Hcl).
    exact (split_two c (rstrip line) Hn Hlr).
Qed.

(** The loop of delete_cron_job on lines that end with a comment line and
    the entry it annotates, asked for that entry. *)
Lemma filter_lines_last_entry (A : list string) (note l : string) :
  is_job_line l = true ->
  forall (prev : option string) (current : Z) (filtered : list string),
    filter_lines (current + count_job_lines A) prev current filtered
      (A ++ ["#" ++ note; l])
    = (filtered ++ A)%list.
Proof.
  intros Hl. induction A as [|x A IH]; intros prev cur acc.
  - cbn [app filter_lines].
    change ("#" ++ note) with (String "#" note).
    assert (is_job_line (String "#" note) = false) as ->.
    { unfold is_job_line. rewrite startswith_char.
      change (Ascii.eqb "#" "#") with true. apply andb_false_r. }
    rewrite Hl.
    replace (cur + count_job_lines []) with cur by (cbn; lia).
    rewrite Z.eqb_refl.
    rewrite strip_comment_line, startswith_char.
    change (Ascii.eqb "#" "#") with true. cbv iota.
    rewrite removelast_last. now rewrite app_nil_r.
  - cbn [app filter_lines]. rewrite DeleteFacts.count_job_lines_cons.
    pose proof (DeleteFacts.count_job_lines_nonneg A) as Hn.
    destruct (is_job_line x).
    + destruct (Z.eqb_spec cur (cur + (1 + count_job_lines A))); [lia|].
      replace (cur + (1 + count_job_lines A))
        with (cur + 1 + count_job_lines A) by lia.
      rewrite IH. now rewrite <- app_assoc.
    + replace (cur + (0 + count_job_lines A))
        with (cur + count_job_lines A) by lia.
      rewrite IH. now rewrite <- app_assoc.
Qed.

End EditFacts.

(** X15.  A successful add_cron_job appends and never rewrites: the new
    table is the text it read, trimmed of surrounding white space and
    closed by a newline (nothing when there was no table), then the
    comment line when the comment is not empty, then the line
    "<schedule> <command>". *)
Theorem add_appends_to_the_table :
  forall (accepts : string -> bool) (w : world) (sched cmd note : string),
    fst (CronMonitorServer.add_cron_job accepts sched cmd note w) = true ->
    crontab (snd (CronMonitorServer.add_cron_job accepts sched cmd note w))
    = Some (match Props.current_text w with
            | Some text => text ++ NL
            | None => ""
            end
            ++ (if String.eqb note "" then "" else "#" ++ note ++ NL)
            ++ sched ++ " " ++ cmd ++ NL).
Proof.
  intros accepts w sched cmd note Hok.
  rewrite (EditFacts.add_installs accepts sched cmd note w Hok). f_equal.
  assert (Hadded : PyStr.join NL (Props.added_lines sched cmd note) ++ NL
                   = (if String.eqb note "" then "" else "#" ++ note ++ NL)
                     ++ sched ++ " " ++ cmd ++ NL).
  { unfold Props.added_lines. destruct (String.eqb note "").
    - cbn [app PyStr.join append]. now rewrite !TextFacts.append_assoc.
    - cbn [app PyStr.join]. now rewrite !TextFacts.append_assoc. }
  destruct (Props.current_text w) as [text|] eqn:Ht.
  - rewrite EditFacts.join_app
      by (eauto using EditFacts.current_lines_some,
            EditFacts.added_lines_nonempty).
    rewrite (EditFacts.current_lines_join w text Ht).
    rewrite !TextFacts.append_assoc. do 2 f_equal. exact Hadded.
  - rewrite (EditFacts.current_lines_none w Ht). cbn [app append].
    exact Hadded.
Qed.

Lemma add_appends_to_the_table_witness :
  let w := world_of (lines_text [""; "0 2 * * * /bin/backup.sh  "; ""]) in
  crontab (snd (CronMonitorServer.add_cron_job (fun _ => true)
                  "0 3 * * *" "/bin/x" "" w))
  = Some (lines_text ["0 2 * * * /bin/backup.sh"; "0 3 * * * /bin/x"]).
Proof.
  exact (add_appends_to_the_table (fun _ => true)
           (world_of (lines_text [""; "0 2 * * * /bin/backup.sh  "; ""]))
           "0 3 * * *" "/bin/x" "" eq_refl).
Defined.

(** X16.  An entry added with an empty comment is listed last with the
    tokens of its schedule and command, and takes as comment whatever the
    last line of the table leaves pending: the text of that line when it
    is a comment line, the default label otherwise. *)
Theorem add_without_comment :
  forall (accepts : string -> bool) (now : DateTime.datetime) (w : world)
         (sched cmd : string),
    List.length (PyStr.split_ws sched) = 5%nat ->
    PyStr.startswith "#" (PyStr.lstrip sched) = false ->
    Spec.single_line sched = true ->
    Spec.single_line cmd = true ->
    fst (CronMonitorServer.add_cron_job accepts sched cmd "" w) = true ->
    let before := CronMonitorServer.get_cron_jobs now w in
    let after :=
      CronMonitorServer.get_cron_jobs now
        (snd (CronMonitorServer.add_cron_job accepts sched cmd "" w)) in
    exists job : CronMonitorServer.Job,
      after = (before ++ [job])%list
      /\ CronMonitorServer.index job = Z.of_nat (List.length before)
      /\ CronMonitorServer.schedule job
         = PyStr.join " " (PyStr.split_ws sched)
      /\ CronMonitorServer.command job
         = PyStr.join " " (PyStr.split_ws cmd)
      /\ CronMonitorServer.comment job
         = Props.label
             (Props.trailing_annotation (Props.current_lines w)).
Proof.
  intros accepts now w sched cmd H5 Hh Hs Hc Hok before after.
  destruct (AddFacts.single_line_spec _ Hs) as [Hs1 Hs2].
  destruct (AddFacts.single_line_spec _ Hc) as [Hc1 Hc2].
  pose proof (EditFacts.add_installs accepts sched cmd "" w Hok) as Hw.
  assert (Hline : forall c : ascii,
             PyStr.contains c sched = false ->
             PyStr.contains c cmd = false ->
             Ascii.eqb " " c = false ->
             Forall (fun p => PyStr.contains c p = false)
               (Props.added_lines sched cmd "")).
  { intros c H1 H2 H3. repeat constructor. cbn [app].
    rewrite !StepFacts.contains_app, H1, H2. cbn [PyStr.contains].
    now rewrite H3. }
  pose proof (EditFacts.listing_of_staged now w _
                (Props.added_lines sched cmd "")
                (EditFacts.added_lines_nonempty sched cmd "")
                (Hline LF Hs1 Hc1 eq_refl) (Hline CR Hs2 Hc2 eq_refl) Hw)
    as Hafter.
  fold after before in Hafter.
  change (Props.added_lines sched cmd "" ++ [""])%list
    with [sched ++ " " ++ cmd; ""] in Hafter.
  destruct (EditFacts.scan_new_line now sched cmd
              (Spec.final_comment "" (Props.current_lines w))
              (Z.of_nat (List.length before)) H5 Hh)
    as (job & Hscan & Hi & Hsch & Hcmd & Hcom).
  rewrite Hscan in Hafter. exists job.
  rewrite EditFacts.final_comment_trailing in Hcom. auto 10.
Qed.

Lemma add_without_comment_witness :
  let w := world_of (lines_text ["0 2 * * * /bin/backup.sh"; "# orphan"]) in
  exists job : CronMonitorServer.Job,
    CronMonitorServer.get_cron_jobs noon_before
      (snd (CronMonitorServer.add_cron_job (fun _ => true)
              "0 3 * * *" "/bin/x" "" w))
    = (CronMonitorServer.get_cron_jobs noon_before w ++ [job])%list
    /\ CronMonitorServer.comment job = "orphan".
Proof.
  destruct (add_without_comment (fun _ => true) noon_before
              (world_of (lines_text ["0 2 * * * /bin/backup.sh"; "# orphan"]))
              "0 3 * * *" "/bin/x" eq_refl eq_refl eq_refl eq_refl eq_refl)
    as (job & H & _ & _ & _ & Hc).
  exists job. split; [exact H | exact Hc].
Defined.

(** X17.  Adding an entry with a comment and then deleting, with the
    counter of delete_cron_job, the entry just added gives back the table
    that was read: its text trimmed of surrounding white space and closed
    by a newline (a single newline when there was no table).  The comment
    line goes with the entry. *)
Theorem add_then_delete_restores :
  forall (accepts : string -> bool) (w : world) (sched cmd note : string),
    List.length (PyStr.split_ws sched) = 5%nat ->
    PyStr.startswith "#" (PyStr.lstrip sched) = false ->
    note <> "" ->
    Spec.single_line sched = true ->
    Spec.single_line cmd = true ->
    Spec.single_line note = true ->
    let w1 := snd (CronMonitorServer.add_cron_job accepts sched cmd note w) in
    let r := CronMonitorServer.delete_cron_job accepts
               (Spec.count_job_lines (Props.current_lines w)) w1 in
    fst (CronMonitorServer.add_cron_job accepts sched cmd note w) = true ->
    fst r = true ->
    crontab (snd r)
    = Some match Props.current_text w with
           | Some text => text ++ NL
           | None => NL
           end.
Proof.
  intros accepts w sched cmd note H5 Hh Hnote Hs Hc Hn w1 r Hadd Hdel.
  destruct (AddFacts.single_line_spec _ Hs) as [Hs1 Hs2].
  destruct (AddFacts.single_line_spec _ Hc) as [Hc1 Hc2].
  destruct (AddFacts.single_line_spec _ Hn) as [Hn1 Hn2].
  set (line := sched ++ " " ++ cmd).
  assert (Hadded : Props.added_lines sched cmd note = ["#" ++ note; line]).
  { unfold Props.added_lines.
    destruct (String.eqb_spec note ""); [contradiction | reflexivity]. }
  assert (Hline : forall c : ascii,
             PyStr.contains c sched = false ->
             PyStr.contains c cmd = false ->
             Ascii.eqb " " c = false -> PyStr.contains c line = false).
  { intros c H1 H2 H3. subst line.
    rewrite !StepFacts.contains_app, H1, H2. cbn [PyStr.contains].
    now rewrite H3. }
  pose proof (EditFacts.add_installs accepts sched cmd note w Hadd) as Hw1.
  fold w1 in Hw1. rewrite Hadded in Hw1.
  pose proof (EditFacts.new_line_is_entry sched cmd H5 Hh) as Hentry.
  fold line in Hentry. unfold Props.is_entry_line in Hentry.
  apply andb_prop in Hentry as [Hentry _].
  apply andb_prop in Hentry as [Hne Hnh].
  apply negb_true_iff in Hne, Hnh.
  assert (Hstrip : PyStr.strip line <> "")
    by (intros E; rewrite E in Hne; discriminate).
  assert (Hraw : PyStr.startswith "#" line = false).
  { subst line. destruct sched as [|c s]; [reflexivity|].
    cbn [append]. rewrite TextFacts.startswith_char.
    destruct (Ascii.eqb_spec "#" c) as [<-|]; [|reflexivity].
    change (PyStr.lstrip (String "#" s)) with (String "#" s) in Hh.
    now rewrite TextFacts.startswith_char in Hh. }
  assert (Hjob : CronMonitorServer.is_job_line (PyStr.rstrip line) = true).
  { unfold CronMonitorServer.is_job_line.
    rewrite TextFacts.strip_rstrip, (EditFacts.rstrip_keeps_head _ Hraw).
    destruct (String.eqb_spec (PyStr.strip line) ""); [contradiction|].
    reflexivity. }
  assert (Hcr : PyStr.contains CR
                  (PyStr.join NL
                     (Props.current_lines w ++ ["#" ++ note; line]) ++ NL)
                = false).
  { rewrite StepFacts.contains_app. apply orb_false_intro; [|reflexivity].
    apply AddFacts.contains_join; [reflexivity|].
    apply Forall_app. split; [apply EditFacts.current_lines_cr|].
    repeat constructor; [|now apply Hline].
    cbn [append PyStr.contains]. now rewrite Hn2. }
  pose proof (EditFacts.delete_installs accepts
                (Spec.count_job_lines (Props.current_lines w)) w1 _ Hw1 Hdel)
    as Hw2.
  fold r in Hw2. rewrite Hw2. f_equal.
  assert (Hlines : Props.current_lines w1
                   = PyStr.split LF
                       (PyStr.strip
                          (PyStr.join NL
                             (Props.current_lines w ++ ["#" ++ note; line])
                           ++ NL))).
  { unfold Props.current_lines at 1, Props.current_text. rewrite Hw1.
    cbn [option_map]. now rewrite TextFacts.universal_newlines_id. }
  rewrite Hlines.
  destruct (EditFacts.lines_after_add (Props.current_text w)
              ("#" ++ note) line ltac:(discriminate) eq_refl
              ltac:(cbn [append PyStr.contains]; now rewrite Hn1)
              (Hline LF Hs1 Hc1 eq_refl) Hstrip)
    as (Hread & Hcount & Htext).
  { intros d t Ht. unfold Props.current_text in Ht.
    destruct (crontab w) as [table|]; [|discriminate].
    cbn [option_map] in Ht. injection Ht as Ht.
    exact (EditFacts.strip_head_nonspace _ d t Ht). }
  unfold Props.current_lines. rewrite Hread, <- Hcount.
  rewrite <- (Z.add_0_l (Spec.count_job_lines _)).
  rewrite (EditFacts.filter_lines_last_entry _ note _ Hjob None 0 []).
  exact Htext.
Qed.

Lemma add_then_delete_restores_witness :
  let w := world_of (lines_text ["MAILTO=root"; "0 2 * * * /bin/backup.sh"]) in
  let w1 := snd (CronMonitorServer.add_cron_job (fun _ => true)
                   "0 3 * * *" "/bin/x" "nightly" w) in
  crontab (snd (CronMonitorServer.delete_cron_job (fun _ => true) 2 w1))
  = crontab w.
Proof.
  exact (add_then_delete_restores (fun _ => true)
           (world_of (lines_text ["MAILTO=root"; "0 2 * * * /bin/backup.sh"]))
           "0 3 * * *" "/bin/x" "nightly"
           eq_refl eq_refl ltac:(discriminate) eq_refl eq_refl eq_refl
           eq_refl eq_refl).
Defined.

(* ================================================================== *)
(** * get_cron_activity *)

Module LogFacts.

Import PyStr PyText CronMonitorRoutes Props.

Lemma last_n_suffix {A : Type} (n : nat) (l : list A) :
  exists dropped : list A,
    l = (dropped ++ last_n n l)%list
    /\ (dropped = [] \/ List.length (last_n n l) = n).
Proof.
  exists (firstn (List.length l - n) l). unfold last_n. split.
  - now rewrite firstn_skipn.
  - destruct (Nat.le_gt_cases (List.length l) n) as [H|H].
    + left. replace (List.length l - n)%nat with 0%nat by lia. reflexivity.
    + right. rewrite length_skipn. lia.
Qed.

Lemma last_n_length {A : Type} (n : nat) (l : list A) :
  (List.length (last_n n l) <= n)%nat.
Proof. unfold last_n. rewrite length_skipn. lia. Qed.

Lemma last_n_nonempty {A : Type} (n : nat) (l : list A) :
  l <> [] -> (0 < n)%nat -> last_n n l <> [].
Proof.
  intros Hl Hn E. apply (f_equal (@List.length A)) in E.
  unfold last_n in E. rewrite length_skipn in E. cbn [List.length] in E.
  destruct l; [now elim Hl|]. cbn [List.length] in E. lia.
Qed.

Lemma last_n_Forall {A : Type} (P : A -> Prop) (n : nat) (l : list A) :
  Forall P l -> Forall P (last_n n l).
Proof.
  intros H. destruct (last_n_suffix n l) as (d & E & _).
  rewrite E in H. now apply Forall_app in H.
Qed.

Lemma cron_lines_log_lines (out : string) : Forall log_line (cron_lines out).
Proof.
  unfold cron_lines. apply Forall_forall. intros x Hx.
  apply filter_In in Hx as [Hin Hc].
  pose proof (AddFacts.split_pieces_no_sep LF (universal_newlines out)) as H1.
  pose proof (AddFacts.split_pieces LF CR (universal_newlines out)
                (TextFacts.universal_newlines_no_cr out)) as H2.
  rewrite Forall_forall in H1, H2.
  repeat split; auto.
Qed.

Section Loop.

Variable run : list string -> run_outcome.

(** The loop passes the commands that give nothing. *)
Lemma loop_skip (pre rest : list (list string)) :
  forallb (fun c => silent (run c)) pre = true ->
  activity_loop run (pre ++ rest) = activity_loop run rest.
Proof.
  induction pre as [|c pre IH]; [reflexivity|].
  cbn [forallb app activity_loop]. intros H.
  apply andb_prop in H as [Hc Hpre]. specialize (IH Hpre).
  unfold silent in Hc. destruct (run c) as [out| |]; [|exact IH|discriminate].
  fold (cron_lines out).
  destruct (cron_lines out) as [|x l] eqn:E; [|discriminate].
  exact IH.
Qed.

(** It stops at the first command with lines that mention CRON. *)
Lemma loop_found (cmd : list string) (rest : list (list string))
  (out : string) :
  run cmd = Completed out -> cron_lines out <> [] ->
  activity_loop run (cmd :: rest) = Some (last_n 15 (cron_lines out)).
Proof.
  intros Hrun Hne. cbn [activity_loop]. rewrite Hrun. fold (cron_lines out).
  pose proof (last_n_nonempty 15 (cron_lines out) Hne ltac:(lia)) as H.
  destruct (last_n 15 (cron_lines out)); [now elim H | reflexivity].
Qed.

(** What the loop returns. *)
Lemma loop_shape (cmds : list (list string)) (r : list string) :
  activity_loop run cmds = Some r ->
  r = ["No cron activity found in logs"]
  \/ (r <> [] /\ exists out : string, r = last_n 15 (cron_lines out)).
Proof.
  induction cmds as [|c cmds IH]; cbn [activity_loop].
  - intros H. left. now injection H as <-.
  - destruct (run c) as [out| |]; [|exact IH|discriminate].
    fold (cron_lines out).
    destruct (last_n 15 (cron_lines out)) as [|x l] eqn:E; [exact IH|].
    intros H. injection H as <-. right. split; [discriminate|].
    exists out. now rewrite E.
Qed.

End Loop.

End LogFacts.

(** X18.  get_cron_activity never returns an empty list: it returns one of
    its two messages, or between 1 and 15 lines each of which mentions
    CRON and holds no line break. *)
Theorem activity_is_a_message_or_cron_lines :
  forall run : list string -> run_outcome,
    let r := CronMonitorRoutes.get_cron_activity run in
    r = ["No cron activity found in logs"]
    \/ r = ["Error reading cron logs"]
    \/ (r <> [] /\ (List.length r <= 15)%nat /\ Forall Props.log_line r).
Proof.
  intros run r. subst r. unfold CronMonitorRoutes.get_cron_activity.
  destruct (CronMonitorRoutes.activity_loop run CronMonitorRoutes.commands)
    as [r|] eqn:E; [|now right; left].
  destruct (LogFacts.loop_shape run _ r E) as [->|[Hne [out ->]]];
    [now left|].
  right; right. split; [exact Hne|]. split.
  - apply LogFacts.last_n_length.
  - apply LogFacts.last_n_Forall, LogFacts.cron_lines_log_lines.
Qed.

(** X19.  The activity list comes from one log only: the first command, in
    the order journal, cron.log, syslog, that exits with status 0 and has
    output lines that mention CRON, all commands before it giving nothing.
    The list is the end of those lines, in their order, and is cut only
    to leave 15. *)
Theorem activity_comes_from_the_first_log_with_cron_lines :
  forall (run : list string -> run_outcome)
         (pre post : list (list string)) (cmd : list string) (out : string),
    CronMonitorRoutes.commands = (pre ++ cmd :: post)%list ->
    forallb (fun c => Props.silent (run c)) pre = true ->
    run cmd = Completed out ->
    Props.cron_lines out <> [] ->
    let r := CronMonitorRoutes.get_cron_activity run in
    exists dropped : list string,
      Props.cron_lines out = (dropped ++ r)%list
      /\ (dropped = [] \/ List.length r = 15%nat).
Proof.
  intros run pre post cmd out Hc Hpre Hrun Hne r. subst r.
  unfold CronMonitorRoutes.get_cron_activity. rewrite Hc.
  rewrite (LogFacts.loop_skip run pre _ Hpre).
  rewrite (LogFacts.loop_found run cmd post out Hrun Hne).
  apply LogFacts.last_n_suffix.
Qed.

Lemma activity_comes_from_the_first_log_with_cron_lines_witness :
  let run := fun cmd : list string =>
               match cmd with
               | "journalctl" :: _ => NonZeroExit
               | ["tail"; "-20"; "/var/log/cron.log"] =>
                   Completed "Nov  3 12:00:01 host sshd[3]: ok"
               | _ =>
                   Completed
                     (lines_text
                        ["Nov  3 12:00:01 host CRON[7]: (root) CMD (x)";
                         "Nov  3 12:00:02 host kernel: tick"])
               end in
  exists dropped : list string,
    ["Nov  3 12:00:01 host CRON[7]: (root) CMD (x)"]
    = (dropped ++ CronMonitorRoutes.get_cron_activity run)%list
    /\ (dropped = []
        \/ List.length (CronMonitorRoutes.get_cron_activity run) = 15%nat).
Proof.
  exact (activity_comes_from_the_first_log_with_cron_lines
           (fun cmd : list string =>
              match cmd with
              | "journalctl" :: _ => NonZeroExit
              | ["tail"; "-20"; "/var/log/cron.log"] =>
                  Completed "Nov  3 12:00:01 host sshd[3]: ok"
              | _ =>
                  Completed
                    (lines_text
                       ["Nov  3 12:00:01 host CRON[7]: (root) CMD (x)";
                        "Nov  3 12:00:02 host kernel: tick"])
              end)
           [["journalctl"; "-u"; "cron"; "-n"; "20"; "--no-pager"];
            ["tail"; "-20"; "/var/log/cron.log"]]
           [] ["tail"; "-20"; "/var/log/syslog"] _
           eq_refl eq_refl eq_refl ltac:(discriminate)).
Defined.

(** X20.  The two messages of get_cron_activity.  When every command gives
    nothing the answer is the message that no activity was found.  When a
    command fails otherwise than by its exit status, the commands before
    it giving nothing, the answer is the error message, whatever the
    later logs hold. *)
Theorem activity_messages :
  forall run : list string -> run_outcome,
    (forallb (fun c => Props.silent (run c)) CronMonitorRoutes.commands
     = true ->
     CronMonitorRoutes.get_cron_activity run
     = ["No cron activity found in logs"])
    /\ (forall (pre post : list (list string)) (cmd : list string),
          CronMonitorRoutes.commands = (pre ++ cmd :: post)%list ->
          forallb (fun c => Props.silent (run c)) pre = true ->
          run cmd = OtherFailure ->
          CronMonitorRoutes.get_cron_activity run
          = ["Error reading cron logs"]).
Proof.
  intros run. unfold CronMonitorRoutes.get_cron_activity. split.
  - intros H.
    rewrite <- (app_nil_r CronMonitorRoutes.commands).
    now rewrite (LogFacts.loop_skip run _ [] H).
  - intros pre post cmd Hc Hpre Hrun. rewrite Hc.
    rewrite (LogFacts.loop_skip run pre _ Hpre).
    cbn [CronMonitorRoutes.activity_loop]. now rewrite Hrun.
Qed.

Lemma activity_messages_witness :
  CronMonitorRoutes.get_cron_activity (fun _ => NonZeroExit)
  = ["No cron activity found in logs"]
  /\ CronMonitorRoutes.get_cron_activity
       (fun cmd =>
          match cmd with
          | "journalctl" :: _ => OtherFailure
          | _ => Completed "Nov  3 12:00:01 host CRON[7]: (root) CMD (x)"
          end)
     = ["Error reading cron logs"].
Proof.
  split.
  - exact (proj1 (activity_messages (fun _ => NonZeroExit)) eq_refl).
  - exact (proj2 (activity_messages
                    (fun cmd =>
                       match cmd with
                       | "journalctl" :: _ => OtherFailure
                       | _ =>
                           Completed
                             "Nov  3 12:00:01 host CRON[7]: (root) CMD (x)"
                       end))
             [] _ _ eq_refl eq_refl eq_refl).
Defined.

(* ================================================================== *)
(** * The preview route of do_GET *)

Module RouteFacts.

Import PyStr PyText DateTime CronPreview CronMonitorRoutes Spec Props.

Example replace_ex :
  replace "aa" "b" "aaaaa" = "bba"
  /\ replace "%20" " " "0%2012%20*" = "0 12 *"
  /\ contains_str "CRON" "host CRON[7]: x" = true
  /\ contains_str "CRON" "host cron[7]: x" = false.
Proof. repeat split; reflexivity. Qed.

Example preview_expression_ex :
  preview_expression "/api/preview/*/5%20%2A%20%2A%20%2A%20%2A"
  = "5 * * * *"
  /\ preview_expression "/api/preview/*%2F5%20*%20*%20*%20*"
     = "*%2F5 * * * *".
Proof. split; reflexivity. Qed.

Lemma startswith_nil (s : string) : startswith "" s = true.
Proof. now destruct s. Qed.

Lemma startswith_cons (a b : ascii) (p s : string) :
  startswith (String a p) (String b s) = Ascii.eqb b a && startswith p s.
Proof.
  unfold startswith. cbn [prefix].
  destruct (ascii_dec a b) as [->|Hn].
  - now rewrite Ascii.eqb_refl.
  - destruct (Ascii.eqb_spec b a) as [->|_]; [now elim Hn | reflexivity].
Qed.

Lemma startswith_app (p s : string) : startswith p (p ++ s) = true.
Proof.
  induction p as [|a p IH]; [apply startswith_nil|].
  cbn [append]. now rewrite startswith_cons, Ascii.eqb_refl.
Qed.

(** A string that starts with the two characters of a step holds a
    slash. *)
Lemma step_has_slash (s : string) :
  startswith "*/" s = true -> contains "/" s = true.
Proof.
  destruct s as [|a [|b r]].
  - discriminate.
  - rewrite startswith_cons. cbn [startswith prefix].
    now rewrite andb_false_r.
  - rewrite !startswith_cons. intros H.
    apply andb_prop in H as [_ H]. apply andb_prop in H as [H _].
    cbn [contains]. rewrite H. now rewrite orb_true_r.
Qed.

(** ** replace *)

Lemma replace_from_skip (old new p s : string) :
  replace_from old new (String.length p) (p ++ s)
  = replace_from old new 0 s.
Proof.
  induction p as [|a p IH]; [now destruct s|].
  cbn [String.length append replace_from]. exact IH.
Qed.

Lemma replace_hit (a : ascii) (old new s : string) :
  replace (String a old) new (String a old ++ s)
  = new ++ replace (String a old) new s.
Proof.
  unfold replace. cbn [append]. cbn [replace_from].
  change (String a (old ++ s)) with (String a old ++ s).
  rewrite startswith_app. cbn [String.length Nat.sub].
  rewrite Nat.sub_0_r. now rewrite replace_from_skip.
Qed.

Lemma replace_miss (old new : string) (c : ascii) (s : string) :
  startswith old (String c s) = false ->
  replace old new (String c s) = String c (replace old new s).
Proof. unfold replace. cbn [replace_from]. now intros ->. Qed.

Lemma contains_replace_from (c : ascii) (old new : string) (s : string) :
  contains c new = false -> contains c s = false ->
  forall skip : nat, contains c (replace_from old new skip s) = false.
Proof.
  intros Hnew. induction s as [|d s IH]; [reflexivity|].
  cbn [contains]. intros H. apply orb_false_elim in H as [Hd Hs].
  specialize (IH Hs). intros [|k]; cbn [replace_from]; [|apply IH].
  destruct (startswith old (String d s)).
  - now rewrite StepFacts.contains_app, Hnew, IH.
  - cbn [contains]. now rewrite Hd, IH.
Qed.

(** ** The expression of a preview request holds no slash *)

Lemma last_Forall {A : Type} (P : A -> Prop) (l : list A) (d : A) :
  Forall P l -> P d -> P (last l d).
Proof.
  intros H Hd. induction H as [|x l Hx Hl IH]; [exact Hd|].
  destruct l; [exact Hx | exact IH].
Qed.

Lemma expression_no_slash (path : string) :
  contains "/" (preview_expression path) = false.
Proof.
  unfold preview_expression, replace.
  apply contains_replace_from; [reflexivity|].
  apply contains_replace_from; [reflexivity|].
  apply (last_Forall (fun p => contains "/" p = false));
    [apply AddFacts.split_pieces_no_sep | reflexivity].
Qed.

Lemma split_ws_pieces (c : ascii) (s : string) :
  contains c s = false -> Forall (fun p => contains c p = false) (split_ws s).
Proof.
  induction s as [|d s IH]; [constructor|].
  cbn [contains]. intros H. apply orb_false_elim in H as [Hd Hs].
  specialize (IH Hs). cbn [split_ws].
  assert (H1 : contains c (String d "") = false)
    by (cbn [contains]; now rewrite Hd).
  destruct (isspace d); [exact IH|].
  destruct s as [|e s']; [now repeat constructor|].
  destruct (isspace e); [now constructor|].
  destruct (split_ws (String e s')) as [|t ts]; [now repeat constructor|].
  inversion IH as [|? ? Ht Hts]; subst.
  constructor; [|exact Hts]. cbn [contains]. now rewrite Hd, Ht.
Qed.

(** Without a slash no field is a step. *)
Lemma no_slash_no_step (expression : string) :
  contains "/" expression = false -> nonpositive_step expression = false.
Proof.
  intros H. unfold nonpositive_step.
  pose proof (split_ws_pieces "/" _ (TextFacts.contains_strip "/" _ H))
    as Hp.
  destruct (split_ws (strip expression)) as [|a [|b [|c [|d [|e [|f l]]]]]];
    try reflexivity.
  inversion Hp as [|? ? Ha _]; subst. cbn [nonpositive_step_parts].
  destruct (startswith "*/" a) eqn:E; [|reflexivity].
  apply step_has_slash in E. congruence.
Qed.

(** The timestamps of an expression that is not a step of zero or less
    are the renderings of datetimes that the datetime module can hold, in
    increasing order. *)
Lemma runs_ordered (now : datetime) (expression : string) :
  rep now -> nonpositive_step expression = false ->
  NoDup (next_runs (parse_cron now expression))
  /\ exists ts : list datetime,
       next_runs (parse_cron now expression) = map strftime ts
       /\ Forall rep ts
       /\ StronglySorted earlier ts.
Proof.
  intros Hrep Hstep.
  assert (Hnil :
            NoDup (@nil string)
            /\ exists ts : list datetime,
                 [] = map strftime ts
                 /\ Forall rep ts /\ StronglySorted earlier ts).
  { split; [constructor|]. exists [].
    split; [reflexivity|]. split; constructor. }
  unfold parse_cron.
  destruct (parse_cron_body now expression) as [r|e] eqn:Hb; [|exact Hnil].
  destruct (ParseFacts.body_ok now expression r Hb) as [-> | [_ Hruns]];
    [exact Hnil|].
  unfold calculate_next_runs in Hruns.
  destruct (run_datetimes now (split_ws (strip expression)) 5) as [l|]
    eqn:Hl; [|discriminate].
  cbn [bind] in Hruns. apply Ok_inj in Hruns. rewrite <- Hruns.
  destruct (RunsFacts.run_datetimes_ascending now _ 5 l Hrep Hstep Hl)
    as [lo Hasc].
  pose proof (RunsFacts.ascending_firstn lo 5 l Hasc) as Hasc5.
  rewrite firstn_map. split.
  - exact (RunsFacts.ascending_NoDup lo _ Hasc5).
  - exists (firstn 5 l). split; [reflexivity|].
    split; [exact (RunsFacts.ascending_rep lo _ Hasc5) | exact (proj1 Hasc5)].
Qed.

(** ** The routes *)

Lemma route_preview (now : datetime) (run : list string -> run_outcome)
  (path : string) (w : world) :
  startswith "/api/preview/" path = true ->
  do_GET now run path w
  = (200, Preview (parse_cron now (preview_expression path))).
Proof.
  intros H. unfold do_GET. rewrite H.
  destruct (String.eqb_spec path "/") as [->|_]; [discriminate|].
  destruct (String.eqb_spec path "/api/jobs") as [->|_]; [discriminate|].
  destruct (String.eqb_spec path "/api/activity") as [->|_];
    [discriminate|].
  reflexivity.
Qed.

(** ** Escaped text *)

Lemma contains_escape (s : string) :
  contains "/" s = false -> contains "/" (escape s) = false.
Proof.
  induction s as [|c s IH]; [reflexivity|].
  cbn [contains escape]. intros H. apply orb_false_elim in H as [Hc Hs].
  rewrite StepFacts.contains_app, (IH Hs), orb_false_r.
  unfold escape_char.
  destruct (Ascii.eqb c " "); [reflexivity|].
  destruct (Ascii.eqb c "*"); [reflexivity|].
  cbn [contains]. now rewrite Hc.
Qed.

Lemma unescape_spaces (s : string) :
  contains "%" s = false -> replace "%20" " " (escape s) = escape_stars s.
Proof.
  induction s as [|c s IH]; [reflexivity|].
  cbn [contains escape escape_stars]. intros H.
  apply orb_false_elim in H as [Hc Hs]. specialize (IH Hs).
  unfold escape_char, escape_star_char.
  destruct (Ascii.eqb_spec c " ") as [->|Hsp].
  - rewrite replace_hit, IH. reflexivity.
  - destruct (Ascii.eqb_spec c "*") as [->|Hst].
    + cbn [append].
      rewrite replace_miss by reflexivity.
      rewrite replace_miss by reflexivity.
      rewrite replace_miss
        by (rewrite startswith_cons; reflexivity).
      now rewrite IH.
    + cbn [append].
      rewrite replace_miss by (rewrite startswith_cons, Hc; reflexivity).
      now rewrite IH.
Qed.

Lemma unescape_stars (s : string) :
  contains "%" s = false -> replace "%2A" "*" (escape_stars s) = s.
Proof.
  induction s as [|c s IH]; [reflexivity|].
  cbn [contains escape_stars]. intros H.
  apply orb_false_elim in H as [Hc Hs]. specialize (IH Hs).
  unfold escape_star_char.
  destruct (Ascii.eqb_spec c "*") as [->|Hst].
  - rewrite replace_hit, IH. reflexivity.
  - cbn [append].
    rewrite replace_miss by (rewrite startswith_cons, Hc; reflexivity).
    now rewrite IH.
Qed.

Lemma expression_of_escaped (dir s : string) :
  contains "/" s = false -> contains "%" s = false ->
  preview_expression (dir ++ String "/" (escape s)) = s.
Proof.
  intros Hs Hp. unfold preview_expression.
  rewrite TextFacts.split_app_sep.
  rewrite (StepFacts.split_without_sep "/" (escape s))
    by (now apply contains_escape).
  rewrite last_last. rewrite unescape_spaces by exact Hp.
  now apply unescape_stars.
Qed.

End RouteFacts.

(** X21.  The expression a preview request hands to parse_cron is the last
    segment of the path and holds no slash, so no step field reaches
    parse_cron by this route: whatever the path, the timestamps of the
    answer are distinct, and they are the renderings of datetimes that the
    datetime module can hold, in strictly increasing order. *)
Theorem preview_route_never_sees_a_slash :
  forall (now : DateTime.datetime) (run : list string -> run_outcome)
         (path : string) (w : world),
    Spec.wf now ->
    PyStr.startswith "/api/preview/" path = true ->
    let expression := CronMonitorRoutes.preview_expression path in
    CronMonitorRoutes.do_GET now run path w
    = (200, CronMonitorRoutes.Preview
              (CronPreview.parse_cron now expression))
    /\ PyStr.contains "/" expression = false
    /\ NoDup (CronPreview.next_runs (CronPreview.parse_cron now expression))
    /\ exists ts : list DateTime.datetime,
         CronPreview.next_runs (CronPreview.parse_cron now expression)
         = map DateTime.strftime ts
         /\ Forall Spec.rep ts
         /\ StronglySorted Spec.earlier ts.
Proof.
  intros now run path w [Hrep _] Hpath expression. subst expression.
  pose proof (RouteFacts.expression_no_slash path) as Hno.
  split; [now apply RouteFacts.route_preview|].
  split; [exact Hno|].
  apply RouteFacts.runs_ordered; [exact Hrep|].
  now apply RouteFacts.no_slash_no_step.
Qed.

Lemma preview_route_never_sees_a_slash_witness :
  CronMonitorRoutes.do_GET noon_before (fun _ => NonZeroExit)
    "/api/preview/*/0%20%2A%20%2A%20%2A%20%2A" (world_of "")
  = (200, CronMonitorRoutes.Preview
            (CronPreview.parse_cron noon_before "0 * * * *"))
  /\ exists ts : list DateTime.datetime,
       CronPreview.next_runs (CronPreview.parse_cron noon_before "0 * * * *")
       = map DateTime.strftime ts
       /\ Forall Spec.rep ts
       /\ StronglySorted Spec.earlier ts.
Proof.
  destruct (preview_route_never_sees_a_slash noon_before
              (fun _ => NonZeroExit)
              "/api/preview/*/0%20%2A%20%2A%20%2A%20%2A" (world_of "")
              ltac:(split; [reflexivity | cbn; lia]) eq_refl)
    as (H1 & _ & _ & H4).
  split; [exact H1 | exact H4].
Defined.

(** X22.  A preview request whose last segment is a text with its spaces
    written [%20] and its asterisks written [%2A] is answered with the
    preview of that text, when the text holds no slash and no percent
    sign. *)
Theorem preview_decodes_spaces_and_asterisks :
  forall (now : DateTime.datetime) (run : list string -> run_outcome)
         (w : world) (expression : string),
    PyStr.contains "/" expression = false ->
    PyStr.contains "%" expression = false ->
    CronMonitorRoutes.do_GET now run
      ("/api/preview/" ++ Props.escape expression) w
    = (200, CronMonitorRoutes.Preview
              (CronPreview.parse_cron now expression)).
Proof.
  intros now run w expression Hs Hp.
  rewrite RouteFacts.route_preview by apply RouteFacts.startswith_app.
  do 2 f_equal. f_equal.
  exact (RouteFacts.expression_of_escaped "/api/preview" expression Hs Hp).
Qed.

Lemma preview_decodes_spaces_and_asterisks_witness :
  CronMonitorRoutes.do_GET noon_before (fun _ => NonZeroExit)
    "/api/preview/30%202%20%2A%20%2A%201-5" (world_of "")
  = (200, CronMonitorRoutes.Preview
            (CronPreview.parse_cron noon_before "30 2 * * 1-5")).
Proof.
  exact (preview_decodes_spaces_and_asterisks noon_before
           (fun _ => NonZeroExit) (world_of "") "30 2 * * 1-5"
           eq_refl eq_refl).
Defined.
